(** * The sandboxed skill library of the skill editor's main process

    A shallow embedding of the Electron main process (the IPC handlers and
    the helpers they share): the sanitizers, the path sandbox
    [validateSkillPath], the tree builder and the file and bundle handlers,
    over a model of Node's POSIX [path] module and of the part of [fs] the
    handlers use.

    Conventions.
    - A JavaScript string is a [string]; each character stands for one
      UTF-16 code unit below 256.
    - A thrown exception is [Throw e]; [message e] is its [.message].
      For an error of a filesystem call the message stands for Node's
      text by its code alone ([ENOENT], [EISDIR], ...); Node's text also
      names the call and the path.
    - [path] is [path.posix]: the separator is [/].
    - The disk holds regular files and directories with readable entries.
      Links and entries that cannot be read, on which [readdir] and [stat]
      reject, are outside the model: what is proved of [buildFileTree]
      concerns the listings it returns.
    - The data of an uploaded file is written as it is, one character a
      byte; it is the text that [readFile] with [utf-8] returns for bytes
      below 128 only. *)

From Stdlib Require Import Ascii NArith ZArith Lia Sorted.
From stdpp Require Import base strings list pretty.

(** ** Exceptions and results *)

Inductive exn :=
  | Error (msg : string)      (* [new Error(msg)] thrown by the program *)
  | ZodError                  (* a schema's [parse] rejected the input *)
  | FsError (code : string).  (* a filesystem call rejected *)

Definition message (e : exn) : string :=
  match e with
  | Error m => m
  | ZodError => "ZodError"
  | FsError c => c
  end.

Inductive result (A : Type) :=
  | Ok (a : A)
  | Throw (e : exn).
Arguments Ok {A} a.
Arguments Throw {A} e.

Definition bind {A B} (k : A → result B) (r : result A) : result B :=
  match r with
  | Ok a => k a
  | Throw e => Throw e
  end.

Definition result_or {A} (d : A) (r : result A) : A :=
  match r with
  | Ok a => a
  | Throw _ => d
  end.

#[global] Instance result_ret : MRet result := @Ok.
#[global] Instance result_bind : MBind result := @bind.

(** ** JavaScript strings *)

Module Js.

Definition code (c : ascii) : N := N_of_ascii c.

Definition in_range (lo hi : N) (c : ascii) : bool :=
  (lo <=? code c)%N && (code c <=? hi)%N.

Definition is_lower (c : ascii) : bool := in_range 97 122 c.
Definition is_upper (c : ascii) : bool := in_range 65 90 c.
Definition is_digit (c : ascii) : bool := in_range 48 57 c.

Definition is_char (x c : ascii) : bool := bool_decide (c = x).

(** [String.prototype.toLowerCase] on code units below 256: the ASCII
    capitals and the Latin-1 capitals (all of U+00C0..U+00DE but the
    multiplication sign) move up by 32. *)
Definition lower_char (c : ascii) : ascii :=
  if is_upper c || (in_range 192 222 c && negb (code c =? 215)%N)
  then ascii_of_N (code c + 32)
  else c.

Fixpoint toLowerCase (s : string) : string :=
  match s with
  | "" => ""
  | String c s' => String (lower_char c) (toLowerCase s')
  end.

(** [s.replace(/[^...]/g, '')] for a character class: the characters of
    the class [keep] stay. *)
Fixpoint keep_chars (keep : ascii → bool) (s : string) : string :=
  match s with
  | "" => ""
  | String c s' =>
      if keep c then String c (keep_chars keep s') else keep_chars keep s'
  end.

Fixpoint all_chars (p : ascii → bool) (s : string) : bool :=
  match s with
  | "" => true
  | String c s' => p c && all_chars p s'
  end.

Definition eqb (a b : string) : bool := bool_decide (a = b).

Definition startsWith (s pre : string) : bool := String.prefix pre s.

Fixpoint endsWithChar (x : ascii) (s : string) : bool :=
  match s with
  | "" => false
  | String c "" => is_char x c
  | String _ s' => endsWithChar x s'
  end.

(** [/\s/]: white space and line terminators (below 256). *)
Definition is_space (c : ascii) : bool :=
  in_range 9 13 c || (code c =? 32)%N || (code c =? 160)%N.

(** Line terminators below 256: LF and CR. *)
Definition is_line_terminator (c : ascii) : bool :=
  (code c =? 10)%N || (code c =? 13)%N.

Fixpoint trimStart (s : string) : string :=
  match s with
  | "" => ""
  | String c s' => if is_space c then trimStart s' else s
  end.

Definition trim (s : string) : string :=
  String.rev (trimStart (String.rev (trimStart s))).

Fixpoint map_char (f : ascii → ascii) (s : string) : string :=
  match s with
  | "" => ""
  | String c s' => String (f c) (map_char f s')
  end.

(** [s.substring(0, n)]. *)
Fixpoint take (n : nat) (s : string) : string :=
  match n, s with
  | S n', String c s' => String c (take n' s')
  | _, _ => ""
  end.

End Js.

(** ** Node's [path] module (POSIX flavour)

    [path] is a dependency of the program, not part of it.  Its functions
    are modelled on the segments of a path: [split] is [s.split('/')], a
    segment is a non-empty piece, and [normalizeString] keeps a stack of
    segments on which [.] is dropped and [..] pops. *)

Module Path.

Definition is_sep (c : ascii) : bool := Js.is_char "/" c.

Fixpoint split (s : string) : list string :=
  match s with
  | "" => [""]
  | String c s' =>
      if is_sep c then "" :: split s'
      else match split s' with
           | h :: t => String c h :: t
           | [] => [String c ""]
           end
  end.

Definition segments (s : string) : list string :=
  filter (λ x, x ≠ "") (split s).

Fixpoint join_segments (l : list string) : string :=
  match l with
  | [] => ""
  | x :: l' =>
      match l' with
      | [] => x
      | _ => x +:+ "/" +:+ join_segments l'
      end
  end.

(** The stack [acc] holds the segments kept so far, last one first. *)
Fixpoint norm_go (allowAboveRoot : bool) (acc segs : list string)
  : list string :=
  match segs with
  | [] => rev acc
  | s :: rest =>
      if decide (s = ".") then norm_go allowAboveRoot acc rest
      else if decide (s = "..") then
        match acc with
        | top :: acc' =>
            if decide (top = "..") then
              norm_go allowAboveRoot
                (if allowAboveRoot then ".." :: acc else acc) rest
            else norm_go allowAboveRoot acc' rest
        | [] =>
            norm_go allowAboveRoot
              (if allowAboveRoot then [".."] else []) rest
        end
      else norm_go allowAboveRoot (s :: acc) rest
  end.

Definition normalizeString (path : string) (allowAboveRoot : bool) : string :=
  join_segments (norm_go allowAboveRoot [] (segments path)).

Definition isAbsolute (path : string) : bool :=
  match path with
  | String c _ => is_sep c
  | "" => false
  end.

Definition normalize (path : string) : string :=
  if decide (path = "") then "."
  else
    let isAbs := isAbsolute path in
    let trailingSeparator := Js.endsWithChar "/" path in
    let body := normalizeString path (negb isAbs) in
    if decide (body = "") then
      if isAbs then "/" else if trailingSeparator then "./" else "."
    else
      let body := if trailingSeparator then body +:+ "/" else body in
      if isAbs then "/" +:+ body else body.

Fixpoint join_args (joined : option string) (args : list string)
  : option string :=
  match args with
  | [] => joined
  | arg :: rest =>
      if decide (arg = "") then join_args joined rest
      else join_args
             (Some match joined with
                   | None => arg
                   | Some j => j +:+ "/" +:+ arg
                   end) rest
  end.

Definition join (args : list string) : string :=
  match join_args None args with
  | None => "."
  | Some joined => normalize joined
  end.

(** The loop of [resolve] runs over the arguments from the right and
    ends with the working directory. *)
Fixpoint resolve_go (paths : list string) (resolvedPath : string)
  : string * bool :=
  match paths with
  | [] => (resolvedPath, false)
  | path :: rest =>
      if decide (path = "") then resolve_go rest resolvedPath
      else
        let resolvedPath := path +:+ "/" +:+ resolvedPath in
        if isAbsolute path then (resolvedPath, true)
        else resolve_go rest resolvedPath
  end.

Definition resolve (cwd : string) (args : list string) : string :=
  let '(resolvedPath, resolvedAbsolute) :=
    resolve_go (rev args ++ [cwd]) "" in
  let resolvedPath := normalizeString resolvedPath (negb resolvedAbsolute) in
  if resolvedAbsolute then "/" +:+ resolvedPath
  else if decide (resolvedPath = "") then "." else resolvedPath.

Definition basename (path : string) : string :=
  default "" (last (segments path)).

(** [dirname] scans the path from its end, first character excluded:
    trailing separators, then the last segment, up to the separator
    before it. *)
Fixpoint drop_while (p : ascii → bool) (l : list ascii) : list ascii :=
  match l with
  | c :: l' => if p c then drop_while p l' else l
  | [] => []
  end.

Definition dirname (path : string) : string :=
  match String.list_ascii_of_string path with
  | [] => "."
  | c0 :: tl =>
      let hasRoot := is_sep c0 in
      let r1 := drop_while is_sep (rev tl) in
      let r2 := drop_while (λ c, negb (is_sep c)) r1 in
      match r2 with
      | [] => if hasRoot then "/" else "."
      | _ :: r3 =>
          if hasRoot && bool_decide (r3 = []) then "//"
          else String.string_of_list_ascii (c0 :: rev r3)
      end
  end.

Fixpoint last_dot_suffix (s : string) : option string :=
  match s with
  | "" => None
  | String c s' =>
      match last_dot_suffix s' with
      | Some e => Some e
      | None => if Js.is_char "." c then Some s else None
      end
  end.

(** The extension runs from the last dot of the base name, unless that
    dot is its first character or the base name is [..]. *)
Definition extname (path : string) : string :=
  match basename path with
  | "" => ""
  | String c rest =>
      if decide (String c rest = "..") then ""
      else default "" (last_dot_suffix rest)
  end.

End Path.

(** ** Sanitizers *)

(** [/[^a-z0-9-]/]: the complement of the class kept in a skill name. *)
Definition skill_name_char (c : ascii) : bool :=
  Js.is_lower c || Js.is_digit c || Js.is_char "-" c.

(** [/[^a-zA-Z0-9._\-]/]: the complement of the class kept in a file name. *)
Definition file_name_char (c : ascii) : bool :=
  Js.is_lower c || Js.is_upper c || Js.is_digit c
  || Js.is_char "." c || Js.is_char "_" c || Js.is_char "-" c.

Definition sanitizeFileName (name : string) : result string :=
  let sanitized := Js.keep_chars file_name_char name in
  if String.length sanitized =? 0 then
    Throw (Error "Invalid filename - must contain at least one valid character")
  else if 255 <? String.length sanitized then
    Throw (Error "Filename is too long (max 255 characters)")
  else Ok sanitized.

Definition sanitizeSkillName (name : string) : result string :=
  let sanitized := Js.keep_chars skill_name_char (Js.toLowerCase name) in
  if String.length sanitized =? 0 then
    Throw (Error "Skill name must contain at least one valid character (lowercase letters, numbers, or hyphens)")
  else if 255 <? String.length sanitized then
    Throw (Error "Skill name is too long (max 255 characters)")
  else if Js.eqb sanitized "skill" || Js.eqb sanitized "" then
    Throw (Error "Invalid skill name")
  else Ok sanitized.

(** [/^[a-z0-9-]+$/.test(s)] *)
Definition matches_skill_name_pattern (s : string) : bool :=
  negb (Js.eqb s "") && Js.all_chars skill_name_char s.

Definition backslash_to_slash (c : ascii) : ascii :=
  if Js.is_char "\" c then "/"%char else c.

(** [segments.map(f)] for an [f] that may throw: the first exception
    ends the loop. *)
Fixpoint map_result {A B} (f : A → result B) (l : list A) : result (list B) :=
  match l with
  | [] => Ok []
  | x :: l' =>
      y ← f x;
      ys ← map_result f l';
      Ok (y :: ys)
  end.

Definition sanitizeSegment (segment : string) : result string :=
  sanitized ← sanitizeFileName segment;
  if bool_decide (sanitized = ".") || bool_decide (sanitized = "..")
  then Throw (Error "Invalid path segment")
  else Ok sanitized.

Definition sanitizeRelativePath (relativePath : string) : result string :=
  if decide (relativePath = "") then Throw (Error "Invalid path")
  else
    (* [split(/[/\\]+/).filter(Boolean)] *)
    let segments := Path.segments (Js.map_char backslash_to_slash relativePath) in
    if decide (segments = []) then Throw (Error "Invalid path")
    else
      sanitizedSegments ← map_result sanitizeSegment segments;
      Ok (Path.join_segments sanitizedSegments).

(** ** File classifier *)

Definition EDITABLE_EXTENSIONS : list string :=
  [".md"; ".txt"; ".js"; ".py"; ".json"; ".html"; ".css"; ".yaml"; ".yml";
   ".sh"; ".bash"; ".lua"; ".rb"; ".go"; ".rs"; ".ts"; ".tsx"; ".jsx"].

Definition MAX_FILE_SIZE : N := 10 * 1024 * 1024.

Definition isEditableFile (filePath : string) : bool :=
  let ext := Js.toLowerCase (Path.extname filePath) in
  bool_decide (ext ∈ EDITABLE_EXTENSIONS).

Definition getFileType (filePath : string) : string :=
  let ext := Js.toLowerCase (Path.extname filePath) in
  if bool_decide (ext ∈ [".jpg"; ".jpeg"; ".png"; ".gif"; ".webp"; ".svg"])
  then "image"
  else if bool_decide (ext ∈ [".pdf"; ".doc"; ".docx"; ".xls"; ".xlsx"])
  then "document"
  else if bool_decide (ext ∈ [".mp4"; ".webm"; ".mov"; ".avi"]) then "video"
  else if bool_decide (ext ∈ [".mp3"; ".wav"; ".flac"]) then "audio"
  else if isEditableFile filePath then "text"
  else "binary".

(** ** The path sandbox *)

Definition access_denied : string := "Invalid path - access denied".

Section Sandbox.
(** [process.cwd()] and [app.getPath('userData')]. *)
Variables (cwd userData : string).

Definition getSkillsDir : string := Path.join [userData; "skills"].

Definition validateSkillPath (requestedPath baseDir : string)
  : result string :=
  let normalized := Path.normalize requestedPath in
  let fullPath :=
    if Path.isAbsolute normalized then normalized
    else Path.join [baseDir; normalized] in
  let resolvedPath := Path.resolve cwd [fullPath] in
  let resolvedBase := Path.resolve cwd [baseDir] in
  if negb (Js.startsWith resolvedPath (resolvedBase +:+ "/"))
     && negb (Js.eqb resolvedPath resolvedBase)
  then Throw (Error access_denied)
  else Ok resolvedPath.

End Sandbox.

(** ** The filesystem

    The disk is a tree.  A file carries its text (what [readFile] with
    [utf-8] returns) and the size [stat] reports for it; a directory
    carries its entries in the order [readdir] lists them. *)

#[warnings="-register-all"]
Inductive node :=
  | File (content : string) (size : N)
  | Dir (entries : list (string * node)).

Module Fs.

Fixpoint entry_lookup (name : string) (es : list (string * node))
  : option node :=
  match es with
  | [] => None
  | (n, c) :: es' => if decide (n = name) then Some c else entry_lookup name es'
  end.

(** Replace the entry called [name], or add it at the end. *)
Fixpoint entry_put (name : string) (c : node) (es : list (string * node))
  : list (string * node) :=
  match es with
  | [] => [(name, c)]
  | (n, c0) :: es' =>
      if decide (n = name) then (n, c) :: es'
      else (n, c0) :: entry_put name c es'
  end.

Fixpoint entry_remove (name : string) (es : list (string * node))
  : list (string * node) :=
  match es with
  | [] => []
  | (n, c0) :: es' =>
      if decide (n = name) then es' else (n, c0) :: entry_remove name es'
  end.

Fixpoint lookup (n : node) (segs : list string) : option node :=
  match segs with
  | [] => Some n
  | s :: rest =>
      match n with
      | Dir es =>
          match entry_lookup s es with
          | Some c => lookup c rest
          | None => None
          end
      | File _ _ => None
      end
  end.

(** [mkdir] with [recursive: true]. *)
Fixpoint mkdir_p (n : node) (segs : list string) : result node :=
  match segs with
  | [] =>
      match n with
      | Dir _ => Ok n
      | File _ _ => Throw (FsError "EEXIST")
      end
  | s :: rest =>
      match n with
      | File _ _ => Throw (FsError "ENOTDIR")
      | Dir es =>
          c' ← mkdir_p (default (Dir []) (entry_lookup s es)) rest;
          Ok (Dir (entry_put s c' es))
      end
  end.

(** Put [new] at [segs]: the parent has to be a directory, and a
    directory is not overwritten. *)
Fixpoint put_file (n : node) (segs : list string) (new : node)
  : result node :=
  match segs with
  | [] => Throw (FsError "EISDIR")
  | s :: rest =>
      match n with
      | File _ _ => Throw (FsError "ENOTDIR")
      | Dir es =>
          match rest with
          | [] =>
              match entry_lookup s es with
              | Some (Dir _) => Throw (FsError "EISDIR")
              | _ => Ok (Dir (entry_put s new es))
              end
          | _ =>
              match entry_lookup s es with
              | Some c =>
                  c' ← put_file c rest new;
                  Ok (Dir (entry_put s c' es))
              | None => Throw (FsError "ENOENT")
              end
          end
      end
  end.

(** [rm] with [recursive: true, force: true]. *)
Fixpoint rm_rf (n : node) (segs : list string) : node :=
  match segs with
  | [] => n
  | s :: rest =>
      match n with
      | File _ _ => n
      | Dir es =>
          match rest with
          | [] => Dir (entry_remove s es)
          | _ =>
              match entry_lookup s es with
              | Some c => Dir (entry_put s (rm_rf c rest) es)
              | None => n
              end
          end
      end
  end.

(** Put the node [new] at [segs], below an existing directory, where
    nothing is yet. *)
Fixpoint put_node (n : node) (segs : list string) (new : node)
  : result node :=
  match segs with
  | [] => Throw (FsError "EEXIST")
  | s :: rest =>
      match n with
      | File _ _ => Throw (FsError "ENOTDIR")
      | Dir es =>
          match rest with
          | [] =>
              match entry_lookup s es with
              | Some _ => Throw (FsError "EEXIST")
              | None => Ok (Dir (entry_put s new es))
              end
          | _ =>
              match entry_lookup s es with
              | Some c =>
                  c' ← put_node c rest new;
                  Ok (Dir (entry_put s c' es))
              | None => Throw (FsError "ENOENT")
              end
          end
      end
  end.

(** The byte length of a text in UTF-8 (code units below 256). *)
Fixpoint utf8_length (s : string) : N :=
  match s with
  | "" => 0
  | String c s' => (if (Js.code c <? 128)%N then 1 else 2) + utf8_length s'
  end.

(** The size [stat] reports for a directory. *)
Definition dir_size : N := 4096.

End Fs.

(** ** Filesystem calls: state and exceptions

    A computation takes the disk and gives back a value or an exception,
    and the disk it leaves. *)

Definition io (A : Type) : Type := node → result A * node.

Definition io_ret {A} (a : A) : io A := λ fs, (Ok a, fs).

Definition io_bind {A B} (k : A → io B) (m : io A) : io B :=
  λ fs, match m fs with
        | (Ok a, fs') => k a fs'
        | (Throw e, fs') => (Throw e, fs')
        end.

#[global] Instance io_mret : MRet io := @io_ret.
#[global] Instance io_mbind : MBind io := @io_bind.

Definition throw {A} (e : exn) : io A := λ fs, (Throw e, fs).

Definition lift {A} (r : result A) : io A := λ fs, (r, fs).

(** The disk as it is now, for calls that only read. *)
Definition get_disk : io node := λ fs, (Ok fs, fs).

Definition try_catch {A} (body : io A) (handler : exn → io A) : io A :=
  λ fs, match body fs with
        | (Ok a, fs') => (Ok a, fs')
        | (Throw e, fs') => handler e fs'
        end.

Section Calls.
Variable cwd : string.

(** The place a path names on the disk. *)
Definition locate (p : string) : list string :=
  Path.segments (Path.resolve cwd [p]).

Definition existsSync (p : string) : io bool :=
  λ fs, (Ok (bool_decide (is_Some (Fs.lookup fs (locate p)))), fs).

Definition mkdir_recursive (p : string) : io unit :=
  λ fs, match Fs.mkdir_p fs (locate p) with
        | Ok fs' => (Ok (), fs')
        | Throw e => (Throw e, fs)
        end.

Definition writeFile (p content : string) (size : N) : io unit :=
  λ fs, match Fs.put_file fs (locate p) (File content size) with
        | Ok fs' => (Ok (), fs')
        | Throw e => (Throw e, fs)
        end.

Definition writeFile_utf8 (p content : string) : io unit :=
  writeFile p content (Fs.utf8_length content).

Definition readFile_utf8 (p : string) : io string :=
  λ fs, match Fs.lookup fs (locate p) with
        | Some (File content _) => (Ok content, fs)
        | Some (Dir _) => (Throw (FsError "EISDIR"), fs)
        | None => (Throw (FsError "ENOENT"), fs)
        end.

(** [stats.size] *)
Definition stat_size (p : string) : io N :=
  λ fs, match Fs.lookup fs (locate p) with
        | Some (File _ size) => (Ok size, fs)
        | Some (Dir _) => (Ok Fs.dir_size, fs)
        | None => (Throw (FsError "ENOENT"), fs)
        end.

Definition readdir (p : string) : io (list (string * node)) :=
  λ fs, match Fs.lookup fs (locate p) with
        | Some (Dir es) => (Ok es, fs)
        | Some (File _ _) => (Throw (FsError "ENOTDIR"), fs)
        | None => (Throw (FsError "ENOENT"), fs)
        end.

(** The node a path names, for the calls that walk a directory. *)
Definition node_at (p : string) : io node :=
  λ fs, match Fs.lookup fs (locate p) with
        | Some n => (Ok n, fs)
        | None => (Throw (FsError "ENOENT"), fs)
        end.

Definition rm_recursive_force (p : string) : io unit :=
  λ fs, (Ok (), Fs.rm_rf fs (locate p)).

(** [fs.rename]: the source moves, with all below it, to a place where
    nothing is yet. *)
Definition rename (old new : string) : io unit :=
  λ fs, match Fs.lookup fs (locate old) with
        | None => (Throw (FsError "ENOENT"), fs)
        | Some n =>
            if bool_decide (locate old `prefix_of` locate new)
            then (Throw (FsError "EINVAL"), fs)
            else match Fs.put_node (Fs.rm_rf fs (locate old)) (locate new) n with
                 | Ok fs' => (Ok (), fs')
                 | Throw e => (Throw e, fs)
                 end
        end.

End Calls.

(** ** The tree builder *)

#[warnings="-register-all"]
Inductive TreeNode :=
  | FolderNode (name path : string) (children : list TreeNode)
  | FileNode (name path fileType : string) (size : N) (editable : bool).

Definition node_name (t : TreeNode) : string :=
  match t with
  | FolderNode name _ _ => name
  | FileNode name _ _ _ _ => name
  end.

Definition is_folder (t : TreeNode) : bool :=
  match t with
  | FolderNode _ _ _ => true
  | FileNode _ _ _ _ _ => false
  end.

Section Tree.
(** [String.prototype.localeCompare] in the host's locale. *)
Variable localeCompare : string → string → Z.

(** The comparator of [buildFileTree]: folders first, then by name. *)
Definition compareNodes (a b : TreeNode) : Z :=
  if negb (Bool.eqb (is_folder a) (is_folder b))
  then (if is_folder a then -1 else 1)%Z
  else localeCompare (node_name a) (node_name b).

(** [Array.prototype.sort] is stable: with a consistent comparator its
    result is the one of a stable insertion sort. *)
Fixpoint sort_insert (x : TreeNode) (l : list TreeNode) : list TreeNode :=
  match l with
  | [] => [x]
  | y :: l' =>
      if (compareNodes x y <=? 0)%Z then x :: y :: l'
      else y :: sort_insert x l'
  end.

Fixpoint sort (l : list TreeNode) : list TreeNode :=
  match l with
  | [] => []
  | x :: l' => sort_insert x (sort l')
  end.

Definition skipped (name : string) : bool :=
  Js.startsWith name "." || Js.eqb name "node_modules".

(** The loop of [buildFileTree] over the entries of a directory, in the
    order [readdir] lists them; [build] is the recursive call. *)
Definition walk_entries
    (build : node → string → result (list TreeNode)) (relativePath : string)
  : list (string * node) → result (list TreeNode) :=
  fix walk entries :=
    match entries with
    | [] => Ok []
    | (name, child) :: rest =>
        if skipped name then walk rest
        else
          let relPath :=
            if decide (relativePath = "") then name
            else Path.join [relativePath; name] in
          match child with
          | Dir _ =>
              subtree ← build child relPath;
              tree ← walk rest;
              Ok (FolderNode name relPath subtree :: tree)
          | File _ size =>
              tree ← walk rest;
              Ok (FileNode name relPath (getFileType name) size
                    (isEditableFile name) :: tree)
          end
    end.

(** [dir] is the node at [dirPath]; its entries are what [readdir]
    lists, and the node of an entry is what is found at
    [path.join(dirPath, entry.name)]. *)
Fixpoint buildFileTree (dir : node) (relativePath : string)
  : result (list TreeNode) :=
  match dir with
  | File _ _ => Throw (FsError "ENOTDIR")
  | Dir entries =>
      tree ← walk_entries buildFileTree relativePath entries;
      Ok (sort tree)
  end.

End Tree.

(** *** The order of a listing *)

Section Order.
Variable localeCompare : string → string → Z.

Definition by_name (a b : TreeNode) : Prop :=
  (localeCompare (node_name a) (node_name b) <= 0)%Z.

(** One level: the folders, then the files, each group ascending by
    name. *)
Definition level_ordered (l : list TreeNode) : Prop :=
  l = List.filter is_folder l ++ List.filter (λ t, negb (is_folder t)) l
  ∧ StronglySorted by_name (List.filter is_folder l)
  ∧ StronglySorted by_name (List.filter (λ t, negb (is_folder t)) l).

(** Every level of a tree. *)
Inductive tree_ordered : list TreeNode → Prop :=
  | tree_ordered_level l :
      level_ordered l →
      (∀ name path children,
         FolderNode name path children ∈ l → tree_ordered children) →
      tree_ordered l.

End Order.

(** A comparison of names by code units: what [localeCompare] gives for
    names in lower-case ASCII letters, digits and dots. *)
Definition codeUnitCompare (a b : string) : Z :=
  match String.compare a b with
  | Lt => -1
  | Eq => 0
  | Gt => 1
  end.

(** ** The description of a manifest

    [content.match(/^description:\s*(.+?)(?:\n|$)/m)], the first capture
    group of the first match. *)

Fixpoint strip_prefix (pre s : string) : option string :=
  match pre, s with
  | "", _ => Some s
  | String a pre', String b s' =>
      if decide (a = b) then strip_prefix pre' s' else None
  | _, "" => None
  end.

(** [(.+?)(?:\n|$)] after its first character: up to the end of the line. *)
Fixpoint rest_of_line (s : string) : string :=
  match s with
  | "" => ""
  | String c s' =>
      if Js.is_line_terminator c then "" else String c (rest_of_line s')
  end.

Definition capture_value (s : string) : option string :=
  match s with
  | "" => None
  | String c s' =>
      if Js.is_line_terminator c then None
      else Some (String c (rest_of_line s'))
  end.

(** [\s*] is greedy: the longest run of white space first, then shorter. *)
Fixpoint after_key (s : string) : option string :=
  match s with
  | "" => capture_value s
  | String c s' =>
      if Js.is_space c then
        match after_key s' with
        | Some g => Some g
        | None => capture_value s
        end
      else capture_value s
  end.

Fixpoint match_description (at_line_start : bool) (s : string)
  : option string :=
  let here :=
    if at_line_start then
      match strip_prefix "description:" s with
      | Some rest => after_key rest
      | None => None
      end
    else None in
  match here with
  | Some g => Some g
  | None =>
      match s with
      | "" => None
      | String c s' => match_description (Js.is_line_terminator c) s'
      end
  end.

Definition extract_description (content : string) : string :=
  let descMatch := match_description true content in
  let description :=
    match descMatch with
    | Some g => Js.trim g
    | None => "No description"
    end in
  Js.take 200 description.

(** ** Requests and responses *)

Inductive response (A : Type) :=
  | Success (payload : A)
  | Failure (error : string).
Arguments Success {A} payload.
Arguments Failure {A} error.

Record LoadedSkill := {
  ls_content : string;
  ls_path : string;
  ls_imported : bool;
  ls_skillName : option string }.

Record SkillEntry := {
  se_name : string;
  se_path : string;
  se_description : string }.

Record DeleteRequest := { del_skillPath : string; del_targetPath : string }.

Record RenameRequest := {
  ren_skillPath : string; ren_oldPath : string; ren_newName : string }.

Record MoveRequest := {
  mov_skillPath : string; mov_oldPath : string; mov_newPath : string }.

Record FileMetadata := {
  md_name : string;
  md_path : string;
  md_type : string;
  md_size : N;
  md_editable : bool;
  md_tooBig : bool;
  md_error : option string }.

Record LoadedFile := { lf_content : string; lf_metadata : FileMetadata }.

Record UploadFile := { uf_name : string; uf_data : string }.

Record UploadRequest := {
  up_skillPath : string;
  up_files : list UploadFile;
  up_targetFolder : string }.

Record UploadResult := { ur_uploadedFiles : list string; ur_count : nat }.

(** [z.string().min(1)] and [z.string().min(1).max(255)] *)
Definition nonempty (s : string) : bool := 1 <=? String.length s.
Definition name_sized (s : string) : bool :=
  (1 <=? String.length s) && (String.length s <=? 255).

Definition deleteFileOrFolderSchema (d : DeleteRequest) : result DeleteRequest :=
  if nonempty (del_skillPath d) && nonempty (del_targetPath d)
  then Ok d else Throw ZodError.

Definition renameFileOrFolderSchema (d : RenameRequest) : result RenameRequest :=
  if nonempty (ren_skillPath d) && nonempty (ren_oldPath d)
     && name_sized (ren_newName d)
  then Ok d else Throw ZodError.

Definition moveFileSchema (d : MoveRequest) : result MoveRequest :=
  if nonempty (mov_skillPath d) && nonempty (mov_oldPath d)
     && nonempty (mov_newPath d)
  then Ok d else Throw ZodError.

Definition loadFileSchema (filePath : string) : result string :=
  if nonempty filePath then Ok filePath else Throw ZodError.

(** ** The IPC handlers *)

Section Handlers.
Variables (cwd userData : string).

Abbreviation skillsDir := (getSkillsDir userData).
Abbreviation validate := (validateSkillPath cwd).

(** *** [load-skill] *)

(** The loop that looks for a bundle name without a manifest;
    [None] when [fuel] rounds did not find one. *)
Fixpoint find_slot (fuel : nat) (sanitizedName candidateName targetDir : string)
    (suffix : N) : io (option (string * string)) :=
  match fuel with
  | 0 => mret None
  | S fuel' =>
      occupied ← existsSync cwd (Path.join [targetDir; "SKILL.md"]);
      if occupied : bool then
        let candidateName := sanitizedName +:+ "-" +:+ pretty suffix in
        let targetDir := Path.join [skillsDir; candidateName] in
        find_slot fuel' sanitizedName candidateName targetDir (suffix + 1)%N
      else mret (Some (candidateName, targetDir))
  end.

Definition import_skill (fuel : nat) (now : N) (skillPath : string)
  : io (option (response LoadedSkill)) :=
  let resolvedPath := Path.resolve cwd [skillPath] in
  ex ← existsSync cwd resolvedPath;
  if negb ex then throw (Error "Skill file does not exist")
  else if negb (Js.eqb (Js.toLowerCase (Path.basename resolvedPath)) "skill.md")
  then throw (Error "Only SKILL.md files can be imported")
  else
    content ← readFile_utf8 cwd resolvedPath;
    sanitizedName ← try_catch
      (lift (sanitizeSkillName (Path.basename (Path.dirname resolvedPath))))
      (λ nameError,
         lift (sanitizeSkillName ("imported-skill-" +:+ pretty now)));
    slot ← find_slot fuel sanitizedName sanitizedName
             (Path.join [skillsDir; sanitizedName]) 1;
    match slot with
    | None => mret None
    | Some (candidateName, targetDir) =>
        let targetPath := Path.join [targetDir; "SKILL.md"] in
        mkdir_recursive cwd targetDir;;
        writeFile_utf8 cwd targetPath content;;
        mret (Some (Success {| ls_content := content;
                               ls_path := targetPath;
                               ls_imported := true;
                               ls_skillName := Some candidateName |}))
    end.

Definition load_skill (fuel : nat) (now : N) (skillPath : string)
  : io (option (response LoadedSkill)) :=
  try_catch
    (mkdir_recursive cwd skillsDir;;
     try_catch
       (validatedPath ← lift (validate skillPath skillsDir);
        ex ← existsSync cwd validatedPath;
        if negb ex then throw (Error "Skill file does not exist")
        else
          content ← readFile_utf8 cwd validatedPath;
          mret (Some (Success {| ls_content := content;
                                 ls_path := validatedPath;
                                 ls_imported := false;
                                 ls_skillName := None |})))
       (λ validationError,
          if negb (Js.eqb (message validationError) access_denied)
          then throw validationError
          else import_skill fuel now skillPath))
    (λ error,
       mret (Some (Failure (if Js.eqb (message error) ""
                            then "Failed to load skill"
                            else message error)))).

(** *** [list-skills] *)

Definition list_one_skill (fs : node) (skillName : string)
  : option SkillEntry :=
  let skillPath := Path.join [skillsDir; skillName; "SKILL.md"] in
  let attempt : io SkillEntry :=
    lift (sanitizeSkillName skillName);;
    lift (validate skillPath skillsDir);;
    content ← readFile_utf8 cwd skillPath;
    mret {| se_name := skillName;
            se_path := skillPath;
            se_description := extract_description content |} in
  match attempt fs with
  | (Ok entry, _) => Some entry
  | (Throw _, _) => None
  end.

Definition is_dir_entry (e : string * node) : bool :=
  match e.2 with Dir _ => true | File _ _ => false end.

Definition list_skills : io (list SkillEntry) :=
  try_catch
    (mkdir_recursive cwd skillsDir;;
     entries ← readdir cwd skillsDir;
     fs ← get_disk;
     mret (omap (λ e : string * node, list_one_skill fs e.1)
             (List.filter is_dir_entry entries)))
    (λ error, mret []).

(** *** [list-skill-files] *)

Definition list_skill_files (localeCompare : string → string → Z)
    (skillPath : string) : io (response (list TreeNode)) :=
  try_catch
    (validatedPath ← lift (validate skillPath skillsDir);
     let skillDir := Path.dirname validatedPath in
     ex ← existsSync cwd skillDir;
     if negb ex then mret (Failure "Skill directory does not exist")
     else
       dir ← node_at cwd skillDir;
       fileTree ← lift (buildFileTree localeCompare dir "");
       mret (Success fileTree))
    (λ error, mret (Failure "Failed to list skill files")).

(** *** [delete-file-or-folder] *)

Definition delete_file_or_folder (data : DeleteRequest)
  : io (response unit) :=
  try_catch
    (validated ← lift (deleteFileOrFolderSchema data);
     skillDirPath ← lift (validate (del_skillPath validated) skillsDir);
     let skillDir := Path.dirname skillDirPath in
     let fullPath := Path.join [skillDir; del_targetPath validated] in
     validatedPath ← lift (validate fullPath skillDir);
     if Js.eqb (Path.basename validatedPath) "SKILL.md"
     then mret (Failure "Cannot delete SKILL.md - it is required")
     else
       ex ← existsSync cwd validatedPath;
       if negb ex then mret (Failure "File or folder does not exist")
       else
         rm_recursive_force cwd validatedPath;;
         mret (Success ()))
    (λ error, mret (Failure "Failed to delete file or folder")).

(** *** [rename-file-or-folder] *)

Definition rename_file_or_folder (data : RenameRequest)
  : io (response unit) :=
  try_catch
    (validated ← lift (renameFileOrFolderSchema data);
     skillDirPath ← lift (validate (ren_skillPath validated) skillsDir);
     let skillDir := Path.dirname skillDirPath in
     let oldFullPath := Path.join [skillDir; ren_oldPath validated] in
     validatedOldPath ← lift (validate oldFullPath skillDir);
     sanitizedNewName ← lift (sanitizeFileName (ren_newName validated));
     if Js.eqb (Path.basename validatedOldPath) "SKILL.md"
     then mret (Failure "Cannot rename SKILL.md")
     else
       let newFullPath :=
         Path.join [Path.dirname validatedOldPath; sanitizedNewName] in
       validatedNewPath ← lift (validate newFullPath skillDir);
       oldExists ← existsSync cwd validatedOldPath;
       if negb oldExists then mret (Failure "File or folder does not exist")
       else
         newExists ← existsSync cwd validatedNewPath;
         if newExists : bool
         then mret (Failure "A file or folder with that name already exists")
         else
           rename cwd validatedOldPath validatedNewPath;;
           mret (Success ()))
    (λ error, mret (Failure "Failed to rename file or folder")).

(** *** [move-file] *)

Definition move_file (data : MoveRequest) : io (response unit) :=
  try_catch
    (validated ← lift (moveFileSchema data);
     skillDirPath ← lift (validate (mov_skillPath validated) skillsDir);
     let skillDir := Path.dirname skillDirPath in
     let oldFullPath := Path.join [skillDir; mov_oldPath validated] in
     let newFullPath := Path.join [skillDir; mov_newPath validated] in
     validatedOldPath ← lift (validate oldFullPath skillDir);
     validatedNewPath ← lift (validate newFullPath skillDir);
     if Js.eqb (Path.basename validatedOldPath) "SKILL.md"
     then mret (Failure "Cannot move SKILL.md")
     else
       oldExists ← existsSync cwd validatedOldPath;
       if negb oldExists then mret (Failure "Source file does not exist")
       else
         newExists ← existsSync cwd validatedNewPath;
         if newExists : bool
         then mret (Failure "A file with that name already exists in the target folder")
         else
           let targetDir := Path.dirname validatedNewPath in
           mkdir_recursive cwd targetDir;;
           rename cwd validatedOldPath validatedNewPath;;
           mret (Success ()))
    (λ error, mret (Failure "Failed to move file")).

(** *** [load-file] *)

Definition load_file (data : string) : io (response LoadedFile) :=
  try_catch
    (filePath ← lift (loadFileSchema data);
     validatedPath ← lift (validate filePath skillsDir);
     ex ← existsSync cwd validatedPath;
     if negb ex then mret (Failure "File does not exist")
     else
       size ← stat_size cwd validatedPath;
       if (MAX_FILE_SIZE <? size)%N then
         mret (Success
           {| lf_content := "";
              lf_metadata :=
                {| md_name := Path.basename validatedPath;
                   md_path := filePath;
                   md_type := getFileType filePath;
                   md_size := size;
                   md_editable := false;
                   md_tooBig := true;
                   md_error := Some "File is too large to edit (max 10MB)" |} |})
       else
         let isEditable := isEditableFile validatedPath in
         if isEditable then
           content ← readFile_utf8 cwd validatedPath;
           mret (Success
             {| lf_content := content;
                lf_metadata :=
                  {| md_name := Path.basename validatedPath;
                     md_path := filePath;
                     md_type := getFileType filePath;
                     md_size := size;
                     md_editable := true;
                     md_tooBig := false;
                     md_error := None |} |})
         else
           mret (Success
             {| lf_content := "";
                lf_metadata :=
                  {| md_name := Path.basename validatedPath;
                     md_path := filePath;
                     md_type := getFileType filePath;
                     md_size := size;
                     md_editable := false;
                     md_tooBig := false;
                     md_error := None |} |}))
    (λ error, mret (Failure "Failed to load file")).

(** *** [upload-files] *)

(** One round of the loop over the files: the names uploaded so far,
    with this file's name added unless its upload threw. *)
Definition upload_one (skillDir validatedTargetPath : string)
    (uploadedFiles : list string) (file : UploadFile) : io (list string) :=
  try_catch
    (sanitizedRelative ← lift (sanitizeRelativePath (uf_name file));
     let destinationPath :=
       Path.join [validatedTargetPath; sanitizedRelative] in
     validatedDestination ← lift (validate destinationPath skillDir);
     mkdir_recursive cwd (Path.dirname validatedDestination);;
     writeFile cwd validatedDestination (uf_data file)
       (N.of_nat (String.length (uf_data file)));;
     mret (uploadedFiles
             ++ [Path.join_segments (Path.split sanitizedRelative)]))
    (λ fileError, mret uploadedFiles).

Fixpoint upload_loop (skillDir validatedTargetPath : string)
    (files : list UploadFile) (uploadedFiles : list string)
  : io (list string) :=
  match files with
  | [] => mret uploadedFiles
  | file :: rest =>
      uploadedFiles ← upload_one skillDir validatedTargetPath
                        uploadedFiles file;
      upload_loop skillDir validatedTargetPath rest uploadedFiles
  end.

Definition upload_files (data : UploadRequest) : io (response UploadResult) :=
  try_catch
    (skillDirPath ← lift (validate (up_skillPath data) skillsDir);
     let skillDir := Path.dirname skillDirPath in
     let targetPath :=
       if decide (up_targetFolder data = "") then skillDir
       else Path.join [skillDir; up_targetFolder data] in
     validatedTargetPath ← lift (validate targetPath skillDir);
     mkdir_recursive cwd validatedTargetPath;;
     uploadedFiles ← upload_loop skillDir validatedTargetPath
                       (up_files data) [];
     mret (Success {| ur_uploadedFiles := uploadedFiles;
                      ur_count := length uploadedFiles |}))
    (λ error, mret (Failure "Failed to upload files")).

End Handlers.

(** ** The other handlers of bundles and files *)

Record SkillData := {
  sd_name : string; sd_description : string; sd_content : string }.

Record SaveRequest := { sv_skillPath : string; sv_content : string }.

Record CreateFileRequest := {
  cf_skillPath : string; cf_filePath : string; cf_content : string }.

Record CreateFolderRequest := {
  cd_skillPath : string; cd_folderPath : string }.

Definition skillDataSchema (d : SkillData) : result SkillData :=
  if name_sized (sd_name d) && (String.length (sd_description d) <=? 500)
  then Ok d else Throw ZodError.

Definition saveSkillSchema (d : SaveRequest) : result SaveRequest :=
  if nonempty (sv_skillPath d) then Ok d else Throw ZodError.

Definition deleteSkillSchema (skillPath : string) : result string :=
  if nonempty skillPath then Ok skillPath else Throw ZodError.

Definition createFileSchema (d : CreateFileRequest) : result CreateFileRequest :=
  if nonempty (cf_skillPath d) && nonempty (cf_filePath d)
  then Ok d else Throw ZodError.

Definition createFolderSchema (d : CreateFolderRequest)
  : result CreateFolderRequest :=
  if nonempty (cd_skillPath d) && nonempty (cd_folderPath d)
  then Ok d else Throw ZodError.

Section BundleHandlers.
Variables (cwd userData : string).

Abbreviation skillsDir := (getSkillsDir userData).
Abbreviation validate := (validateSkillPath cwd).

(** *** [create-skill] *)

Definition create_skill (skillData : SkillData) : io (response string) :=
  try_catch
    (validated ← lift (skillDataSchema skillData);
     sanitizedName ← lift (sanitizeSkillName (sd_name validated));
     let skillDir := Path.join [skillsDir; sanitizedName] in
     lift (validate skillDir skillsDir);;
     mkdir_recursive cwd skillDir;;
     writeFile_utf8 cwd (Path.join [skillDir; "SKILL.md"])
       (sd_content validated);;
     mret (Success skillDir))
    (λ error, mret (Failure "Failed to create skill")).

(** *** [save-skill] *)

Definition save_skill (data : SaveRequest) : io (response unit) :=
  try_catch
    (validated ← lift (saveSkillSchema data);
     validatedPath ← lift (validate (sv_skillPath validated) skillsDir);
     writeFile_utf8 cwd validatedPath (sv_content validated);;
     mret (Success ()))
    (λ error, mret (Failure "Failed to save skill")).

(** *** [delete-skill] *)

Definition delete_skill (data : string) : io (response unit) :=
  try_catch
    (skillPath ← lift (deleteSkillSchema data);
     validatedPath ← lift (validate skillPath skillsDir);
     let skillDir := Path.dirname validatedPath in
     ex ← existsSync cwd skillDir;
     if negb ex then mret (Failure "Skill directory does not exist")
     else
       rm_recursive_force cwd skillDir;;
       mret (Success ()))
    (λ error, mret (Failure "Failed to delete skill")).

(** *** [create-file] *)

Definition create_file (data : CreateFileRequest) : io (response string) :=
  try_catch
    (validated ← lift (createFileSchema data);
     skillDirPath ← lift (validate (cf_skillPath validated) skillsDir);
     let skillDir := Path.dirname skillDirPath in
     sanitizedFileName ←
       lift (sanitizeFileName (Path.basename (cf_filePath validated)));
     let fileDir := Path.dirname (cf_filePath validated) in
     let fullPath := Path.join [skillDir; fileDir; sanitizedFileName] in
     validatedFilePath ← lift (validate fullPath skillDir);
     mkdir_recursive cwd (Path.dirname validatedFilePath);;
     writeFile_utf8 cwd validatedFilePath (cf_content validated);;
     mret (Success (cf_filePath validated)))
    (λ error, mret (Failure "Failed to create file")).

(** *** [create-folder] *)

Definition create_folder (data : CreateFolderRequest) : io (response string) :=
  try_catch
    (validated ← lift (createFolderSchema data);
     skillDirPath ← lift (validate (cd_skillPath validated) skillsDir);
     let skillDir := Path.dirname skillDirPath in
     sanitizedFolderName ←
       lift (sanitizeFileName (Path.basename (cd_folderPath validated)));
     let folderDir := Path.dirname (cd_folderPath validated) in
     let fullPath := Path.join [skillDir; folderDir; sanitizedFolderName] in
     validatedFolderPath ← lift (validate fullPath skillDir);
     mkdir_recursive cwd validatedFolderPath;;
     mret (Success (cd_folderPath validated)))
    (λ error, mret (Failure "Failed to create folder")).

End BundleHandlers.

(** ** Helpers of the renderer *)

Definition nl_char : string := String "010" "".
Definition quote : string := String "034" "".

Module Renderer.

(** [s.substring(n)] *)
Fixpoint drop (n : nat) (s : string) : string :=
  match n, s with
  | S n', String _ s' => drop n' s'
  | _, _ => s
  end.

(** [s.replace(/"/g, '\\"')] *)
Fixpoint escape_quotes (s : string) : string :=
  match s with
  | "" => ""
  | String c s' =>
      if Js.is_char "034" c
      then String "092" (String "034" (escape_quotes s'))
      else String c (escape_quotes s')
  end.

Definition normalizePath (pathString : string) : string :=
  Js.map_char backslash_to_slash pathString.



Definition extractSkillName (filePath : string) : string :=
  let normalized := normalizePath filePath in
  let segments := Path.segments normalized in
  if length segments <? 2 then "Unnamed Skill"
  else default "" (segments !! (length segments - 2)).

(** The manifest the "create" button makes from a name and a
    description. *)
Definition skill_template (name description : string) : string :=
  let yamlName := escape_quotes name in
  let yamlDesc :=
    escape_quotes (if decide (description = "") then "A custom Claude skill"
                   else description) in
  "---" +:+ nl_char +:+ "name: " +:+ quote +:+ yamlName +:+ quote +:+ nl_char
  +:+ "description: " +:+ quote +:+ yamlDesc +:+ quote +:+ nl_char
  +:+ "---" +:+ nl_char.

End Renderer.

(** ** Listings without the skipped names

    No node of a listing, at any depth, has a name that [buildFileTree]
    skips. *)

Fixpoint visible_node (t : TreeNode) : bool :=
  match t with
  | FolderNode name _ children =>
      negb (skipped name) && forallb visible_node children
  | FileNode name _ _ _ _ => negb (skipped name)
  end.

Definition visible_entry (e : string * node) : bool := negb (skipped e.1).

(** ** Characters that end no line *)

Definition not_terminator (c : ascii) : bool := negb (Js.is_line_terminator c).

(** ** Disks without two entries of one name in a directory *)

#[warnings="-register-all"]
Inductive unique_names : node → Prop :=
  | unique_file content size : unique_names (File content size)
  | unique_dir entries :
      NoDup entries.*1 →
      Forall (λ e, unique_names e.2) entries →
      unique_names (Dir entries).

(** ** Canonical paths

    What [path.resolve] returns: [/] followed by segments that are neither
    empty nor [.] nor [..] and hold no separator. *)

Definition seg_ok (s : string) : Prop :=
  s ≠ "" ∧ Js.all_chars (λ c, negb (Path.is_sep c)) s = true.

Definition proper (s : string) : Prop :=
  seg_ok s ∧ s ≠ "." ∧ s ≠ "..".

Definition abs_path (segs : list string) : string :=
  "/" +:+ Path.join_segments segs.

(** The segments [path.resolve] keeps of an absolute path. *)
Definition canon (p : string) : list string :=
  Path.norm_go false [] (Path.segments p).

(** ** Kinds of failure

    A handler reports a failure by its message; the kinds of the
    specification are sets of messages. *)

Definition ProtectedFile : list string :=
  ["Cannot delete SKILL.md - it is required";
   "Cannot rename SKILL.md";
   "Cannot move SKILL.md"].

Definition AlreadyExists : list string :=
  ["A file or folder with that name already exists";
   "A file with that name already exists in the target folder"].

Definition fails_with {A} (kind : list string) (r : result (response A))
  : bool :=
  match r with
  | Ok (Failure e) => bool_decide (e ∈ kind)
  | _ => false
  end.

(** [validateSkillPath] fails with [PathEscape]. *)
Definition path_escape {A} (r : result A) : bool :=
  match r with
  | Throw e => Js.eqb (message e) access_denied
  | Ok _ => false
  end.

(** A bundle: a non-empty path that the sandbox accepts in the library,
    in a directory [skillDir] other than the root. *)
Definition bundle (cwd userData skillPath skillDir : string) : Prop :=
  skillPath ≠ ""
  ∧ skillDir ≠ "/"
  ∧ ∃ skillDirPath,
      validateSkillPath cwd skillPath (getSkillsDir userData) = Ok skillDirPath
      ∧ Path.dirname skillDirPath = skillDir.

(** ** The filesystem calls of one upload and of one import

    What the handlers ask of the disk once a request is accepted: the
    directory of the destination is made, then the file is written. *)

Definition write_at (cwd dest content : string) (size : N) (fs : node)
  : result node :=
  fs' ← Fs.mkdir_p fs (locate cwd (Path.dirname dest));
  Fs.put_file fs' (locate cwd dest) (File content size).

Definition upload_dest (cwd validatedTargetPath sanitizedRelative : string)
  : string :=
  Path.resolve cwd [Path.join [validatedTargetPath; sanitizedRelative]].

Definition upload_size (file : UploadFile) : N :=
  N.of_nat (String.length (uf_data file)).

(** ** The names an import tries

    The bundle name derived from the place of an external manifest, the
    candidates the loop of [load-skill] goes through, and whether a
    candidate already has a manifest. *)


Definition candidate (sanitizedName : string) (k : nat) : string :=
  match k with
  | 0 => sanitizedName
  | S _ => sanitizedName +:+ "-" +:+ pretty (N.of_nat k)
  end.

Definition bundle_dir_of (userData bundleName : string) : string :=
  Path.join [getSkillsDir userData; bundleName].

Definition manifest_of (userData bundleName : string) : string :=
  Path.join [bundle_dir_of userData bundleName; "SKILL.md"].

Definition occupied (cwd userData : string) (fs : node) (bundleName : string)
  : bool :=
  bool_decide (is_Some (Fs.lookup fs (locate cwd (manifest_of userData bundleName)))).

(** A library with a bundle whose manifest has no front-matter header. *)
Definition headless_library (manifest : string) : node :=
  Dir [("home", Dir [("u", Dir [("app", Dir [("skills", Dir [
          ("widget", Dir [("SKILL.md", File manifest 41)])])])])])].

(** ** A sample disk

    A library with one bundle, and two manifests outside of it, both in a
    directory called [widget]. *)

Definition nl : string := String "010" "".

Definition demo_cwd : string := "/".
Definition demo_userData : string := "/home/u/app".
Definition demo_skill : string := "/home/u/app/skills/demo/SKILL.md".
Definition demo_dir : string := "/home/u/app/skills/demo".

Definition demo_manifest : string :=
  "---" +:+ nl +:+ "name: demo" +:+ nl
  +:+ "description: A demo skill" +:+ nl +:+ "---" +:+ nl +:+ "Body.".

(** A manifest without a front-matter header, with a line of its body
    that starts with [description:]. *)
Definition headless_manifest : string :=
  "# Widget" +:+ nl +:+ nl +:+ "description: only a body line" +:+ nl.

Definition demo_bundle : node :=
  Dir [("SKILL.md", File demo_manifest 50);
       ("b.txt", File "b" 1);
       ("a.txt", File "a" 1);
       ("z", Dir []);
       ("big.md", File "" 10485761)].

Definition demo_disk : node :=
  Dir [("home", Dir [("u", Dir [("app", Dir [("skills", Dir [
          ("demo", demo_bundle)])])])]);
       ("ext1", Dir [("widget", Dir [("SKILL.md", File "one" 3)])]);
       ("ext2", Dir [("widget", Dir [("SKILL.md", File headless_manifest 41)])])].


(** ** Lemmas on strings *)

Lemma keep_chars_all keep s : Js.all_chars keep (Js.keep_chars keep s) = true.
Proof.
  induction s as [|c s IH]; simpl; [done|].
  destruct (keep c) eqn:Hc; simpl; [by rewrite Hc|done].
Qed.

Lemma keep_chars_id keep s :
  Js.all_chars keep s = true → Js.keep_chars keep s = s.
Proof.
  induction s as [|c s IH]; simpl; [done|].
  intros [Hc Hs]%andb_prop. rewrite Hc. f_equal. auto.
Qed.

Lemma lower_char_skill c : skill_name_char c = true → Js.lower_char c = c.
Proof. destruct c as [[] [] [] [] [] [] [] []]; vm_compute; congruence. Qed.

Lemma toLowerCase_skill s :
  Js.all_chars skill_name_char s = true → Js.toLowerCase s = s.
Proof.
  induction s as [|c s IH]; simpl; [done|].
  intros [Hc Hs]%andb_prop. f_equal; auto using lower_char_skill.
Qed.

Lemma sanitizeSkillName_Ok name s :
  sanitizeSkillName name = Ok s →
  s = Js.keep_chars skill_name_char (Js.toLowerCase name)
  ∧ String.length s ≠ 0 ∧ String.length s ≤ 255 ∧ s ≠ "skill".
Proof.
  unfold sanitizeSkillName.
  set (t := Js.keep_chars _ _).
  destruct (String.length t =? 0) eqn:H0; [done|].
  destruct (255 <? String.length t) eqn:H1; [done|].
  destruct (Js.eqb t "skill") eqn:H2; [done|].
  destruct (Js.eqb t "") eqn:H3; [done|]. simpl.
  intros [= <-]. repeat split.
  - by apply Nat.eqb_neq.
  - apply Nat.ltb_ge in H1. lia.
  - unfold Js.eqb in H2. by apply bool_decide_eq_false in H2.
Qed.

(** C9: [sanitizeSkillName] is idempotent on its successful outputs, which
    match [^[a-z0-9-]+$] and differ from the reserved name [skill]. *)
Theorem sanitizeSkillName_idempotent (x y : string) :
  sanitizeSkillName x = Ok y →
  sanitizeSkillName y = Ok y
  ∧ matches_skill_name_pattern y = true
  ∧ y ≠ "skill".
Proof.
  intros H. pose proof H as (Hy & Hlen & Hmax & Hres)%sanitizeSkillName_Ok.
  assert (Hall : Js.all_chars skill_name_char y = true)
    by (rewrite Hy; apply keep_chars_all).
  assert (Hfix : Js.keep_chars skill_name_char (Js.toLowerCase y) = y)
    by (rewrite toLowerCase_skill, keep_chars_id; done).
  split; [|split; [|done]].
  - unfold sanitizeSkillName in *. rewrite Hfix.
    rewrite <- Hy in H. done.
  - unfold matches_skill_name_pattern. rewrite Hall, andb_true_r.
    unfold Js.eqb. rewrite bool_decide_eq_false_2; [done|].
    intros ->. done.
Qed.


(** ** Lemmas on paths *)

Lemma str_app_nil_l (s : string) : "" +:+ s = s.
Proof. reflexivity. Qed.

Lemma str_app_cons c (a s : string) : String c a +:+ s = String c (a +:+ s).
Proof. reflexivity. Qed.

Lemma str_app_nil_r (s : string) : s +:+ "" = s.
Proof. induction s as [|c s IH]; [done|]. by rewrite str_app_cons, IH. Qed.

Lemma str_app_assoc (a b c : string) : (a +:+ b) +:+ c = a +:+ b +:+ c.
Proof.
  induction a as [|x a IH]; [done|]. by rewrite !str_app_cons, IH.
Qed.

Lemma str_app_length (a b : string) :
  String.length (a +:+ b) = String.length a + String.length b.
Proof.
  induction a as [|x a IH]; [done|]. rewrite str_app_cons. simpl. by rewrite IH.
Qed.

Lemma prefix_app (a b : string) : String.prefix a (a +:+ b) = true.
Proof.
  induction a as [|x a IH]; [by destruct b|].
  rewrite str_app_cons. simpl. by destruct (ascii_dec x x).
Qed.

Lemma prefix_length (a s : string) :
  String.prefix a s = true → String.length a ≤ String.length s.
Proof.
  revert s. induction a as [|x a IH]; intros [|y s]; simpl; try done; [lia|].
  destruct (ascii_dec x y); [|done]. intros ?%IH. lia.
Qed.

Lemma prefix_split (a s : string) :
  String.prefix a s = true → ∃ r, s = a +:+ r.
Proof.
  revert s. induction a as [|x a IH]; intros s; simpl.
  - intros _. by exists s.
  - destruct s as [|y s]; simpl; [done|].
    destruct (ascii_dec x y) as [->|]; [|done].
    intros [r ->]%IH. by exists r.
Qed.

Lemma split_nonempty s : Path.split s ≠ [].
Proof.
  destruct s as [|c s]; simpl; [done|].
  destruct (Path.is_sep c); [done|]. by destruct (Path.split s).
Qed.

Lemma split_app_sep (a b : string) :
  Path.split (a +:+ "/" +:+ b) = Path.split a ++ Path.split b.
Proof.
  induction a as [|c a IH]; [done|].
  rewrite str_app_cons. simpl. rewrite IH.
  destruct (Path.is_sep c); [done|].
  pose proof (split_nonempty a). by destruct (Path.split a).
Qed.

Lemma segments_app_sep (a b : string) :
  Path.segments (a +:+ "/" +:+ b) = Path.segments a ++ Path.segments b.
Proof. unfold Path.segments. by rewrite split_app_sep, filter_app. Qed.

Lemma segments_nil : Path.segments "" = [].
Proof. reflexivity. Qed.

Lemma split_seg s :
  Js.all_chars (λ c, negb (Path.is_sep c)) s = true → Path.split s = [s].
Proof.
  induction s as [|c s IH]; simpl; [done|].
  intros [Hc Hs]%andb_prop. apply negb_true_iff in Hc. rewrite Hc.
  by rewrite IH.
Qed.

Lemma segments_seg s : seg_ok s → Path.segments s = [s].
Proof.
  intros [Hne Hs]. unfold Path.segments. rewrite split_seg by done.
  by rewrite filter_cons, decide_True.
Qed.

Lemma proper_seg_ok s : proper s → seg_ok s.
Proof. by intros [? _]. Qed.

Lemma join_segments_cons x l :
  l ≠ [] → Path.join_segments (x :: l) = x +:+ "/" +:+ Path.join_segments l.
Proof. by destruct l. Qed.

Lemma segments_join l :
  Forall seg_ok l → Path.segments (Path.join_segments l) = l.
Proof.
  induction 1 as [|x l Hx Hl IH]; [done|].
  destruct l as [|y l]; [by apply segments_seg|].
  rewrite join_segments_cons by done.
  by rewrite segments_app_sep, IH, segments_seg.
Qed.

Lemma segments_abs l : Forall seg_ok l → Path.segments (abs_path l) = l.
Proof.
  intros Hl. unfold abs_path. rewrite <- (str_app_nil_l ("/" +:+ _)).
  by rewrite segments_app_sep, segments_join.
Qed.

Lemma split_noslash s :
  Forall (λ x, Js.all_chars (λ c, negb (Path.is_sep c)) x = true) (Path.split s).
Proof.
  induction s as [|c s IH]; simpl; [by repeat constructor|].
  destruct (Path.is_sep c) eqn:Hc; [by constructor|].
  destruct (Path.split s) as [|h t].
  { constructor; [simpl; by rewrite Hc|constructor]. }
  inversion IH; subst. constructor; [|done]. simpl. by rewrite Hc.
Qed.

Lemma segments_ok s : Forall seg_ok (Path.segments s).
Proof.
  unfold Path.segments. pose proof (split_noslash s) as H.
  induction H as [|x l Hx Hl IH]; [constructor|].
  rewrite filter_cons. destruct (decide (x ≠ "")); [|done].
  constructor; [done|done].
Qed.

(** Normalisation leaves proper segments, and leaves them alone. *)
Lemma norm_go_proper acc l :
  Forall proper acc → Forall seg_ok l →
  Forall proper (Path.norm_go false acc l).
Proof.
  intros Hacc Hl. revert acc Hacc.
  induction Hl as [|s l Hs Hl IH]; intros acc Hacc; simpl.
  { by apply Forall_rev. }
  destruct (decide (s = ".")); [by apply IH|].
  destruct (decide (s = "..")).
  - destruct acc as [|top acc]; [by apply IH|].
    inversion Hacc; subst.
    destruct (decide (top = "..")); by apply IH.
  - apply IH. constructor; [|done]. done.
Qed.

Lemma norm_go_id acc l :
  Forall proper l → Path.norm_go false acc l = rev acc ++ l.
Proof.
  intros Hl. revert acc. induction Hl as [|s l Hs Hl IH]; intros acc; simpl.
  { by rewrite app_nil_r. }
  destruct Hs as (? & ? & ?).
  rewrite !decide_False by done. rewrite IH. simpl.
  by rewrite <- app_assoc.
Qed.

Lemma norm_go_app acc l1 l2 :
  Forall proper l1 →
  Path.norm_go false acc (l1 ++ l2) = Path.norm_go false (rev l1 ++ acc) l2.
Proof.
  intros Hl. revert acc. induction Hl as [|s l Hs Hl IH]; intros acc; simpl.
  { done. }
  destruct Hs as (? & ? & ?).
  rewrite !decide_False by done. rewrite IH.
  by rewrite <- app_assoc.
Qed.

Lemma canon_proper p : Forall proper (canon p).
Proof. apply norm_go_proper; [constructor|apply segments_ok]. Qed.

Lemma canon_abs l : Forall proper l → canon (abs_path l) = l.
Proof.
  intros Hl. unfold canon. rewrite segments_abs.
  - by rewrite norm_go_id.
  - eapply Forall_impl; [done|]. apply proper_seg_ok.
Qed.

Lemma isAbsolute_abs l : Path.isAbsolute (abs_path l) = true.
Proof. reflexivity. Qed.

Lemma isAbsolute_nonempty p : Path.isAbsolute p = true → p ≠ "".
Proof. by destruct p. Qed.

(** [path.resolve] of one absolute path. *)
Lemma resolve_absolute cwd p :
  Path.isAbsolute p = true → Path.resolve cwd [p] = abs_path (canon p).
Proof.
  intros Hp. unfold Path.resolve. simpl.
  rewrite decide_False by by apply isAbsolute_nonempty.
  rewrite Hp. simpl. unfold Path.normalizeString, abs_path, canon.
  by rewrite segments_app_sep, segments_nil, app_nil_r.
Qed.

Lemma resolve_abs cwd l :
  Forall proper l → Path.resolve cwd [abs_path l] = abs_path l.
Proof. intros Hl. by rewrite resolve_absolute, canon_abs. Qed.

Lemma locate_abs cwd l : Forall proper l → locate cwd (abs_path l) = l.
Proof.
  intros Hl. unfold locate. rewrite resolve_abs by done.
  apply segments_abs. eapply Forall_impl; [done|]. apply proper_seg_ok.
Qed.

Lemma join_segments_nil l :
  Forall seg_ok l → Path.join_segments l = "" → l = [].
Proof.
  intros Hl. destruct Hl as [|x l [Hx _] Hl]; [done|].
  destruct l; simpl; [done|]. by destruct x.
Qed.

Lemma join_segments_app l1 l2 :
  l1 ≠ [] → l2 ≠ [] →
  Path.join_segments (l1 ++ l2)
  = Path.join_segments l1 +:+ "/" +:+ Path.join_segments l2.
Proof.
  intros H1 H2. induction l1 as [|x l1 IH]; [done|].
  destruct l1 as [|y l1].
  - simpl. by destruct l2.
  - rewrite <- app_comm_cons. rewrite !join_segments_cons by done.
    rewrite IH by done. by rewrite !str_app_assoc.
Qed.

Lemma abs_path_app l1 l2 :
  l1 ≠ [] → l2 ≠ [] →
  abs_path (l1 ++ l2) = abs_path l1 +:+ "/" +:+ Path.join_segments l2.
Proof.
  intros. unfold abs_path. rewrite join_segments_app by done.
  by rewrite !str_app_assoc.
Qed.

Lemma proper_ok_list l : Forall proper l → Forall seg_ok l.
Proof. intros H. eapply Forall_impl; [done|]. apply proper_seg_ok. Qed.

(** [path.normalize] keeps an absolute path absolute, with the segments
    [path.resolve] would keep. *)
Lemma normalize_absolute p :
  Path.isAbsolute p = true →
  Path.isAbsolute (Path.normalize p) = true
  ∧ canon (Path.normalize p) = canon p.
Proof.
  intros Hp. unfold Path.normalize.
  rewrite decide_False by by apply isAbsolute_nonempty.
  rewrite Hp. simpl. unfold Path.normalizeString. fold (canon p).
  pose proof (canon_proper p) as Hc.
  destruct (decide (Path.join_segments (canon p) = "")) as [He|He].
  - split; [done|]. symmetry.
    apply join_segments_nil in He; [by rewrite He|by apply proper_ok_list].
  - split; [by destruct (Js.endsWithChar _ _)|].
    destruct (Js.endsWithChar _ _).
    + unfold canon at 1.
      rewrite <- (str_app_nil_l ("/" +:+ _)), segments_app_sep.
      rewrite <- (str_app_nil_r "/"), segments_app_sep. simpl.
      rewrite segments_join by by apply proper_ok_list.
      rewrite app_nil_r. by rewrite norm_go_id.
    + by apply canon_abs.
Qed.

Lemma validate_absolute cwd p base :
  Path.isAbsolute p = true → Path.isAbsolute base = true →
  validateSkillPath cwd p base
  = if negb (Js.startsWith (abs_path (canon p)) (abs_path (canon base) +:+ "/"))
       && negb (Js.eqb (abs_path (canon p)) (abs_path (canon base)))
    then Throw (Error access_denied)
    else Ok (abs_path (canon p)).
Proof.
  intros Hp Hb. unfold validateSkillPath.
  destruct (normalize_absolute p Hp) as [Hn Hc]. rewrite Hn.
  by rewrite !resolve_absolute, Hc.
Qed.

(** With an absolute working directory [path.resolve] returns a canonical
    path. *)
Lemma resolve_canonical cwd p :
  Path.isAbsolute cwd = true →
  ∃ l, Forall proper l ∧ Path.resolve cwd [p] = abs_path l.
Proof.
  intros Hcwd. unfold Path.resolve. simpl.
  pose proof (isAbsolute_nonempty _ Hcwd) as Hne.
  destruct (decide (p = "")) as [->|Hp].
  - rewrite decide_False by done. rewrite Hcwd.
    eexists. split; [|reflexivity]. apply canon_proper.
  - destruct (Path.isAbsolute p).
    + eexists. split; [|reflexivity]. apply canon_proper.
    + rewrite decide_False by done. rewrite Hcwd.
      eexists. split; [|reflexivity]. apply canon_proper.
Qed.

Lemma validate_canonical cwd p base v :
  Path.isAbsolute cwd = true →
  validateSkillPath cwd p base = Ok v →
  ∃ l, Forall proper l ∧ v = abs_path l.
Proof.
  intros Hcwd. unfold validateSkillPath.
  destruct (_ && _); [done|]. intros [= <-].
  by apply resolve_canonical.
Qed.

Lemma basename_abs l x :
  Forall proper l → proper x → Path.basename (abs_path (l ++ [x])) = x.
Proof.
  intros Hl Hx. unfold Path.basename. rewrite segments_abs.
  - by rewrite last_snoc.
  - apply proper_ok_list, Forall_app. split; [done|by constructor].
Qed.

Lemma basename_root : Path.basename (abs_path []) = "".
Proof. reflexivity. Qed.

(** *** [dirname] of a canonical path *)

Lemma chars_app (a b : string) :
  String.list_ascii_of_string (a +:+ b)
  = String.list_ascii_of_string a ++ String.list_ascii_of_string b.
Proof.
  induction a as [|c a IH]; [done|]. rewrite str_app_cons. simpl. by rewrite IH.
Qed.

Lemma chars_seg x :
  seg_ok x →
  String.list_ascii_of_string x ≠ []
  ∧ Forall (λ c, Path.is_sep c = false) (String.list_ascii_of_string x).
Proof.
  intros [Hne Hall]. split; [by destruct x|].
  clear Hne. induction x as [|c x IH]; simpl in *; [constructor|].
  apply andb_prop in Hall as [Hc Hx]. constructor; [|by apply IH].
  by apply negb_true_iff.
Qed.

Lemma drop_while_none (p : ascii → bool) l :
  (∀ c l', l = c :: l' → p c = false) → Path.drop_while p l = l.
Proof.
  destruct l as [|c l]; [done|]. intros H. simpl. by rewrite (H c l).
Qed.

Lemma drop_while_all (p : ascii → bool) l1 l2 :
  Forall (λ c, p c = true) l1 →
  Path.drop_while p (l1 ++ l2) = Path.drop_while p l2.
Proof. induction 1 as [|c l Hc Hl IH]; [done|]. simpl. by rewrite Hc. Qed.

Lemma dirname_abs l x :
  Forall proper l → proper x →
  Path.dirname (abs_path (l ++ [x])) = abs_path l.
Proof.
  intros Hl Hx. apply proper_ok_list in Hl. apply proper_seg_ok in Hx.
  destruct (chars_seg x Hx) as [Hxne Hxall].
  assert (Hrev : Forall (λ c, negb (Path.is_sep c) = true)
                   (rev (String.list_ascii_of_string x))).
  { apply Forall_rev. eapply Forall_impl; [done|].
    intros c Hc. simpl in Hc. by rewrite Hc. }
  assert (Hhead : ∀ l' c l'', rev (String.list_ascii_of_string x) ++ l' = c :: l''
                          → Path.is_sep c = false).
  { intros l' c l''. destruct (rev (String.list_ascii_of_string x)) eqn:E.
    - apply (f_equal (@rev _)) in E. rewrite rev_involutive in E. done.
    - inversion Hrev; subst. intros [= <- _]. by apply negb_true_iff. }
  unfold Path.dirname, abs_path. rewrite chars_app. simpl.
  destruct (decide (l = [])) as [->|Hne].
  - simpl. rewrite <- (app_nil_r (rev _)).
    rewrite (drop_while_none Path.is_sep) by apply Hhead.
    by rewrite drop_while_all.
  - rewrite join_segments_app by done.
    rewrite !chars_app. simpl. rewrite rev_app_distr. simpl.
    rewrite <- app_assoc. simpl.
    rewrite (drop_while_none Path.is_sep) by apply Hhead.
    rewrite drop_while_all by done. simpl.
    rewrite bool_decide_eq_false_2.
    + rewrite rev_involutive.
      by rewrite String.string_of_list_ascii_of_string.
    + intros E. apply (f_equal (@rev _)) in E. rewrite rev_involutive in E.
      simpl in E. apply (f_equal String.string_of_list_ascii) in E.
      rewrite String.string_of_list_ascii_of_string in E. simpl in E.
      apply join_segments_nil in E; done.
Qed.

Lemma dirname_root : Path.dirname (abs_path []) = abs_path [].
Proof. reflexivity. Qed.

(** The directory of a canonical path is canonical, and is the root only
    for a path with at most one segment. *)
Lemma dirname_canonical l :
  Forall proper l → Path.dirname (abs_path l) = abs_path (removelast l).
Proof.
  intros Hl. destruct l as [|x l _] using rev_ind; [done|].
  apply Forall_app in Hl as [Hl Hx]. inversion Hx; subst.
  rewrite removelast_last. by apply dirname_abs.
Qed.

Lemma abs_path_root l : Forall proper l → abs_path l = "/" → l = [].
Proof.
  intros Hl. unfold abs_path. intros E.
  apply join_segments_nil; [by apply proper_ok_list|].
  change "/" with ("/" +:+ "") in E at 2. by apply (inj _) in E.
Qed.

(** *** Paths below a directory *)

Lemma join_abs_rel d rel :
  rel ≠ "" →
  Path.join [abs_path d; rel] = Path.normalize (abs_path d +:+ "/" +:+ rel).
Proof.
  intros Hrel. unfold Path.join. simpl. by rewrite decide_False.
Qed.

Lemma validate_join cwd d rel :
  Forall proper d → rel ≠ "" →
  validateSkillPath cwd (Path.join [abs_path d; rel]) (abs_path d)
  = let r := Path.norm_go false (rev d) (Path.segments rel) in
    if negb (Js.startsWith (abs_path r) (abs_path d +:+ "/"))
       && negb (Js.eqb (abs_path r) (abs_path d))
    then Throw (Error access_denied)
    else Ok (abs_path r).
Proof.
  intros Hd Hrel. rewrite join_abs_rel by done.
  assert (Ha : Path.isAbsolute (abs_path d +:+ "/" +:+ rel) = true) by done.
  destruct (normalize_absolute _ Ha) as [Hn Hc].
  rewrite validate_absolute by done.
  rewrite Hc, canon_abs by done. unfold canon.
  rewrite segments_app_sep, segments_abs by by apply proper_ok_list.
  rewrite norm_go_app by done. by rewrite app_nil_r.
Qed.

Lemma validate_inside cwd d rel t :
  Forall proper d → d ≠ [] →
  Path.segments rel = t → Forall proper t → t ≠ [] →
  validateSkillPath cwd (Path.join [abs_path d; rel]) (abs_path d)
  = Ok (abs_path (d ++ t)).
Proof.
  intros Hd Hdne Ht Hpt Htne.
  assert (rel ≠ "") by (intros ->; by rewrite segments_nil in Ht; subst).
  rewrite validate_join by done. cbv zeta. rewrite Ht.
  rewrite norm_go_id, rev_involutive by done.
  rewrite abs_path_app by done. unfold Js.startsWith.
  by rewrite <- (str_app_assoc (abs_path d) "/"), prefix_app.
Qed.

Lemma bundle_dir cwd userData skillPath skillDir :
  Path.isAbsolute cwd = true →
  bundle cwd userData skillPath skillDir →
  ∃ d, Forall proper d ∧ d ≠ [] ∧ skillDir = abs_path d.
Proof.
  intros Hcwd (_ & Hroot & vp & Hv & <-).
  apply (validate_canonical _ _ _ _ Hcwd) in Hv as (l & Hl & ->).
  rewrite dirname_canonical in * by done.
  exists (removelast l). split; [|split; [|done]].
  - destruct l as [|x l _] using rev_ind; [done|].
    rewrite removelast_last. by apply Forall_app in Hl as [? _].
  - intros E. rewrite E in Hroot. done.
Qed.

Lemma existsSync_abs cwd l fs :
  Forall proper l →
  existsSync cwd (abs_path l) fs
  = (Ok (bool_decide (is_Some (Fs.lookup fs l))), fs).
Proof. intros Hl. unfold existsSync. by rewrite locate_abs. Qed.

Lemma proper_literal s :
  s ≠ "" → Js.all_chars (λ c, negb (Path.is_sep c)) s = true →
  s ≠ "." → s ≠ ".." → proper s.
Proof. by repeat split. Qed.

Ltac proper_lit := apply proper_literal; [done|reflexivity|done|done].

Ltac run_io :=
  unfold try_catch, mbind, io_mbind, io_bind, mret, io_mret, io_ret, lift,
    throw; simpl.

(** ** The handlers on a bundle *)

#[local] Arguments validateSkillPath : simpl never.
#[local] Arguments Path.join : simpl never.
#[local] Arguments Path.dirname : simpl never.
#[local] Arguments Path.basename : simpl never.
#[local] Arguments Path.resolve : simpl never.
#[local] Arguments existsSync : simpl never.
#[local] Arguments locate : simpl never.
#[local] Arguments sanitizeFileName : simpl never.
#[local] Arguments sanitizeRelativePath : simpl never.
#[local] Arguments getSkillsDir : simpl never.
#[local] Arguments abs_path : simpl never.
#[local] Arguments nonempty : simpl never.
#[local] Arguments name_sized : simpl never.
#[local] Arguments Js.eqb : simpl never.
#[local] Arguments MAX_FILE_SIZE : simpl never.
#[local] Arguments isEditableFile : simpl never.
#[local] Arguments getFileType : simpl never.

Lemma nonempty_true s : s ≠ "" → nonempty s = true.
Proof. by destruct s. Qed.

Lemma nonempty_inv s : nonempty s = true → s ≠ "".
Proof. by destruct s. Qed.

Lemma eqb_refl s : Js.eqb s s = true.
Proof. unfold Js.eqb. by apply bool_decide_eq_true. Qed.

Lemma eqb_false a b : a ≠ b → Js.eqb a b = false.
Proof. unfold Js.eqb. by apply bool_decide_eq_false. Qed.

Lemma eqb_true a b : Js.eqb a b = true → a = b.
Proof. unfold Js.eqb. by intros ?%bool_decide_eq_true. Qed.

(** C2, as amended: on every bundle, deleting [SKILL.md] fails with
    [ProtectedFile], renaming it fails with [ProtectedFile] for every new
    name that the schema and [sanitizeFileName] accept, and renaming it
    fails whatever the new name; none of these changes the disk. *)
Theorem manifest_protected cwd userData skillPath skillDir fs :
  Path.isAbsolute cwd = true →
  bundle cwd userData skillPath skillDir →
  delete_file_or_folder cwd userData
    {| del_skillPath := skillPath; del_targetPath := "SKILL.md" |} fs
  = (Ok (Failure "Cannot delete SKILL.md - it is required"), fs)
  ∧ (∀ newName sanitized,
       name_sized newName = true →
       sanitizeFileName newName = Ok sanitized →
       rename_file_or_folder cwd userData
         {| ren_skillPath := skillPath; ren_oldPath := "SKILL.md";
            ren_newName := newName |} fs
       = (Ok (Failure "Cannot rename SKILL.md"), fs))
  ∧ (∀ newName, ∃ e,
       rename_file_or_folder cwd userData
         {| ren_skillPath := skillPath; ren_oldPath := "SKILL.md";
            ren_newName := newName |} fs
       = (Ok (Failure e), fs)).
Proof.
  intros Hcwd Hb.
  destruct (bundle_dir _ _ _ _ Hcwd Hb) as (d & Hd & Hdne & ->).
  destruct Hb as (Hne & _ & vp & Hv & Hdir).
  assert (Hin : validateSkillPath cwd (Path.join [abs_path d; "SKILL.md"])
                  (abs_path d) = Ok (abs_path (d ++ ["SKILL.md"]))).
  { apply validate_inside; try done. repeat constructor; done. }
  assert (Hbase : Path.basename (abs_path (d ++ ["SKILL.md"])) = "SKILL.md").
  { apply basename_abs; [done|]. proper_lit. }
  split; [|split].
  - unfold delete_file_or_folder, deleteFileOrFolderSchema. run_io.
    rewrite (nonempty_true skillPath) by done. simpl.
    rewrite Hv. simpl. rewrite Hdir, Hin. simpl. by rewrite Hbase.
  - intros newName sanitized Hsz Hsan.
    unfold rename_file_or_folder, renameFileOrFolderSchema. run_io.
    rewrite (nonempty_true skillPath), Hsz by done. simpl.
    rewrite Hv. simpl. rewrite Hdir, Hin. simpl. rewrite Hsan. simpl.
    by rewrite Hbase.
  - intros newName.
    unfold rename_file_or_folder, renameFileOrFolderSchema. run_io.
    rewrite (nonempty_true skillPath) by done. simpl.
    destruct (name_sized newName); simpl; [|by eexists].
    rewrite Hv. simpl. rewrite Hdir, Hin. simpl.
    destruct (sanitizeFileName newName); simpl; [|by eexists].
    rewrite Hbase. by eexists.
Qed.

Lemma locate_join cwd d rel :
  Forall proper d → rel ≠ "" →
  locate cwd (Path.join [abs_path d; rel])
  = Path.norm_go false (rev d) (Path.segments rel).
Proof.
  intros Hd Hrel. unfold locate. rewrite join_abs_rel by done.
  assert (Ha : Path.isAbsolute (abs_path d +:+ "/" +:+ rel) = true) by done.
  destruct (normalize_absolute _ Ha) as [Hn Hc].
  rewrite resolve_absolute, Hc by done.
  rewrite segments_abs by apply proper_ok_list, canon_proper.
  unfold canon.
  rewrite segments_app_sep, segments_abs by by apply proper_ok_list.
  rewrite norm_go_app by done. by rewrite app_nil_r.
Qed.

Lemma locate_join_inside cwd d rel t :
  Forall proper d → Path.segments rel = t → Forall proper t → t ≠ [] →
  locate cwd (Path.join [abs_path d; rel]) = d ++ t.
Proof.
  intros Hd Ht Hpt Htne.
  assert (rel ≠ "") by (intros ->; by rewrite segments_nil in Ht; subst).
  rewrite locate_join, Ht, norm_go_id by done. by rewrite rev_involutive.
Qed.

(** C5: in a bundle that holds [a.txt] and [b.txt], renaming [a.txt] to
    [b.txt] fails with [AlreadyExists] and leaves the disk as it was. *)
Theorem rename_collision cwd userData skillPath skillDir fs a b :
  Path.isAbsolute cwd = true →
  bundle cwd userData skillPath skillDir →
  Fs.lookup fs (locate cwd (Path.join [skillDir; "a.txt"])) = Some a →
  Fs.lookup fs (locate cwd (Path.join [skillDir; "b.txt"])) = Some b →
  let out := rename_file_or_folder cwd userData
               {| ren_skillPath := skillPath; ren_oldPath := "a.txt";
                  ren_newName := "b.txt" |} fs in
  out = (Ok (Failure "A file or folder with that name already exists"), fs)
  ∧ fails_with AlreadyExists out.1 = true
  ∧ Fs.lookup out.2 (locate cwd (Path.join [skillDir; "a.txt"])) = Some a.
Proof.
  intros Hcwd Hb Ha0 Hb0.
  destruct (bundle_dir _ _ _ _ Hcwd Hb) as (d & Hd & Hdne & ->).
  destruct Hb as (Hne & _ & vp & Hv & Hdir).
  assert (Hpa : proper "a.txt") by proper_lit.
  assert (Hpb : proper "b.txt") by proper_lit.
  rewrite (locate_join_inside _ _ _ ["a.txt"]) in Ha0 by (by repeat constructor).
  rewrite (locate_join_inside _ _ _ ["b.txt"]) in Hb0 by (by repeat constructor).
  assert (Hout : rename_file_or_folder cwd userData
               {| ren_skillPath := skillPath; ren_oldPath := "a.txt";
                  ren_newName := "b.txt" |} fs
            = (Ok (Failure "A file or folder with that name already exists"), fs)).
  { unfold rename_file_or_folder, renameFileOrFolderSchema. run_io.
    rewrite (nonempty_true skillPath) by done. simpl.
    rewrite Hv. simpl. rewrite Hdir.
    rewrite (validate_inside cwd d "a.txt" ["a.txt"]) by (by repeat constructor).
    simpl. change (sanitizeFileName "b.txt") with (@Ok string "b.txt"). simpl.
    rewrite basename_abs by done.
    rewrite eqb_false by done. simpl.
    rewrite dirname_abs by done.
    rewrite (validate_inside cwd d "b.txt" ["b.txt"]) by (by repeat constructor).
    simpl. rewrite !locate_abs
      by (apply Forall_app; split; [done|by constructor]).
    rewrite Ha0. simpl. by rewrite Hb0. }
  cbv zeta. rewrite Hout. simpl. repeat split.
  by rewrite (locate_join_inside _ _ _ ["a.txt"]) by (by repeat constructor).
Qed.

Ltac case_io :=
  repeat (match goal with
          | |- context [match ?x with _ => _ end] =>
              lazymatch x with
              | context [match _ with _ => _ end] => fail
              | _ => destruct x eqn:?
              end
          end; simpl);
  try done; try (by vm_compute).

Lemma delete_protected_iff cwd userData fs skillPath targetPath vp v :
  skillPath ≠ "" → targetPath ≠ "" →
  validateSkillPath cwd skillPath (getSkillsDir userData) = Ok vp →
  validateSkillPath cwd (Path.join [Path.dirname vp; targetPath])
    (Path.dirname vp) = Ok v →
  fails_with ProtectedFile
    (delete_file_or_folder cwd userData
       {| del_skillPath := skillPath; del_targetPath := targetPath |} fs).1
  = true
  ↔ Path.basename v = "SKILL.md".
Proof.
  intros Hs Ht Hv Hw.
  unfold delete_file_or_folder, deleteFileOrFolderSchema. run_io.
  rewrite !nonempty_true by done. simpl. rewrite Hv. simpl. rewrite Hw. simpl.
  destruct (Js.eqb (Path.basename v) "SKILL.md") eqn:E; simpl.
  - apply eqb_true in E. done.
  - unfold existsSync. simpl.
    assert (Path.basename v ≠ "SKILL.md")
      by (intros E'; by rewrite E', eqb_refl in E).
    destruct (bool_decide _); simpl; split; done.
Qed.

Lemma rename_protected_iff cwd userData fs skillPath oldPath newName s vp v :
  skillPath ≠ "" → oldPath ≠ "" →
  name_sized newName = true → sanitizeFileName newName = Ok s →
  validateSkillPath cwd skillPath (getSkillsDir userData) = Ok vp →
  validateSkillPath cwd (Path.join [Path.dirname vp; oldPath])
    (Path.dirname vp) = Ok v →
  fails_with ProtectedFile
    (rename_file_or_folder cwd userData
       {| ren_skillPath := skillPath; ren_oldPath := oldPath;
          ren_newName := newName |} fs).1
  = true
  ↔ Path.basename v = "SKILL.md".
Proof.
  intros Hs Ht Hn Hsan Hv Hw.
  unfold rename_file_or_folder, renameFileOrFolderSchema. run_io.
  rewrite !nonempty_true, Hn by done. simpl. rewrite Hv. simpl.
  rewrite Hw. simpl. rewrite Hsan. simpl.
  destruct (Js.eqb (Path.basename v) "SKILL.md") eqn:E; simpl.
  - apply eqb_true in E. done.
  - assert (Path.basename v ≠ "SKILL.md")
      by (intros E'; by rewrite E', eqb_refl in E).
    unfold existsSync. split; [|done]. case_io.
Qed.

Lemma move_protected_iff cwd userData fs skillPath oldPath newPath vp v v' :
  skillPath ≠ "" → oldPath ≠ "" → newPath ≠ "" →
  validateSkillPath cwd skillPath (getSkillsDir userData) = Ok vp →
  validateSkillPath cwd (Path.join [Path.dirname vp; oldPath])
    (Path.dirname vp) = Ok v →
  validateSkillPath cwd (Path.join [Path.dirname vp; newPath])
    (Path.dirname vp) = Ok v' →
  fails_with ProtectedFile
    (move_file cwd userData
       {| mov_skillPath := skillPath; mov_oldPath := oldPath;
          mov_newPath := newPath |} fs).1
  = true
  ↔ Path.basename v = "SKILL.md".
Proof.
  intros Hs Ht Hn Hv Hw Hw'.
  unfold move_file, moveFileSchema. run_io.
  rewrite !nonempty_true by done. simpl. rewrite Hv. simpl.
  rewrite Hw. simpl. rewrite Hw'. simpl.
  destruct (Js.eqb (Path.basename v) "SKILL.md") eqn:E; simpl.
  - apply eqb_true in E. done.
  - assert (Path.basename v ≠ "SKILL.md")
      by (intros E'; by rewrite E', eqb_refl in E).
    unfold existsSync, mkdir_recursive. split; [|done]. case_io.
Qed.

(** C10: for a target that the handlers accept (the schema, the sandbox
    and, for a rename, [sanitizeFileName] let the request through), the
    failure is [ProtectedFile] exactly when the base name of the validated
    target is [SKILL.md]; [sub/SKILL.md] is protected and [skill.md] at
    the root of the bundle is not. *)
Theorem protected_iff_manifest_name
    cwd userData fs skillPath skillDir target validated :
  Path.isAbsolute cwd = true →
  bundle cwd userData skillPath skillDir →
  target ≠ "" →
  validateSkillPath cwd (Path.join [skillDir; target]) skillDir = Ok validated →
  (fails_with ProtectedFile
     (delete_file_or_folder cwd userData
        {| del_skillPath := skillPath; del_targetPath := target |} fs).1 = true
   ↔ Path.basename validated = "SKILL.md")
  ∧ (∀ newName s,
       name_sized newName = true → sanitizeFileName newName = Ok s →
       fails_with ProtectedFile
         (rename_file_or_folder cwd userData
            {| ren_skillPath := skillPath; ren_oldPath := target;
               ren_newName := newName |} fs).1 = true
       ↔ Path.basename validated = "SKILL.md")
  ∧ (∀ newPath validatedNew,
       newPath ≠ "" →
       validateSkillPath cwd (Path.join [skillDir; newPath]) skillDir
       = Ok validatedNew →
       fails_with ProtectedFile
         (move_file cwd userData
            {| mov_skillPath := skillPath; mov_oldPath := target;
               mov_newPath := newPath |} fs).1 = true
       ↔ Path.basename validated = "SKILL.md")
  ∧ fails_with ProtectedFile
      (delete_file_or_folder cwd userData
         {| del_skillPath := skillPath; del_targetPath := "sub/SKILL.md" |}
         fs).1 = true
  ∧ fails_with ProtectedFile
      (rename_file_or_folder cwd userData
         {| ren_skillPath := skillPath; ren_oldPath := "sub/SKILL.md";
            ren_newName := "X.md" |} fs).1 = true
  ∧ fails_with ProtectedFile
      (move_file cwd userData
         {| mov_skillPath := skillPath; mov_oldPath := "sub/SKILL.md";
            mov_newPath := "X.md" |} fs).1 = true
  ∧ fails_with ProtectedFile
      (delete_file_or_folder cwd userData
         {| del_skillPath := skillPath; del_targetPath := "skill.md" |}
         fs).1 = false
  ∧ fails_with ProtectedFile
      (rename_file_or_folder cwd userData
         {| ren_skillPath := skillPath; ren_oldPath := "skill.md";
            ren_newName := "X.md" |} fs).1 = false
  ∧ fails_with ProtectedFile
      (move_file cwd userData
         {| mov_skillPath := skillPath; mov_oldPath := "skill.md";
            mov_newPath := "X.md" |} fs).1 = false.
Proof.
  intros Hcwd Hb Ht Hval.
  destruct (bundle_dir _ _ _ _ Hcwd Hb) as (d & Hd & Hdne & ->).
  destruct Hb as (Hne & _ & vp & Hv & Hdir).
  rewrite <- Hdir in Hval.
  assert (Hsub : validateSkillPath cwd
                   (Path.join [Path.dirname vp; "sub/SKILL.md"])
                   (Path.dirname vp)
                 = Ok (abs_path (d ++ ["sub"; "SKILL.md"]))).
  { rewrite Hdir. apply validate_inside; try done.
    repeat constructor; done. }
  assert (Hlow : validateSkillPath cwd
                   (Path.join [Path.dirname vp; "skill.md"])
                   (Path.dirname vp)
                 = Ok (abs_path (d ++ ["skill.md"]))).
  { rewrite Hdir. apply validate_inside; try done.
    repeat constructor; done. }
  assert (Hx : validateSkillPath cwd
                   (Path.join [Path.dirname vp; "X.md"])
                   (Path.dirname vp)
                 = Ok (abs_path (d ++ ["X.md"]))).
  { rewrite Hdir. apply validate_inside; try done.
    repeat constructor; done. }
  assert (Hbsub : Path.basename (abs_path (d ++ ["sub"; "SKILL.md"]))
                  = "SKILL.md").
  { change (d ++ ["sub"; "SKILL.md"]) with (d ++ ["sub"] ++ ["SKILL.md"]).
    rewrite (assoc_L (++) d ["sub"] ["SKILL.md"]).
    apply basename_abs; [|proper_lit].
    apply Forall_app; split; [done|]. constructor; [proper_lit|done]. }
  assert (Hblow : Path.basename (abs_path (d ++ ["skill.md"])) ≠ "SKILL.md").
  { rewrite basename_abs; [done|done|proper_lit]. }
  assert (HX : sanitizeFileName "X.md" = Ok "X.md") by reflexivity.
  split; [by eapply delete_protected_iff|].
  split; [intros; by eapply rename_protected_iff|].
  split.
  { intros newPath validatedNew Hnp Hvn. rewrite <- Hdir in Hvn.
    by eapply move_protected_iff. }
  split; [by eapply delete_protected_iff|].
  split; [by eapply rename_protected_iff|].
  split; [by eapply move_protected_iff|].
  split; [|split]; apply not_true_is_false; intros Hf; apply Hblow.
  - by eapply (delete_protected_iff cwd userData fs skillPath "skill.md").
  - by eapply (rename_protected_iff cwd userData fs skillPath "skill.md" "X.md").
  - by eapply (move_protected_iff cwd userData fs skillPath "skill.md" "X.md").
Qed.

(** ** The sandbox on relative paths *)

Lemma norm_go_app_gen allow acc l1 l2 :
  Path.norm_go allow acc (l1 ++ l2)
  = Path.norm_go allow (rev (Path.norm_go allow acc l1)) l2.
Proof.
  revert acc. induction l1 as [|s l1 IH]; intros acc; simpl.
  { by rewrite rev_involutive. }
  destruct (decide (s = ".")); [apply IH|].
  destruct (decide (s = "..")); [|apply IH].
  destruct acc as [|top acc]; [apply IH|].
  destruct (decide (top = "..")); apply IH.
Qed.

Lemma norm_go_push_pop allow st top l :
  top ≠ "." → top ≠ ".." →
  Path.norm_go allow st (top :: ".." :: l) = Path.norm_go allow st l.
Proof. intros. simpl. by rewrite !decide_False by done. Qed.

(** Normalising what [normalize] left of a relative path gives what
    normalising the path itself gives. *)
Lemma norm_go_normalized acc acc' l :
  Forall (λ s, s ≠ ".") acc' →
  Path.norm_go false acc (Path.norm_go true acc' l)
  = Path.norm_go false acc (rev acc' ++ l).
Proof.
  revert acc'. induction l as [|s l IH]; intros acc' Hacc'; simpl.
  { by rewrite app_nil_r. }
  destruct (decide (s = ".")) as [->|Hdot].
  { rewrite IH by done. rewrite !norm_go_app_gen. simpl. done. }
  destruct (decide (s = "..")) as [->|Hdd].
  - destruct acc' as [|top acc'].
    + rewrite IH by (by repeat constructor). done.
    + inversion Hacc'; subst. destruct (decide (top = "..")) as [->|Htop].
      * rewrite IH by (by repeat constructor). simpl.
        by rewrite <- !app_assoc.
      * rewrite IH by done.
        change (rev (top :: acc')) with (rev acc' ++ [top]).
        rewrite <- app_assoc.
        change ([top] ++ ".." :: l) with (top :: ".." :: l).
        rewrite (norm_go_app_gen _ _ _ (top :: _)), norm_go_push_pop by done.
        by rewrite <- norm_go_app_gen.
  - rewrite IH by (by constructor). simpl. by rewrite <- app_assoc.
Qed.

Lemma isAbsolute_join_segments l :
  Forall seg_ok l → Path.isAbsolute (Path.join_segments l) = false.
Proof.
  intros Hall. destruct Hall as [|x l [Hne Hx] Hl]; [done|].
  assert (Path.isAbsolute x = false).
  { destruct x as [|c x]; [done|]. simpl in *.
    apply andb_prop in Hx as [Hc _]. by apply negb_true_iff. }
  destruct l; simpl; [done|]. by destruct x.
Qed.

Lemma norm_go_true_ok acc l :
  Forall seg_ok acc → Forall seg_ok l →
  Forall seg_ok (Path.norm_go true acc l).
Proof.
  intros Hacc Hl. revert acc Hacc.
  induction Hl as [|s l Hs Hl IH]; intros acc Hacc; simpl.
  { by apply Forall_rev. }
  repeat case_decide; try (by apply IH); subst.
  - destruct acc as [|top acc]; [by apply IH; repeat constructor|].
    inversion Hacc; subst. case_decide; apply IH; try done.
    by constructor.
  - apply IH. by constructor.
Qed.

(** A relative path stays relative under [normalize], and resolves below
    a base like the path itself. *)
Lemma normalize_relative p :
  Path.isAbsolute p = false →
  Path.normalize p ≠ ""
  ∧ Path.isAbsolute (Path.normalize p) = false
  ∧ ∀ acc, Path.norm_go false acc (Path.segments (Path.normalize p))
           = Path.norm_go false acc (Path.segments p).
Proof.
  intros Hp. unfold Path.normalize.
  destruct (decide (p = "")) as [->|Hne]; [done|].
  rewrite Hp. simpl. unfold Path.normalizeString.
  set (l := Path.norm_go true [] (Path.segments p)).
  assert (Hl : Forall seg_ok l)
    by (apply norm_go_true_ok; [constructor|apply segments_ok]).
  assert (Hn : ∀ acc, Path.norm_go false acc l
                      = Path.norm_go false acc (Path.segments p)).
  { intros acc. unfold l. by rewrite norm_go_normalized by constructor. }
  destruct (decide (Path.join_segments l = "")) as [He|He].
  - apply join_segments_nil in He; [|done].
    rewrite He in Hn. simpl in Hn.
    destruct (Js.endsWithChar _ _); (split; [done|split; [done|]]);
      intros acc; by rewrite <- Hn.
  - destruct (Js.endsWithChar _ _); (split; [|split]).
    + by destruct (Path.join_segments l).
    + pose proof (isAbsolute_join_segments l Hl).
      by destruct (Path.join_segments l).
    + intros acc. rewrite <- (str_app_nil_r "/"), segments_app_sep.
      by rewrite segments_nil, app_nil_r, segments_join.
    + done.
    + by apply isAbsolute_join_segments.
    + intros acc. by rewrite segments_join.
Qed.

Lemma validate_relative cwd b p :
  Forall proper b → Path.isAbsolute p = false →
  validateSkillPath cwd p (abs_path b)
  = let r := Path.norm_go false (rev b) (Path.segments p) in
    if negb (Js.startsWith (abs_path r) (abs_path b +:+ "/"))
       && negb (Js.eqb (abs_path r) (abs_path b))
    then Throw (Error access_denied)
    else Ok (abs_path r).
Proof.
  intros Hb Hp. destruct (normalize_relative p Hp) as (Hne & Hrel & Hn).
  unfold validateSkillPath. rewrite Hrel.
  rewrite join_abs_rel by done.
  assert (Ha : Path.isAbsolute
                 (abs_path b +:+ "/" +:+ Path.normalize p) = true) by done.
  destruct (normalize_absolute _ Ha) as [Hn' Hc].
  rewrite !resolve_absolute, Hc, canon_abs by done.
  unfold canon. rewrite segments_app_sep, segments_abs by by apply proper_ok_list.
  rewrite norm_go_app by done. by rewrite app_nil_r, Hn.
Qed.

Lemma norm_go_no_dotdot acc l :
  ".." ∉ l →
  Path.norm_go false acc l = rev acc ++ filter (λ s, s ≠ ".") l.
Proof.
  revert acc. induction l as [|s l IH]; intros acc Hl; simpl.
  { by rewrite filter_nil, app_nil_r. }
  apply not_elem_of_cons in Hl as [Hs Hl]. rewrite filter_cons.
  destruct (decide (s = ".")) as [->|Hdot].
  - rewrite decide_False by (intros H; by apply H). by apply IH.
  - rewrite decide_False by done. rewrite decide_True by done.
    rewrite IH by done. simpl. by rewrite <- app_assoc.
Qed.

Lemma norm_go_dotdots acc l :
  Forall proper acc → Forall (λ s, s = "..") l →
  Path.norm_go false acc l = rev (drop (length l) acc).
Proof.
  intros Hacc Hl. revert acc Hacc.
  induction Hl as [|s l -> Hl IH]; intros acc Hacc; simpl; [done|].
  destruct acc as [|top acc]; simpl.
  - rewrite IH by done. by rewrite drop_nil.
  - inversion Hacc as [|?? (_ & _ & Htop) Hacc']; subst.
    rewrite decide_False by done. by apply IH.
Qed.

Lemma abs_path_longer r rest :
  Forall proper (r ++ rest) → rest ≠ [] →
  String.length (abs_path r) < String.length (abs_path (r ++ rest)).
Proof.
  intros Hall Hrest. apply Forall_app in Hall as [Hr Hre].
  destruct (decide (r = [])) as [->|Hr0].
  - simpl. unfold abs_path. rewrite !str_app_length. simpl.
    destruct (Path.join_segments rest) eqn:E; simpl; [|lia].
    apply join_segments_nil in E; [done|by apply proper_ok_list].
  - rewrite abs_path_app by done. rewrite !str_app_length. simpl. lia.
Qed.

(** C1, as amended: for a canonical base other than the root and a
    relative path, validation fails only with [PathEscape] and a result
    is the base or extends it by a separator; a path without a [..]
    segment is accepted; a path made of [..] segments only is rejected
    with [PathEscape]; and a path is accepted exactly when the place it
    names from the base lies at or below the base. *)
Theorem validate_relative_paths cwd b p :
  Forall proper b → b ≠ [] → Path.isAbsolute p = false →
  (∀ v, validateSkillPath cwd p (abs_path b) = Ok v →
        v = abs_path b ∨ Js.startsWith v (abs_path b +:+ "/") = true)
  ∧ (∀ e, validateSkillPath cwd p (abs_path b) = Throw e →
          e = Error access_denied)
  ∧ (".." ∉ Path.segments p →
     ∃ v, validateSkillPath cwd p (abs_path b) = Ok v
          ∧ (v = abs_path b ∨ Js.startsWith v (abs_path b +:+ "/") = true))
  ∧ (Path.segments p ≠ [] → Forall (λ s, s = "..") (Path.segments p) →
     validateSkillPath cwd p (abs_path b) = Throw (Error access_denied))
  ∧ ((∃ v, validateSkillPath cwd p (abs_path b) = Ok v)
     ↔ b `prefix_of` locate cwd (Path.join [abs_path b; p])).
Proof.
  intros Hb Hne Hp.
  assert (Hplace : locate cwd (Path.join [abs_path b; p])
                   = Path.norm_go false (rev b) (Path.segments p)).
  { destruct (decide (p = "")) as [->|Hp0]; [|by apply locate_join].
    unfold locate, Path.join. simpl.
    destruct (normalize_absolute (abs_path b) eq_refl) as [Hn Hc].
    rewrite resolve_absolute, Hc, canon_abs by done.
    rewrite segments_abs by by apply proper_ok_list.
    by rewrite rev_involutive. }
  rewrite Hplace.
  rewrite validate_relative by done. cbv zeta.
  set (r := Path.norm_go false (rev b) (Path.segments p)).
  assert (Hok : ∀ v,
    (if negb (Js.startsWith (abs_path r) (abs_path b +:+ "/"))
        && negb (Js.eqb (abs_path r) (abs_path b))
     then Throw (Error access_denied) else Ok (abs_path r)) = Ok v →
    v = abs_path b ∨ Js.startsWith v (abs_path b +:+ "/") = true).
  { intros v. destruct (Js.startsWith _ _) eqn:Hsw; simpl.
    - intros [= <-]. by right.
    - destruct (Js.eqb _ _) eqn:He; simpl; [|done].
      intros [= <-]. left. by apply eqb_true. }
  split; [done|]. split.
  { intros e. destruct (_ && _); [|done]. by intros [= <-]. }
  split; [|split].
  - intros Hdd. unfold r. rewrite norm_go_no_dotdot, rev_involutive by done.
    set (t := filter _ _).
    assert (Hsome : ∃ v,
      (if negb (Js.startsWith (abs_path (b ++ t)) (abs_path b +:+ "/"))
          && negb (Js.eqb (abs_path (b ++ t)) (abs_path b))
       then Throw (Error access_denied) else Ok (abs_path (b ++ t))) = Ok v).
    { destruct (decide (t = [])) as [->|Ht].
      - rewrite app_nil_r, eqb_refl, andb_false_r. by eexists.
      - rewrite abs_path_app by done. unfold Js.startsWith.
        rewrite <- (str_app_assoc (abs_path b) "/"), prefix_app. by eexists. }
    destruct Hsome as [v Hv]. exists v. split; [done|].
    apply Hok. unfold r. by rewrite norm_go_no_dotdot, rev_involutive.
  - intros Hsegs Hdots.
    assert (Hr : r = rev (drop (length (Path.segments p)) (rev b))).
    { unfold r. apply norm_go_dotdots; [by apply Forall_rev|done]. }
    assert (Hlen : String.length (abs_path r) < String.length (abs_path b)).
    { set (n := length (Path.segments p)) in *.
      assert (Hn : 0 < n) by (unfold n; destruct (Path.segments p); simpl; [done|lia]).
      assert (Hsplit : b = r ++ rev (take n (rev b))).
      { rewrite Hr, <- rev_app_distr, take_drop. by rewrite rev_involutive. }
      rewrite Hsplit at 1. apply abs_path_longer; [by rewrite <- Hsplit|].
      intros E. apply (f_equal (@rev _)) in E. rewrite rev_involutive in E.
      simpl in E. destruct (rev b) eqn:Eb.
      - apply (f_equal (@rev _)) in Eb. rewrite rev_involutive in Eb. done.
      - destruct n; [lia|done]. }
    destruct (Js.startsWith _ _) eqn:Hsw.
    { apply prefix_length in Hsw. rewrite str_app_length in Hsw.
      change (String.length "/") with 1 in Hsw. lia. }
    destruct (Js.eqb _ _) eqn:He; [|done].
    apply eqb_true in He. rewrite He in Hlen. lia.
  - assert (Hr : Forall proper r)
      by (apply norm_go_proper; [by apply Forall_rev|apply segments_ok]).
    split.
    + intros [v Hv].
      assert (Ev : v = abs_path r).
      { revert Hv. destruct (_ && _); [done|]. by intros [= <-]. }
      destruct (Hok v Hv) as [E|Hsw]; rewrite Ev in *.
      * exists []. rewrite app_nil_r.
        rewrite <- (segments_abs r), E by by apply proper_ok_list.
        by rewrite segments_abs by by apply proper_ok_list.
      * unfold Js.startsWith in Hsw.
        apply prefix_split in Hsw as [rest Hrest].
        rewrite str_app_assoc in Hrest. exists (Path.segments rest).
        rewrite <- (segments_abs r), Hrest by by apply proper_ok_list.
        by rewrite segments_app_sep, segments_abs by by apply proper_ok_list.
    + intros [u Hu]. rewrite Hu.
      destruct (decide (u = [])) as [->|Hu0].
      * rewrite app_nil_r, eqb_refl, andb_false_r. by eexists.
      * rewrite abs_path_app by done. unfold Js.startsWith.
        rewrite <- (str_app_assoc (abs_path b) "/"), prefix_app. by eexists.
Qed.

(** ** [load-file] *)

(** C7: for an existing file of the library, [load-file] succeeds; above
    10 MiB it returns no content, with [editable] false and [tooBig] set,
    whatever the extension; up to 10 MiB a file with an editable extension
    comes with its content. *)
Theorem load_file_size_gate cwd userData fs filePath validatedPath content size :
  filePath ≠ "" →
  validateSkillPath cwd filePath (getSkillsDir userData) = Ok validatedPath →
  Fs.lookup fs (locate cwd validatedPath) = Some (File content size) →
  ((MAX_FILE_SIZE < size)%N →
   load_file cwd userData filePath fs
   = (Ok (Success
        {| lf_content := "";
           lf_metadata :=
             {| md_name := Path.basename validatedPath;
                md_path := filePath;
                md_type := getFileType filePath;
                md_size := size;
                md_editable := false;
                md_tooBig := true;
                md_error := Some "File is too large to edit (max 10MB)" |} |}),
      fs))
  ∧ ((size ≤ MAX_FILE_SIZE)%N → isEditableFile validatedPath = true →
     load_file cwd userData filePath fs
     = (Ok (Success
          {| lf_content := content;
             lf_metadata :=
               {| md_name := Path.basename validatedPath;
                  md_path := filePath;
                  md_type := getFileType filePath;
                  md_size := size;
                  md_editable := true;
                  md_tooBig := false;
                  md_error := None |} |}),
        fs))
  ∧ ((size ≤ MAX_FILE_SIZE)%N → isEditableFile validatedPath = false →
     load_file cwd userData filePath fs
     = (Ok (Success
          {| lf_content := "";
             lf_metadata :=
               {| md_name := Path.basename validatedPath;
                  md_path := filePath;
                  md_type := getFileType filePath;
                  md_size := size;
                  md_editable := false;
                  md_tooBig := false;
                  md_error := None |} |}),
        fs)).
Proof.
  intros Hne Hv Hf.
  assert (Hrun : ∀ big : bool, (MAX_FILE_SIZE <? size)%N = big →
    load_file cwd userData filePath fs
    = if big then
        (Ok (Success
           {| lf_content := "";
              lf_metadata :=
                {| md_name := Path.basename validatedPath;
                   md_path := filePath;
                   md_type := getFileType filePath;
                   md_size := size;
                   md_editable := false;
                   md_tooBig := true;
                   md_error := Some "File is too large to edit (max 10MB)" |} |}),
         fs)
      else
        (Ok (Success
           {| lf_content := if isEditableFile validatedPath then content else "";
              lf_metadata :=
                {| md_name := Path.basename validatedPath;
                   md_path := filePath;
                   md_type := getFileType filePath;
                   md_size := size;
                   md_editable := isEditableFile validatedPath;
                   md_tooBig := false;
                   md_error := None |} |}),
         fs)).
  { intros big Hbig.
    unfold load_file, loadFileSchema, existsSync, stat_size, readFile_utf8.
    run_io. rewrite nonempty_true by done. simpl. rewrite Hv. simpl.
    repeat (rewrite Hf; simpl). rewrite Hbig. destruct big; [done|].
    destruct (isEditableFile validatedPath); simpl; [|done].
    by rewrite Hf. }
  split; [|split].
  - intros Hbig. by rewrite (Hrun true) by by apply N.ltb_lt.
  - intros Hsmall He. rewrite (Hrun false) by by apply N.ltb_ge.
    by rewrite He.
  - intros Hsmall He. rewrite (Hrun false) by by apply N.ltb_ge.
    by rewrite He.
Qed.

(** ** The handlers on the sample disk *)

Lemma demo_is_bundle : bundle demo_cwd demo_userData demo_skill demo_dir.
Proof.
  split; [done|]. split; [done|].
  exists demo_skill. split; reflexivity.
Defined.

Lemma sanitizeSkillName_idempotent_witness :
  sanitizeSkillName "My Skill_2!" = Ok "myskill2"
  ∧ sanitizeSkillName "myskill2" = Ok "myskill2"
  ∧ matches_skill_name_pattern "myskill2" = true
  ∧ "myskill2" ≠ "skill".
Proof.
  split; [reflexivity|].
  apply (sanitizeSkillName_idempotent "My Skill_2!"). reflexivity.
Defined.

(** C1, as the claim has it, fails: a relative path with a [../] segment
    that stays below the base is accepted. *)
Lemma validate_traversal_counterexample :
  ".." ∈ Path.segments "a/../b"
  ∧ Path.isAbsolute "a/../b" = false
  ∧ validateSkillPath "/" "a/../b" "/lib/skills" = Ok "/lib/skills/b"
  ∧ path_escape (validateSkillPath "/" "a/../b" "/lib/skills") = false.
Proof.
  split; [|by vm_compute].
  change (Path.segments "a/../b") with ["a"; ".."; "b"].
  apply list_elem_of_further, list_elem_of_here.
Qed.

Lemma validate_relative_paths_witness :
  (∃ v, validateSkillPath "/" "notes/./todo.txt" (abs_path ["lib"; "skills"])
        = Ok v
        ∧ (v = abs_path ["lib"; "skills"]
           ∨ Js.startsWith v (abs_path ["lib"; "skills"] +:+ "/") = true))
  ∧ validateSkillPath "/" "../.." (abs_path ["lib"; "skills"])
    = Throw (Error access_denied).
Proof.
  assert (Hb : Forall proper ["lib"; "skills"])
    by (repeat constructor; done).
  split.
  - apply (validate_relative_paths "/" ["lib"; "skills"] "notes/./todo.txt");
      [done|done|reflexivity|].
    change (Path.segments "notes/./todo.txt") with ["notes"; "."; "todo.txt"].
    rewrite !not_elem_of_cons. repeat split; try done. apply not_elem_of_nil.
  - apply (validate_relative_paths "/" ["lib"; "skills"] "../..");
      [done|done|reflexivity|done|].
    repeat constructor.
Defined.

(** C2, as the claim has it, fails: with a new name that
    [sanitizeFileName] rejects the rename of [SKILL.md] fails before the
    manifest is looked at, and not with [ProtectedFile]. *)
Lemma rename_manifest_counterexample :
  bundle demo_cwd demo_userData demo_skill demo_dir
  ∧ rename_file_or_folder demo_cwd demo_userData
      {| ren_skillPath := demo_skill; ren_oldPath := "SKILL.md";
         ren_newName := "???" |} demo_disk
    = (Ok (Failure "Failed to rename file or folder"), demo_disk)
  ∧ fails_with ProtectedFile
      (rename_file_or_folder demo_cwd demo_userData
         {| ren_skillPath := demo_skill; ren_oldPath := "SKILL.md";
            ren_newName := "???" |} demo_disk).1 = false.
Proof. split; [apply demo_is_bundle|]. by vm_compute. Qed.

Lemma manifest_protected_witness :
  delete_file_or_folder demo_cwd demo_userData
    {| del_skillPath := demo_skill; del_targetPath := "SKILL.md" |} demo_disk
  = (Ok (Failure "Cannot delete SKILL.md - it is required"), demo_disk)
  ∧ rename_file_or_folder demo_cwd demo_userData
      {| ren_skillPath := demo_skill; ren_oldPath := "SKILL.md";
         ren_newName := "X.md" |} demo_disk
    = (Ok (Failure "Cannot rename SKILL.md"), demo_disk).
Proof.
  destruct (manifest_protected demo_cwd demo_userData demo_skill demo_dir
              demo_disk eq_refl demo_is_bundle) as (Hdel & Hren & _).
  split; [exact Hdel|].
  apply (Hren "X.md" "X.md"); reflexivity.
Defined.

Lemma rename_collision_witness :
  rename_file_or_folder demo_cwd demo_userData
    {| ren_skillPath := demo_skill; ren_oldPath := "a.txt";
       ren_newName := "b.txt" |} demo_disk
  = (Ok (Failure "A file or folder with that name already exists"), demo_disk).
Proof.
  apply (rename_collision demo_cwd demo_userData demo_skill demo_dir demo_disk
           (File "a" 1) (File "b" 1) eq_refl demo_is_bundle);
    reflexivity.
Defined.

Lemma protected_iff_manifest_name_witness :
  fails_with ProtectedFile
    (delete_file_or_folder demo_cwd demo_userData
       {| del_skillPath := demo_skill; del_targetPath := "z/SKILL.md" |}
       demo_disk).1 = true
  ↔ Path.basename "/home/u/app/skills/demo/z/SKILL.md" = "SKILL.md".
Proof.
  assert (Hne : "z/SKILL.md" ≠ "") by done.
  assert (Hv : validateSkillPath demo_cwd
                 (Path.join [demo_dir; "z/SKILL.md"]) demo_dir
               = Ok "/home/u/app/skills/demo/z/SKILL.md") by reflexivity.
  destruct (protected_iff_manifest_name demo_cwd demo_userData demo_disk
              demo_skill demo_dir "z/SKILL.md"
              "/home/u/app/skills/demo/z/SKILL.md" eq_refl demo_is_bundle
              Hne Hv) as [Hdel _].
  exact Hdel.
Defined.

Lemma load_file_size_gate_witness :
  load_file demo_cwd demo_userData "/home/u/app/skills/demo/big.md" demo_disk
  = (Ok (Success
       {| lf_content := "";
          lf_metadata :=
            {| md_name := "big.md";
               md_path := "/home/u/app/skills/demo/big.md";
               md_type := "text";
               md_size := 10485761;
               md_editable := false;
               md_tooBig := true;
               md_error := Some "File is too large to edit (max 10MB)" |} |}),
     demo_disk)
  ∧ load_file demo_cwd demo_userData "/home/u/app/skills/demo/a.txt" demo_disk
    = (Ok (Success
         {| lf_content := "a";
            lf_metadata :=
              {| md_name := "a.txt";
                 md_path := "/home/u/app/skills/demo/a.txt";
                 md_type := "text";
                 md_size := 1;
                 md_editable := true;
                 md_tooBig := false;
                 md_error := None |} |}),
       demo_disk).
Proof.
  split.
  - apply (load_file_size_gate demo_cwd demo_userData demo_disk
             "/home/u/app/skills/demo/big.md"
             "/home/u/app/skills/demo/big.md" "" 10485761);
      [done|reflexivity|reflexivity|reflexivity].
  - apply (load_file_size_gate demo_cwd demo_userData demo_disk
             "/home/u/app/skills/demo/a.txt"
             "/home/u/app/skills/demo/a.txt" "a" 1);
      [done|reflexivity|reflexivity|by vm_compute|reflexivity].
Defined.

(** ** The order of [buildFileTree] *)

Lemma node_induction (P : node → Prop) :
  (∀ content size, P (File content size)) →
  (∀ entries, Forall (λ e, P e.2) entries → P (Dir entries)) →
  ∀ n, P n.
Proof.
  intros HF HD.
  exact (fix F (n : node) : P n :=
           match n with
           | File content size => HF content size
           | Dir entries =>
               HD entries
                 ((fix G (es : list (string * node))
                     : Forall (λ e, P e.2) es :=
                     match es with
                     | [] => @List.Forall_nil _ (λ e, P e.2)
                     | e :: es' =>
                         @List.Forall_cons _ (λ e, P e.2) e es'
                           (match e return P e.2 with
                            | (_, child) => F child
                            end)
                           (G es')
                     end) entries)
           end).
Qed.

Section OrderLemmas.
Variable localeCompare : string → string → Z.

(** [localeCompare] is a consistent comparator. *)
Hypothesis localeCompare_antisym :
  ∀ a b, Z.sgn (localeCompare b a) = (- Z.sgn (localeCompare a b))%Z.
Hypothesis localeCompare_trans :
  ∀ a b c, (localeCompare a b <= 0)%Z → (localeCompare b c <= 0)%Z →
           (localeCompare a c <= 0)%Z.

Abbreviation node_le a b := (compareNodes localeCompare a b <= 0)%Z.

Lemma node_le_total a b : (0 < compareNodes localeCompare a b)%Z → node_le b a.
Proof.
  unfold compareNodes.
  destruct (is_folder a), (is_folder b); simpl; try lia;
    pose proof (localeCompare_antisym (node_name a) (node_name b)); lia.
Qed.

Lemma node_le_trans a b c : node_le a b → node_le b c → node_le a c.
Proof.
  unfold compareNodes.
  destruct (is_folder a), (is_folder b), (is_folder c); simpl; try lia;
    apply localeCompare_trans.
Qed.

Lemma sort_insert_elem x y l : y ∈ sort_insert localeCompare x l ↔ y = x ∨ y ∈ l.
Proof.
  induction l as [|z l IH]; simpl.
  - rewrite elem_of_cons. done.
  - destruct (_ <=? _)%Z.
    + by rewrite elem_of_cons.
    + rewrite !elem_of_cons, IH. tauto.
Qed.

Lemma sort_elem y l : y ∈ sort localeCompare l ↔ y ∈ l.
Proof.
  induction l as [|x l IH]; simpl; [done|].
  by rewrite sort_insert_elem, elem_of_cons, IH.
Qed.

Lemma sort_insert_sorted x l :
  StronglySorted (λ a b, node_le a b) l →
  StronglySorted (λ a b, node_le a b) (sort_insert localeCompare x l).
Proof.
  induction 1 as [|z l Hl IH Hz]; simpl.
  - by repeat constructor.
  - destruct (_ <=? _)%Z eqn:E.
    + apply Z.leb_le in E. constructor; [by constructor|].
      constructor; [done|]. eapply Forall_impl; [done|].
      intros c Hc. simpl in Hc. by eapply node_le_trans.
    + apply Z.leb_gt in E. constructor; [done|].
      apply Forall_forall. intros c [->|Hc]%sort_insert_elem.
      * by apply node_le_total.
      * by eapply Forall_forall in Hz.
Qed.

Lemma sort_sorted l : StronglySorted (λ a b, node_le a b) (sort localeCompare l).
Proof.
  induction l as [|x l IH]; simpl; [constructor|].
  by apply sort_insert_sorted.
Qed.

(** A list in the order of the comparator has its folders first, and
    each group in the order of the names. *)
Lemma sorted_level l :
  StronglySorted (λ a b, node_le a b) l → level_ordered localeCompare l.
Proof.
  unfold level_ordered.
  induction 1 as [|x l Hl (IH1 & IH2 & IH3) Hx]; simpl.
  { repeat split; constructor. }
  destruct (is_folder x) eqn:Ex; simpl.
  - split; [by rewrite <- IH1|]. split; [|done].
    constructor; [done|].
    apply Forall_forall. intros y Hy%list_elem_of_In.
    apply filter_In in Hy as [Hy Hfy].
    apply list_elem_of_In in Hy.
    eapply Forall_forall in Hx; [|done]. unfold compareNodes in Hx.
    rewrite Ex, Hfy in Hx. done.
  - assert (Hfiles : Forall (λ y, is_folder y = false) l).
    { eapply Forall_impl; [done|]. intros y Hy. simpl in Hy.
      unfold compareNodes in Hy. rewrite Ex in Hy.
      destruct (is_folder y); simpl in Hy; [lia|done]. }
    assert (Hnone : List.filter is_folder l = []).
    { clear -Hfiles. induction Hfiles as [|y l Hy Hl IH]; simpl; [done|].
      by rewrite Hy. }
    assert (Hall : List.filter (λ t, negb (is_folder t)) l = l).
    { clear -Hfiles. induction Hfiles as [|y l Hy Hl IH]; simpl; [done|].
      rewrite Hy. simpl. by rewrite IH. }
    rewrite Hnone, Hall. simpl. split; [done|]. split; [constructor|].
    constructor; [by rewrite Hall in IH3|].
    eapply Forall_impl; [exact Hx|]. intros y Hy. simpl in Hy.
    unfold compareNodes in Hy. rewrite Ex in Hy. unfold by_name.
    destruct (is_folder y); simpl in Hy; [lia|done].
Qed.

Lemma walk_entries_ordered build rel entries :
  Forall (λ e, ∀ rel' es, e.2 = Dir es →
             ∃ tree, build e.2 rel' = Ok tree
                     ∧ tree_ordered localeCompare tree) entries →
  ∃ tree, walk_entries build rel entries = Ok tree
          ∧ ∀ name path children,
              FolderNode name path children ∈ tree →
              tree_ordered localeCompare children.
Proof.
  induction 1 as [|[name child] entries He Hes (tree & Hw & Ht)]; simpl.
  { exists []. split; [done|]. intros ??? H. by apply elem_of_nil in H. }
  destruct (skipped name); [by exists tree|].
  set (relPath := if decide (rel = "") then name else Path.join [rel; name]).
  destruct child as [content size|es].
  - rewrite Hw. simpl. eexists. split; [done|].
    intros n p c [H|H]%elem_of_cons; [done|by eapply Ht].
  - destruct (He relPath es eq_refl) as (sub & Hsub & Hord).
    simpl in Hsub. rewrite Hsub, Hw. simpl. eexists. split; [done|].
    intros n p c [H|H]%elem_of_cons; [|by eapply Ht].
    by injection H as -> -> ->.
Qed.

Lemma buildFileTree_dir entries rel :
  ∃ tree, buildFileTree localeCompare (Dir entries) rel = Ok tree
          ∧ tree_ordered localeCompare tree.
Proof.
  revert rel.
  assert (H : ∀ n rel es, n = Dir es →
            ∃ tree, buildFileTree localeCompare n rel = Ok tree
                    ∧ tree_ordered localeCompare tree);
    [|by eauto].
  induction n as [|entries' IH] using node_induction; intros rel es; [done|].
  intros _. simpl.
  destruct (walk_entries_ordered (buildFileTree localeCompare) rel entries')
    as (tree & Hw & Ht).
  { eapply Forall_impl; [exact IH|]. intros e He rel' es' Hes'. by eapply He. }
  rewrite Hw. simpl. eexists. split; [done|].
  constructor; [apply sorted_level, sort_sorted|].
  intros n p c Hin. apply (proj1 (sort_elem _ _)) in Hin.
  exact (Ht n p c Hin).
Qed.

End OrderLemmas.

Lemma buildFileTree_unfold localeCompare entries rel :
  buildFileTree localeCompare (Dir entries) rel
  = tree ← walk_entries (buildFileTree localeCompare) rel entries;
    Ok (sort localeCompare tree).
Proof. reflexivity. Qed.

Lemma build_example localeCompare ca sa cb sb es :
  (localeCompare "a.txt" "b.txt" <=? 0)%Z = true →
  (localeCompare "b.txt" "a.txt" <=? 0)%Z = false →
  es ∈ permutations [("b.txt", File cb sb); ("a.txt", File ca sa); ("z", Dir [])] →
  buildFileTree localeCompare (Dir es) ""
  = Ok [FolderNode "z" "z" [];
        FileNode "a.txt" "a.txt" "text" sa true;
        FileNode "b.txt" "b.txt" "text" sb true].
Proof.
  intros Hab Hba Hes. cbn in Hes.
  repeat (apply elem_of_cons in Hes as [->|Hes]);
    [..|by apply elem_of_nil in Hes];
    rewrite buildFileTree_unfold;
    match goal with
    | |- context [walk_entries ?b ?r ?e] =>
        let w := eval vm_compute in (walk_entries b r e) in
        change (walk_entries b r e) with w
    end;
    simpl; unfold compareNodes; simpl; rewrite ?Hab, ?Hba; simpl;
    rewrite ?Hab, ?Hba; reflexivity.
Qed.

Lemma codeUnitCompare_antisym a b :
  Z.sgn (codeUnitCompare b a) = (- Z.sgn (codeUnitCompare a b))%Z.
Proof.
  unfold codeUnitCompare. rewrite (String.compare_antisym a b).
  by destruct (String.compare b a).
Qed.

Lemma codeUnitCompare_le a b : (codeUnitCompare a b <= 0)%Z ↔ String.le a b.
Proof.
  unfold codeUnitCompare, String.le, String.leb.
  destruct (String.compare a b); simpl; split; try done; lia.
Qed.

Lemma codeUnitCompare_trans a b c :
  (codeUnitCompare a b <= 0)%Z → (codeUnitCompare b c <= 0)%Z →
  (codeUnitCompare a c <= 0)%Z.
Proof. rewrite !codeUnitCompare_le. apply transitivity. Qed.

(** C4: with [localeCompare] a consistent comparator, [buildFileTree]
    returns, for every directory, a tree in which at every level the
    folders precede the files and each group ascends by name; a directory
    that lists the files [b.txt] and [a.txt] and the folder [z], in any
    order, gives [z], [a.txt], [b.txt]. *)
Theorem buildFileTree_ordered localeCompare entries rel :
  (∀ a b, Z.sgn (localeCompare b a) = (- Z.sgn (localeCompare a b))%Z) →
  (∀ a b c, (localeCompare a b <= 0)%Z → (localeCompare b c <= 0)%Z →
            (localeCompare a c <= 0)%Z) →
  (∃ tree, buildFileTree localeCompare (Dir entries) rel = Ok tree
           ∧ tree_ordered localeCompare tree)
  ∧ ((localeCompare "a.txt" "b.txt" < 0)%Z →
     ∀ ca sa cb sb es,
       es ≡ₚ [("b.txt", File cb sb); ("a.txt", File ca sa); ("z", Dir [])] →
       buildFileTree localeCompare (Dir es) ""
       = Ok [FolderNode "z" "z" [];
             FileNode "a.txt" "a.txt" "text" sa true;
             FileNode "b.txt" "b.txt" "text" sb true]).
Proof.
  intros Hanti Htrans. split; [by apply buildFileTree_dir|].
  intros Hlt ca sa cb sb es Hperm.
  apply (build_example localeCompare ca sa cb sb).
  - apply Z.leb_le. lia.
  - apply Z.leb_gt. pose proof (Hanti "a.txt" "b.txt"). lia.
  - by apply permutations_Permutation.
Qed.

Lemma buildFileTree_ordered_witness :
  buildFileTree codeUnitCompare
    (Dir [("b.txt", File "b" 1); ("a.txt", File "a" 1); ("z", Dir [])]) ""
  = Ok [FolderNode "z" "z" [];
        FileNode "a.txt" "a.txt" "text" 1 true;
        FileNode "b.txt" "b.txt" "text" 1 true].
Proof.
  destruct (buildFileTree_ordered codeUnitCompare [] ""
              codeUnitCompare_antisym codeUnitCompare_trans) as [_ Hex].
  apply (Hex eq_refl "a" 1%N "b" 1%N). done.
Defined.

(** ** Lemmas on the disk *)

Lemma entry_lookup_put_eq s c es :
  Fs.entry_lookup s (Fs.entry_put s c es) = Some c.
Proof.
  induction es as [|[n c0] es IH]; simpl.
  - by rewrite decide_True.
  - destruct (decide (n = s)) as [->|Hn]; simpl.
    + by rewrite decide_True.
    + by rewrite decide_False.
Qed.

Lemma entry_lookup_put_ne s s' c es :
  s ≠ s' → Fs.entry_lookup s' (Fs.entry_put s c es) = Fs.entry_lookup s' es.
Proof.
  intros Hne. induction es as [|[n c0] es IH]; simpl.
  - by rewrite decide_False.
  - destruct (decide (n = s)) as [->|Hn]; simpl.
    + by rewrite !decide_False.
    + by destruct (decide (n = s')).
Qed.

Lemma put_file_lookup n segs new n' :
  Fs.put_file n segs new = Ok n' → Fs.lookup n' segs = Some new.
Proof.
  revert n n'. induction segs as [|s rest IH]; intros n n'; simpl; [done|].
  destruct n as [|es]; [done|].
  destruct rest as [|s' rest].
  - destruct (Fs.entry_lookup s es) as [[|]|];
      intros [= <-]; simpl; by rewrite entry_lookup_put_eq.
  - destruct (Fs.entry_lookup s es) as [c|]; [|done].
    destruct (Fs.put_file c (s' :: rest) new) as [c'|] eqn:Hc; [|done].
    intros [= <-]. cbn [Fs.lookup]. rewrite entry_lookup_put_eq. by eapply IH.
Qed.

Lemma mkdir_p_mono n segs n' p :
  Fs.mkdir_p n segs = Ok n' →
  is_Some (Fs.lookup n p) → is_Some (Fs.lookup n' p).
Proof.
  revert n n' p. induction segs as [|s rest IH]; intros n n' p; simpl.
  { destruct n; [done|]. by intros [= <-]. }
  destruct n as [|es]; [done|].
  destruct (Fs.mkdir_p _ rest) as [c'|] eqn:Hc; [|done].
  intros [= <-]. destruct p as [|q p]; [done|]. simpl.
  destruct (decide (s = q)) as [<-|Hq].
  - rewrite entry_lookup_put_eq.
    destruct (Fs.entry_lookup s es) as [x|]; [|by intros [? ?]].
    simpl in Hc. by eapply IH.
  - by rewrite entry_lookup_put_ne.
Qed.

Lemma put_file_mono n segs content size n' p :
  Fs.put_file n segs (File content size) = Ok n' →
  is_Some (Fs.lookup n p) → is_Some (Fs.lookup n' p).
Proof.
  revert n n' p. induction segs as [|s rest IH]; intros n n' p; simpl; [done|].
  destruct n as [|es]; [done|].
  assert (Hother : ∀ c' q p',
            s ≠ q →
            is_Some (Fs.lookup (Dir es) (q :: p')) →
            is_Some (Fs.lookup (Dir (Fs.entry_put s c' es)) (q :: p'))).
  { intros c' q p' Hq. simpl. by rewrite entry_lookup_put_ne. }
  destruct rest as [|s' rest].
  - destruct (Fs.entry_lookup s es) as [[c0 z0|]|] eqn:Hs; [| done |];
      intros [= <-]; (destruct p as [|q p]; [done|]);
      (destruct (decide (s = q)) as [<-|Hq]; [|by apply Hother]);
      simpl; rewrite entry_lookup_put_eq, Hs.
    + destruct p; [done|]. by intros [? ?].
    + by intros [? ?].
  - destruct (Fs.entry_lookup s es) as [c|] eqn:Hs; [|done].
    destruct (Fs.put_file c (s' :: rest) _) as [c'|] eqn:Hc; [|done].
    intros [= <-]. destruct p as [|q p]; [done|].
    destruct (decide (s = q)) as [<-|Hq]; [|by apply Hother].
    cbn [Fs.lookup]. rewrite entry_lookup_put_eq, Hs. by eapply IH.
Qed.

Lemma write_at_lookup cwd dest content size fs fs' :
  write_at cwd dest content size fs = Ok fs' →
  Fs.lookup fs' (locate cwd dest) = Some (File content size).
Proof.
  unfold write_at. destruct (Fs.mkdir_p _ _) as [fs1|]; [|done]. simpl.
  apply put_file_lookup.
Qed.

Lemma write_at_mono cwd dest content size fs fs' p :
  write_at cwd dest content size fs = Ok fs' →
  is_Some (Fs.lookup fs p) → is_Some (Fs.lookup fs' p).
Proof.
  unfold write_at. destruct (Fs.mkdir_p _ _) as [fs1|] eqn:Hm; [|done]. simpl.
  intros Hp Hsome. eapply put_file_mono; [done|]. by eapply mkdir_p_mono.
Qed.

(** ** Lemmas on the sanitizers *)

Lemma file_name_char_not_sep c :
  file_name_char c = true → negb (Path.is_sep c) = true.
Proof. destruct c as [[] [] [] [] [] [] [] []]; vm_compute; congruence. Qed.

Lemma backslash_to_slash_rejected c :
  file_name_char c = false → file_name_char (backslash_to_slash c) = false.
Proof. destruct c as [[] [] [] [] [] [] [] []]; vm_compute; congruence. Qed.

Lemma all_chars_impl (P Q : ascii → bool) s :
  (∀ c, P c = true → Q c = true) →
  Js.all_chars P s = true → Js.all_chars Q s = true.
Proof.
  intros HPQ. induction s as [|c s IH]; simpl; [done|].
  intros [Hc Hs]%andb_prop. by rewrite HPQ, IH.
Qed.

Lemma keep_chars_empty keep s :
  Js.keep_chars keep s = "" ↔ Js.all_chars (λ c, negb (keep c)) s = true.
Proof.
  induction s as [|c s IH]; simpl; [done|].
  destruct (keep c); simpl; [split; done|done].
Qed.

Lemma sanitizeFileName_Ok s t :
  sanitizeFileName s = Ok t →
  t = Js.keep_chars file_name_char s ∧ t ≠ ""
  ∧ Js.all_chars file_name_char t = true.
Proof.
  unfold sanitizeFileName. set (k := Js.keep_chars _ _).
  destruct (String.length k =? 0) eqn:H0; [done|].
  destruct (255 <? String.length k); [done|]. intros [= <-].
  split; [done|]. split; [|apply keep_chars_all].
  intros E. by rewrite E in H0.
Qed.

Lemma sanitizeSegment_Ok s t :
  sanitizeSegment s = Ok t →
  proper t ∧ Js.all_chars file_name_char t = true.
Proof.
  unfold sanitizeSegment.
  destruct (sanitizeFileName s) as [k|] eqn:Hk; [|done]. simpl.
  apply sanitizeFileName_Ok in Hk as (_ & Hne & Hall).
  destruct (bool_decide (k = ".")) eqn:H1; [done|].
  destruct (bool_decide (k = "..")) eqn:H2; [done|]. simpl.
  intros [= <-]. split; [|done].
  apply bool_decide_eq_false in H1, H2. repeat split; try done.
  eapply all_chars_impl; [|done]. apply file_name_char_not_sep.
Qed.

Lemma map_result_Forall {A B} (f : A → result B) (P : B → Prop) l l' :
  (∀ x y, f x = Ok y → P y) →
  map_result f l = Ok l' → Forall P l' ∧ length l' = length l.
Proof.
  intros Hf. revert l'. induction l as [|x l IH]; intros l'; simpl.
  { by intros [= <-]. }
  destruct (f x) as [y|] eqn:Hy; [|done]. simpl.
  destruct (map_result f l) as [ys|]; [|done]. simpl.
  intros [= <-]. destruct (IH ys eq_refl) as [Hys Hlen].
  split; [constructor; eauto|simpl; by rewrite Hlen].
Qed.

Lemma sanitizeRelativePath_Ok name rel :
  sanitizeRelativePath name = Ok rel →
  ∃ ss, ss ≠ [] ∧ Forall proper ss
        ∧ Forall (λ s, Js.all_chars file_name_char s = true) ss
        ∧ rel = Path.join_segments ss.
Proof.
  unfold sanitizeRelativePath.
  destruct (decide (name = "")); [done|].
  set (segs := Path.segments _).
  destruct (decide (segs = [])) as [|Hne]; [done|].
  destruct (map_result sanitizeSegment segs) as [ss|] eqn:Hss; [|done].
  simpl. intros [= <-]. exists ss.
  destruct (map_result_Forall sanitizeSegment
              (λ t, proper t ∧ Js.all_chars file_name_char t = true)
              segs ss sanitizeSegment_Ok Hss) as [Hall Hlen].
  split; [|split; [|split; [|done]]].
  - intros ->. by destruct segs.
  - eapply Forall_impl; [done|]. by intros ? [? _].
  - eapply Forall_impl; [done|]. by intros ? [_ ?].
Qed.

(** [s.split('/').join('/')] is [s]. *)
Lemma join_split s : Path.join_segments (Path.split s) = s.
Proof.
  induction s as [|c s IH]; [done|]. simpl.
  pose proof (split_nonempty s) as Hne.
  destruct (Path.is_sep c) eqn:Hc.
  - rewrite join_segments_cons by done. rewrite IH.
    unfold Path.is_sep, Js.is_char in Hc.
    apply bool_decide_eq_true in Hc. by subst.
  - destruct (Path.split s) as [|h t]; [done|].
    destruct t as [|h' t]; simpl in *; [by rewrite IH|].
    rewrite <- IH. by rewrite str_app_cons.
Qed.

Lemma all_chars_split (P : ascii → bool) s :
  Js.all_chars P s = true →
  Forall (λ x, Js.all_chars P x = true) (Path.split s).
Proof.
  induction s as [|c s IH]; simpl; [by repeat constructor|].
  intros [Hc Hs]%andb_prop. specialize (IH Hs).
  destruct (Path.is_sep c); [by constructor|].
  destruct (Path.split s) as [|h t].
  { constructor; [simpl; by rewrite Hc|constructor]. }
  inversion IH; subst. constructor; [|done]. simpl. by rewrite Hc.
Qed.

(** A name without a single character of a file name is rejected. *)
Lemma sanitizeRelativePath_rejected name :
  Js.keep_chars file_name_char name = "" →
  ∃ e, sanitizeRelativePath name = Throw e.
Proof.
  intros Hk. apply keep_chars_empty in Hk.
  unfold sanitizeRelativePath.
  destruct (decide (name = "")); [by eexists|].
  set (segs := Path.segments _).
  destruct (decide (segs = [])) as [|Hne]; [by eexists|].
  assert (Hsegs : Forall (λ x, Js.keep_chars file_name_char x = "") segs).
  { assert (Hall : Forall (λ x, Js.all_chars (λ c, negb (file_name_char c)) x
                                 = true)
                     (Path.split (Js.map_char backslash_to_slash name))).
    { apply all_chars_split.
      clear -Hk. induction name as [|c s IH]; simpl in *; [done|].
      apply andb_prop in Hk as [Hc Hs]. rewrite IH by done.
      apply negb_true_iff in Hc.
      by rewrite (backslash_to_slash_rejected c Hc). }
    unfold segs, Path.segments. apply Forall_forall.
    intros x [_ Hx]%list_elem_of_filter. apply keep_chars_empty.
    by eapply Forall_forall in Hall. }
  destruct Hsegs as [|x segs' Hx _]; [done|].
  assert (Hthrow : ∃ e, sanitizeSegment x = Throw e).
  { unfold sanitizeSegment, sanitizeFileName. rewrite Hx. by eexists. }
  destruct Hthrow as [e He]. cbn [map_result]. rewrite He. by eexists.
Qed.

(** ** [upload-files] *)

#[local] Arguments write_at : simpl never.
#[local] Arguments upload_dest : simpl never.
#[local] Arguments mkdir_recursive : simpl never.
#[local] Arguments writeFile : simpl never.

(** What the sandbox accepts lies at or below the base. *)
Lemma validate_below cwd d p v :
  Path.isAbsolute cwd = true → Forall proper d →
  validateSkillPath cwd p (abs_path d) = Ok v →
  ∃ u, Forall proper (d ++ u) ∧ v = abs_path (d ++ u).
Proof.
  intros Hcwd Hd Hv.
  destruct (validate_canonical _ _ _ _ Hcwd Hv) as (l & Hl & ->).
  unfold validateSkillPath in Hv. rewrite (resolve_abs cwd d) in Hv by done.
  destruct (Js.startsWith _ _) eqn:Hsw; simpl in Hv.
  - injection Hv as Hv. rewrite Hv in Hsw. unfold Js.startsWith in Hsw.
    apply prefix_split in Hsw as [rest Hrest].
    rewrite str_app_assoc in Hrest.
    assert (Hsegs : l = d ++ Path.segments rest).
    { rewrite <- (segments_abs l), Hrest by by apply proper_ok_list.
      by rewrite segments_app_sep, segments_abs by by apply proper_ok_list. }
    exists (Path.segments rest). by rewrite <- Hsegs.
  - destruct (Js.eqb _ _) eqn:He; simpl in Hv; [|done].
    injection Hv as Hv. apply eqb_true in He. rewrite Hv in He.
    exists []. rewrite app_nil_r. split; [done|].
    assert (l = d); [|by subst].
    rewrite <- (segments_abs l), He by by apply proper_ok_list.
    by rewrite segments_abs by by apply proper_ok_list.
Qed.

Lemma resolve_join cwd l rel t :
  Forall proper l → Path.segments rel = t → Forall proper t → t ≠ [] →
  Path.resolve cwd [Path.join [abs_path l; rel]] = abs_path (l ++ t).
Proof.
  intros Hl Ht Hpt Htne.
  assert (rel ≠ "") by (intros ->; by rewrite segments_nil in Ht; subst).
  rewrite join_abs_rel by done.
  assert (Ha : Path.isAbsolute (abs_path l +:+ "/" +:+ rel) = true) by done.
  destruct (normalize_absolute _ Ha) as [Hn Hc].
  rewrite resolve_absolute, Hc by done. unfold canon.
  rewrite segments_app_sep, segments_abs, Ht by by apply proper_ok_list.
  rewrite norm_go_id; [done|]. apply Forall_app. by split.
Qed.

Lemma validate_join_below cwd d u rel t :
  Forall proper (d ++ u) → d ≠ [] →
  Path.segments rel = t → Forall proper t → t ≠ [] →
  validateSkillPath cwd (Path.join [abs_path (d ++ u); rel]) (abs_path d)
  = Ok (abs_path ((d ++ u) ++ t)).
Proof.
  intros Hdu Hd Ht Hpt Htne.
  assert (rel ≠ "") by (intros ->; by rewrite segments_nil in Ht; subst).
  assert (Hpd : Forall proper d) by by apply Forall_app in Hdu as [? _].
  rewrite join_abs_rel by done.
  assert (Ha : Path.isAbsolute (abs_path (d ++ u) +:+ "/" +:+ rel) = true)
    by done.
  destruct (normalize_absolute _ Ha) as [Hn Hc].
  rewrite validate_absolute by done. rewrite Hc, canon_abs by done.
  unfold canon.
  rewrite segments_app_sep, segments_abs, Ht by by apply proper_ok_list.
  rewrite norm_go_id by (apply Forall_app; by split).
  rewrite app_nil_l, <- (app_assoc d u t).
  rewrite (abs_path_app d (u ++ t)) by (try done; by destruct u, t).
  unfold Js.startsWith.
  by rewrite <- (str_app_assoc (abs_path d) "/"), prefix_app.
Qed.

Lemma upload_one_written cwd d u file rel uploaded fs fs' :
  Forall proper (d ++ u) → d ≠ [] →
  sanitizeRelativePath (uf_name file) = Ok rel →
  write_at cwd (upload_dest cwd (abs_path (d ++ u)) rel)
    (uf_data file) (upload_size file) fs = Ok fs' →
  upload_one cwd (abs_path d) (abs_path (d ++ u)) uploaded file fs
  = (Ok (uploaded ++ [rel]), fs').
Proof.
  intros Hdu Hd Hsan Hio.
  destruct (sanitizeRelativePath_Ok _ _ Hsan) as (ss & Hne & Hss & _ & ->).
  assert (Hsegs : Path.segments (Path.join_segments ss) = ss)
    by by apply segments_join, proper_ok_list.
  unfold upload_dest in Hio.
  rewrite (resolve_join cwd _ _ ss) in Hio by done.
  unfold write_at in Hio.
  unfold upload_one. run_io. rewrite Hsan. simpl.
  rewrite (validate_join_below cwd d u _ ss) by done. simpl.
  unfold mkdir_recursive, writeFile.
  destruct (Fs.mkdir_p fs _) as [fs1|]; [|done]. simpl in Hio.
  fold (upload_size file). rewrite Hio. by rewrite join_split.
Qed.

Lemma upload_one_rejected cwd skillDir vt file uploaded fs :
  Js.keep_chars file_name_char (uf_name file) = "" →
  upload_one cwd skillDir vt uploaded file fs = (Ok uploaded, fs).
Proof.
  intros [e He]%sanitizeRelativePath_rejected.
  unfold upload_one. run_io. by rewrite He.
Qed.

#[local] Arguments upload_loop : simpl never.
#[local] Arguments upload_one : simpl never.

Lemma upload_loop_nil cwd skillDir vt uploaded fs :
  upload_loop cwd skillDir vt [] uploaded fs = (Ok uploaded, fs).
Proof. reflexivity. Qed.

Lemma upload_loop_cons cwd skillDir vt file rest uploaded uploaded' fs fs' :
  upload_one cwd skillDir vt uploaded file fs = (Ok uploaded', fs') →
  upload_loop cwd skillDir vt (file :: rest) uploaded fs
  = upload_loop cwd skillDir vt rest uploaded' fs'.
Proof.
  intros H. unfold upload_loop at 1. run_io. rewrite H. done.
Qed.

Lemma rejected_name_not_uploaded bad name rel :
  Js.keep_chars file_name_char bad = "" →
  sanitizeRelativePath name = Ok rel → bad ≠ rel.
Proof.
  intros Hbad (ss & Hne & Hss & Hchars & ->)%sanitizeRelativePath_Ok ->.
  destruct ss as [|s0 ss]; [done|].
  inversion Hss as [|?? ((Hs0 & _) & _) _]; subst.
  inversion Hchars as [|?? Hc _]; subst.
  destruct s0 as [|c s0]; [done|]. simpl in Hc.
  apply andb_prop in Hc as [Hc _].
  assert (Hhead : ∃ r, Path.join_segments (String c s0 :: ss) = String c r).
  { destruct ss; simpl; by eexists. }
  destruct Hhead as [r Hr]. rewrite Hr in Hbad. simpl in Hbad.
  by rewrite Hc in Hbad.
Qed.

(** C6: of three files of which one has a name without any character of
    a file name, the other two being accepted by [sanitizeRelativePath]
    and written without error, [upload-files] reports the two sanitized
    names and the count 2, whatever the place of the rejected file in the
    batch; its name is not among those reported, and the two files are on
    the disk afterwards. *)
Theorem upload_best_effort
    cwd userData fs skillPath skillDir targetFolder vt fs0
    bad g1 g2 r1 r2 fs1 fs2 files :
  Path.isAbsolute cwd = true →
  bundle cwd userData skillPath skillDir →
  validateSkillPath cwd
    (if decide (targetFolder = "") then skillDir
     else Path.join [skillDir; targetFolder]) skillDir = Ok vt →
  Fs.mkdir_p fs (locate cwd vt) = Ok fs0 →
  Js.keep_chars file_name_char (uf_name bad) = "" →
  sanitizeRelativePath (uf_name g1) = Ok r1 →
  sanitizeRelativePath (uf_name g2) = Ok r2 →
  write_at cwd (upload_dest cwd vt r1) (uf_data g1) (upload_size g1) fs0
  = Ok fs1 →
  write_at cwd (upload_dest cwd vt r2) (uf_data g2) (upload_size g2) fs1
  = Ok fs2 →
  files ∈ [[bad; g1; g2]; [g1; bad; g2]; [g1; g2; bad]] →
  upload_files cwd userData
    {| up_skillPath := skillPath; up_files := files;
       up_targetFolder := targetFolder |} fs
  = (Ok (Success {| ur_uploadedFiles := [r1; r2]; ur_count := 2 |}), fs2)
  ∧ (uf_name bad ∉ [r1; r2])
  ∧ is_Some (Fs.lookup fs2 (locate cwd (upload_dest cwd vt r1)))
  ∧ Fs.lookup fs2 (locate cwd (upload_dest cwd vt r2))
    = Some (File (uf_data g2) (upload_size g2)).
Proof.
  intros Hcwd Hb Hvt Hmk Hbad Hr1 Hr2 Hw1 Hw2 Hfiles.
  destruct (bundle_dir _ _ _ _ Hcwd Hb) as (d & Hd & Hdne & ->).
  destruct Hb as (Hne & _ & vp & Hv & Hdir).
  destruct (validate_below _ _ _ _ Hcwd Hd Hvt) as (u & Hdu & ->).
  assert (Hloop : upload_loop cwd (abs_path d) (abs_path (d ++ u)) files [] fs0
                  = (Ok [r1; r2], fs2)).
  { pose proof (upload_one_rejected cwd (abs_path d) (abs_path (d ++ u)) bad)
      as Hskip.
    repeat (apply elem_of_cons in Hfiles as [->|Hfiles]);
      [..|by apply elem_of_nil in Hfiles].
    - rewrite (upload_loop_cons _ _ _ _ _ _ _ _ _ (Hskip [] fs0 Hbad)).
      rewrite (upload_loop_cons _ _ _ _ _ _ _ _ _
                 (upload_one_written cwd d u g1 r1 [] fs0 fs1 Hdu Hdne Hr1 Hw1)).
      rewrite (upload_loop_cons _ _ _ _ _ _ _ _ _
                 (upload_one_written cwd d u g2 r2 _ fs1 fs2 Hdu Hdne Hr2 Hw2)).
      done.
    - rewrite (upload_loop_cons _ _ _ _ _ _ _ _ _
                 (upload_one_written cwd d u g1 r1 [] fs0 fs1 Hdu Hdne Hr1 Hw1)).
      rewrite (upload_loop_cons _ _ _ _ _ _ _ _ _ (Hskip _ fs1 Hbad)).
      rewrite (upload_loop_cons _ _ _ _ _ _ _ _ _
                 (upload_one_written cwd d u g2 r2 _ fs1 fs2 Hdu Hdne Hr2 Hw2)).
      done.
    - rewrite (upload_loop_cons _ _ _ _ _ _ _ _ _
                 (upload_one_written cwd d u g1 r1 [] fs0 fs1 Hdu Hdne Hr1 Hw1)).
      rewrite (upload_loop_cons _ _ _ _ _ _ _ _ _
                 (upload_one_written cwd d u g2 r2 _ fs1 fs2 Hdu Hdne Hr2 Hw2)).
      rewrite (upload_loop_cons _ _ _ _ _ _ _ _ _ (Hskip _ fs2 Hbad)).
      done. }
  split; [|split; [|split]].
  - unfold upload_files. run_io. rewrite Hv. simpl. rewrite Hdir, Hvt. simpl.
    unfold mkdir_recursive. rewrite Hmk. by rewrite Hloop.
  - rewrite !not_elem_of_cons. repeat split.
    + by eapply rejected_name_not_uploaded.
    + by eapply rejected_name_not_uploaded.
    + apply not_elem_of_nil.
  - eapply write_at_mono; [exact Hw2|].
    by rewrite (write_at_lookup _ _ _ _ _ _ Hw1).
  - by apply (write_at_lookup _ _ _ _ _ _ Hw2).
Qed.

Lemma upload_best_effort_witness :
  (upload_files demo_cwd demo_userData
     {| up_skillPath := demo_skill;
        up_files := [ {| uf_name := "x y.txt"; uf_data := "xy" |};
                      {| uf_name := "???"; uf_data := "q" |};
                      {| uf_name := "d/e.txt"; uf_data := "e" |} ];
        up_targetFolder := "sub" |} demo_disk).1
  = Ok (Success {| ur_uploadedFiles := ["xy.txt"; "d/e.txt"]; ur_count := 2 |}).
Proof.
  set (g1 := {| uf_name := "x y.txt"; uf_data := "xy" |}).
  set (bad := {| uf_name := "???"; uf_data := "q" |}).
  set (g2 := {| uf_name := "d/e.txt"; uf_data := "e" |}).
  set (vt := "/home/u/app/skills/demo/sub").
  set (fs0 := result_or demo_disk (Fs.mkdir_p demo_disk (locate demo_cwd vt))).
  set (fs1 := result_or demo_disk
                (write_at demo_cwd (upload_dest demo_cwd vt "xy.txt")
                   (uf_data g1) (upload_size g1) fs0)).
  set (fs2 := result_or demo_disk
                (write_at demo_cwd (upload_dest demo_cwd vt "d/e.txt")
                   (uf_data g2) (upload_size g2) fs1)).
  assert (Hvt : validateSkillPath demo_cwd
                  (if decide ("sub" = "") then demo_dir
                   else Path.join [demo_dir; "sub"]) demo_dir = Ok vt)
    by (vm_compute; reflexivity).
  assert (Hmk : Fs.mkdir_p demo_disk (locate demo_cwd vt) = Ok fs0)
    by (vm_compute; reflexivity).
  assert (Hbad : Js.keep_chars file_name_char (uf_name bad) = "")
    by reflexivity.
  assert (Hr1 : sanitizeRelativePath (uf_name g1) = Ok "xy.txt")
    by (vm_compute; reflexivity).
  assert (Hr2 : sanitizeRelativePath (uf_name g2) = Ok "d/e.txt")
    by (vm_compute; reflexivity).
  assert (Hw1 : write_at demo_cwd (upload_dest demo_cwd vt "xy.txt")
                  (uf_data g1) (upload_size g1) fs0 = Ok fs1)
    by (vm_compute; reflexivity).
  assert (Hw2 : write_at demo_cwd (upload_dest demo_cwd vt "d/e.txt")
                  (uf_data g2) (upload_size g2) fs1 = Ok fs2)
    by (vm_compute; reflexivity).
  assert (Hin : [g1; bad; g2] ∈ [[bad; g1; g2]; [g1; bad; g2]; [g1; g2; bad]])
    by apply list_elem_of_further, list_elem_of_here.
  destruct (upload_best_effort demo_cwd demo_userData demo_disk demo_skill
              demo_dir "sub" vt fs0 bad g1 g2 "xy.txt" "d/e.txt" fs1 fs2
              [g1; bad; g2] eq_refl demo_is_bundle Hvt Hmk Hbad Hr1 Hr2
              Hw1 Hw2 Hin) as [Hup _].
  by rewrite Hup.
Defined.

(** ** [list-skills] *)

(** C8, on the code: a manifest without a front-matter header, and with a
    line of its body that starts with [description:], is listed with that
    line as its description and not with the placeholder; and a header
    whose [description:] is empty is listed with the line that follows. *)
Lemma list_skills_description_outside_header :
  (list_skills demo_cwd demo_userData (headless_library headless_manifest)).1
  = Ok [{| se_name := "widget";
           se_path := "/home/u/app/skills/widget/SKILL.md";
           se_description := "only a body line" |}]
  ∧ extract_description
      ("---" +:+ nl +:+ "name: demo" +:+ nl +:+ "description:" +:+ nl
       +:+ "---" +:+ nl +:+ "Body.")
    = "---"
  ∧ extract_description demo_manifest = "A demo skill"
  ∧ extract_description "# No key at all" = "No description".
Proof. by vm_compute. Qed.

(** ** [load-skill]: the import of an external manifest *)

#[local] Arguments find_slot : simpl never.
#[local] Arguments candidate : simpl never.
#[local] Arguments import_skill : simpl never.

Lemma locate_resolve cwd p :
  Path.isAbsolute cwd = true →
  locate cwd (Path.resolve cwd [p]) = locate cwd p.
Proof.
  intros Hcwd. destruct (resolve_canonical cwd p Hcwd) as (l & Hl & E).
  unfold locate at 2. rewrite E, locate_abs by done.
  symmetry. by apply segments_abs, proper_ok_list.
Qed.

Lemma find_slot_step cwd userData fuel name candidateName suffix fs :
  find_slot cwd userData (S fuel) name candidateName
    (bundle_dir_of userData candidateName) suffix fs
  = if occupied cwd userData fs candidateName
    then find_slot cwd userData fuel name (name +:+ "-" +:+ pretty suffix)
           (bundle_dir_of userData (name +:+ "-" +:+ pretty suffix))
           (suffix + 1)%N fs
    else (Ok (Some (candidateName, bundle_dir_of userData candidateName)), fs).
Proof.
  unfold find_slot at 1. run_io. unfold existsSync, occupied, manifest_of.
  by destruct (bool_decide _).
Qed.

(** The loop stops at the first candidate without a manifest. *)
Lemma find_slot_finds cwd userData fs name k :
  (∀ i, i < k → occupied cwd userData fs (candidate name i) = true) →
  occupied cwd userData fs (candidate name k) = false →
  ∀ fuel j, j ≤ k → k - j < fuel →
    find_slot cwd userData fuel name (candidate name j)
      (bundle_dir_of userData (candidate name j)) (N.of_nat (S j)) fs
    = (Ok (Some (candidate name k,
                 bundle_dir_of userData (candidate name k))), fs).
Proof.
  intros Hocc Hfree fuel. induction fuel as [|fuel IH]; intros j Hj Hfuel.
  { lia. }
  rewrite find_slot_step.
  destruct (decide (j = k)) as [->|Hne].
  - by rewrite Hfree.
  - rewrite Hocc by lia.
    change (name +:+ "-" +:+ pretty (N.of_nat (S j)))
      with (candidate name (S j)).
    replace (N.of_nat (S j) + 1)%N with (N.of_nat (S (S j))) by lia.
    apply IH; lia.
Qed.

(** *** The loop of the import ends

    A library holds finitely many bundles and the candidate names differ,
    so one of the first candidates has no manifest. *)

Lemma all_chars_app (P : ascii → bool) a b :
  Js.all_chars P (a +:+ b) = Js.all_chars P a && Js.all_chars P b.
Proof.
  induction a as [|c a IH]; [done|]. rewrite str_app_cons. simpl.
  by rewrite IH, andb_assoc.
Qed.

Lemma pretty_N_char_skill x : skill_name_char (pretty_N_char x) = true.
Proof. unfold pretty_N_char. by repeat case_match. Qed.

Lemma pretty_N_go_skill x s :
  Js.all_chars skill_name_char s = true →
  Js.all_chars skill_name_char (pretty_N_go x s) = true.
Proof.
  revert s. induction (N.lt_wf_0 x) as [x _ IH]; intros s Hs.
  assert (x = 0 ∨ 0 < x)%N as [->|?] by lia.
  - by rewrite pretty_N_go_0.
  - rewrite pretty_N_go_step by done. apply IH.
    { by apply N.div_lt. }
    simpl. by rewrite pretty_N_char_skill, Hs.
Qed.

Lemma pretty_N_skill (x : N) : Js.all_chars skill_name_char (pretty x) = true.
Proof.
  unfold pretty, pretty_N. case_decide; [done|]. by apply pretty_N_go_skill.
Qed.

Lemma skill_name_char_not_sep c :
  skill_name_char c = true → negb (Path.is_sep c) = true.
Proof. destruct c as [[] [] [] [] [] [] [] []]; vm_compute; congruence. Qed.

Lemma skill_name_proper s :
  s ≠ "" → Js.all_chars skill_name_char s = true → proper s.
Proof.
  intros Hne Hs. repeat split; try done.
  - eapply all_chars_impl; [|done]. apply skill_name_char_not_sep.
  - by intros ->.
  - by intros ->.
Qed.

Lemma candidate_proper name k :
  name ≠ "" → Js.all_chars skill_name_char name = true →
  proper (candidate name k).
Proof.
  intros Hne Hs. apply skill_name_proper.
  - destruct k; [done|]. unfold candidate. by destruct name.
  - destruct k; [done|]. unfold candidate.
    by rewrite !all_chars_app, Hs, pretty_N_skill.
Qed.

Lemma candidate_inj name i j : candidate name i = candidate name j → i = j.
Proof.
  assert (Hlen : ∀ k, String.length (candidate name (S k))
                      ≠ String.length name).
  { intros k. unfold candidate. rewrite !str_app_length. simpl. lia. }
  destruct i as [|i], j as [|j]; [done| | |].
  - intros E. destruct (Hlen j). by rewrite <- E.
  - intros E. destruct (Hlen i). by rewrite E.
  - unfold candidate. intros E. apply (inj (String.app name)) in E.
    apply (inj (String.app "-")) in E. apply (inj pretty) in E. lia.
Qed.

Lemma endsWithChar_app x a b :
  b ≠ "" → Js.endsWithChar x (a +:+ b) = Js.endsWithChar x b.
Proof.
  intros Hb. induction a as [|c a IH]; [done|].
  rewrite str_app_cons. simpl. rewrite IH.
  destruct (a +:+ b) eqn:E; [|done].
  destruct a; [by rewrite str_app_nil_l in E|by rewrite str_app_cons in E].
Qed.

Lemma endsWithChar_seg s : seg_ok s → Js.endsWithChar "/" s = false.
Proof.
  intros [Hne Hs]. induction s as [|c s IH]; [done|].
  simpl in *. apply andb_prop in Hs as [Hc Hs].
  destruct s as [|c' s]; [by apply negb_true_iff|].
  by apply IH.
Qed.

(** [normalize] of an absolute path without a trailing separator. *)
Lemma normalize_absolute_exact p :
  Path.isAbsolute p = true → Js.endsWithChar "/" p = false →
  canon p ≠ [] → Path.normalize p = abs_path (canon p).
Proof.
  intros Hp Hend Hc. unfold Path.normalize.
  rewrite decide_False by by apply isAbsolute_nonempty.
  rewrite Hp, Hend. simpl. unfold Path.normalizeString. fold (canon p).
  rewrite decide_False; [done|]. intros E.
  apply join_segments_nil in E; [done|]. apply proper_ok_list, canon_proper.
Qed.

Lemma join_abs_seg l s :
  Forall proper l → proper s →
  Path.join [abs_path l; s] = abs_path (l ++ [s]).
Proof.
  intros Hl Hs. pose proof (proper_seg_ok _ Hs) as Hok.
  assert (Hne : s ≠ "") by by destruct Hok.
  rewrite join_abs_rel by done.
  assert (Hc : canon (abs_path l +:+ "/" +:+ s) = l ++ [s]).
  { unfold canon.
    rewrite segments_app_sep, segments_abs, segments_seg
      by (try done; by apply proper_ok_list).
    rewrite norm_go_id; [done|]. apply Forall_app.
    split; [done|constructor; [done|constructor]]. }
  rewrite normalize_absolute_exact; [by rewrite Hc|done| |].
  - rewrite endsWithChar_app by done.
    rewrite (endsWithChar_app _ "/" s) by done. by apply endsWithChar_seg.
  - rewrite Hc. by destruct l.
Qed.

Lemma getSkillsDir_abs userData :
  Path.isAbsolute userData = true →
  getSkillsDir userData = abs_path (canon userData ++ ["skills"]).
Proof.
  intros Hu. pose proof (isAbsolute_nonempty _ Hu) as Hne.
  assert (Hp : proper "skills") by proper_lit.
  unfold getSkillsDir, Path.join. simpl. rewrite decide_False by done.
  assert (Hc : canon (userData +:+ "/" +:+ "skills")
               = canon userData ++ ["skills"]).
  { unfold canon.
    rewrite segments_app_sep, (segments_seg "skills") by by destruct Hp.
    rewrite norm_go_app_gen, norm_go_id by (constructor; [done|constructor]).
    by rewrite rev_involutive. }
  rewrite normalize_absolute_exact; [by rewrite Hc| | |].
  - by destruct userData.
  - rewrite endsWithChar_app; done.
  - rewrite Hc. by destruct (canon userData).
Qed.

Lemma locate_manifest cwd userData c :
  Path.isAbsolute userData = true → proper c →
  locate cwd (manifest_of userData c)
  = (canon userData ++ ["skills"]) ++ [c; "SKILL.md"].
Proof.
  intros Hu Hc. unfold manifest_of, bundle_dir_of.
  assert (Hs : Forall proper (canon userData ++ ["skills"])).
  { apply Forall_app. split; [apply canon_proper|].
    constructor; [proper_lit|constructor]. }
  rewrite getSkillsDir_abs, join_abs_seg by done.
  rewrite (locate_join_inside cwd _ _ ["SKILL.md"]).
  - by rewrite <- app_assoc.
  - apply Forall_app. split; [done|].
    constructor; [done|constructor].
  - reflexivity.
  - constructor; [proper_lit|constructor].
  - done.
Qed.

Lemma lookup_app n l1 l2 :
  Fs.lookup n (l1 ++ l2)
  = match Fs.lookup n l1 with
    | Some m => Fs.lookup m l2
    | None => None
    end.
Proof.
  revert n. induction l1 as [|s l1 IH]; intros n; simpl; [done|].
  destruct n as [|es]; [done|].
  destruct (Fs.entry_lookup s es); [apply IH|done].
Qed.

Lemma entry_lookup_elem s es :
  is_Some (Fs.entry_lookup s es) → s ∈ es.*1.
Proof.
  induction es as [|[n c] es IH]; simpl; [by intros [? ?]|].
  destruct (decide (n = s)) as [->|].
  - intros _. apply list_elem_of_here.
  - intros H. apply list_elem_of_further. by apply IH.
Qed.

(** The names of the bundles of the library. *)
Lemma occupied_elem cwd userData fs c :
  Path.isAbsolute userData = true → proper c →
  occupied cwd userData fs c = true →
  ∃ es, Fs.lookup fs (canon userData ++ ["skills"]) = Some (Dir es)
        ∧ c ∈ es.*1.
Proof.
  intros Hu Hc Hocc. unfold occupied in Hocc.
  apply bool_decide_eq_true in Hocc.
  rewrite locate_manifest, lookup_app in Hocc by done.
  destruct (Fs.lookup fs _) as [[|es]|]; [by destruct Hocc| |by destruct Hocc].
  exists es. split; [done|]. apply entry_lookup_elem.
  simpl in Hocc. destruct (Fs.entry_lookup c es); [done|by destruct Hocc].
Qed.

Lemma least_false (f : nat → bool) n :
  f n = false →
  ∃ k, k ≤ n ∧ f k = false ∧ ∀ i, i < k → f i = true.
Proof.
  revert f. induction n as [|n IH]; intros f Hn.
  { exists 0. split; [done|]. split; [done|]. lia. }
  destruct (f 0) eqn:H0.
  - destruct (IH (λ i, f (S i)) Hn) as (k & Hk & Hfk & Hleast).
    exists (S k). split; [lia|]. split; [done|].
    intros [|i] Hi; [done|]. apply Hleast. lia.
  - exists 0. split; [lia|]. split; [done|]. lia.
Qed.

Lemma free_slot_exists cwd userData fs name :
  Path.isAbsolute userData = true →
  name ≠ "" → Js.all_chars skill_name_char name = true →
  ∃ k, (∀ i, i < k → occupied cwd userData fs (candidate name i) = true)
       ∧ occupied cwd userData fs (candidate name k) = false.
Proof.
  intros Hu Hne Hs.
  set (f := λ i, occupied cwd userData fs (candidate name i)).
  assert (Hfree : ∃ n, f n = false).
  { destruct (f 0) eqn:H0; [|by exists 0].
    destruct (occupied_elem cwd userData fs (candidate name 0) Hu
                (candidate_proper name 0 Hne Hs) H0) as (es & Hes & _).
    destruct (decide (Forall (λ i, f i = true) (seq 0 (S (length es)))))
      as [Hall|Hnot].
    - exfalso.
      assert (Hsub : candidate name <$> seq 0 (S (length es)) ⊆+ es.*1).
      { apply NoDup_submseteq.
        - apply NoDup_fmap_2; [|apply NoDup_seq].
          intros i j. apply candidate_inj.
        - intros c (i & -> & Hi)%list_elem_of_fmap.
          eapply Forall_forall in Hall; [|done].
          destruct (occupied_elem cwd userData fs (candidate name i) Hu
                      (candidate_proper name i Hne Hs) Hall)
            as (es' & Hes' & Hin).
          rewrite Hes in Hes'. by injection Hes' as <-. }
      apply submseteq_length in Hsub.
      rewrite !length_fmap, length_seq in Hsub. lia.
    - apply not_Forall_Exists in Hnot; [|apply _].
      apply Exists_exists in Hnot as (i & _ & Hi).
      exists i. simpl in Hi. by destruct (f i). }
  destruct Hfree as [n Hn].
  destruct (least_false f n Hn) as (k & _ & Hk & Hleast). by exists k.
Qed.

(** On every disk the loop of the import ends, at the first candidate
    without a manifest. *)
Lemma find_slot_terminates cwd userData fs name :
  Path.isAbsolute userData = true →
  name ≠ "" → Js.all_chars skill_name_char name = true →
  ∃ k, ∀ fuel, k < fuel →
    find_slot cwd userData fuel name name (bundle_dir_of userData name) 1 fs
    = (Ok (Some (candidate name k,
                 bundle_dir_of userData (candidate name k))), fs).
Proof.
  intros Hu Hne Hs.
  destruct (free_slot_exists cwd userData fs name Hu Hne Hs)
    as (k & Hocc & Hfree).
  exists k. intros fuel Hfuel.
  apply (find_slot_finds cwd userData fs name k Hocc Hfree fuel 0); lia.
Qed.



(** A directory that [mkdir] had to make is empty. *)
Lemma mkdir_p_fresh n segs n' :
  Fs.lookup n segs = None → Fs.mkdir_p n segs = Ok n' →
  Fs.lookup n' segs = Some (Dir []).
Proof.
  revert n n'. induction segs as [|s rest IH]; intros n n'; simpl; [done|].
  destruct n as [|es]; [done|].
  destruct (Fs.mkdir_p _ rest) as [c'|] eqn:Hc; [|done].
  intros Hnone [= <-]. simpl. rewrite entry_lookup_put_eq.
  destruct (Fs.entry_lookup s es) as [c|]; simpl in Hc.
  - by eapply IH.
  - destruct rest as [|s' rest]; [by injection Hc as <-|].
    by apply (IH (Dir [])).
Qed.

Lemma put_file_cons es s rest new :
  rest ≠ [] →
  Fs.put_file (Dir es) (s :: rest) new
  = match Fs.entry_lookup s es with
    | Some c =>
        c' ← Fs.put_file c rest new;
        Ok (Dir (Fs.entry_put s c' es))
    | None => Throw (FsError "ENOENT")
    end.
Proof. by destruct rest. Qed.


Lemma entry_put_same s c es :
  Fs.entry_lookup s es = Some c → Fs.entry_put s c es = es.
Proof.
  induction es as [|[n c0] es IH]; simpl; [done|].
  destruct (decide (n = s)); [by intros [= ->]|]. intros H. by rewrite IH.
Qed.

Lemma mkdir_p_existing n segs es :
  Fs.lookup n segs = Some (Dir es) → Fs.mkdir_p n segs = Ok n.
Proof.
  revert n. induction segs as [|s rest IH]; intros n; simpl.
  { by intros [= ->]. }
  destruct n as [|es0]; [done|].
  destruct (Fs.entry_lookup s es0) as [c|] eqn:Hc; [|done]. simpl.
  intros H. rewrite (IH c H). simpl. by rewrite entry_put_same.
Qed.






(** * Further properties of the code *)

(** ** The sanitizers on their own outputs *)

Lemma sanitizeFileName_length s t :
  sanitizeFileName s = Ok t → 1 ≤ String.length t ≤ 255.
Proof.
  unfold sanitizeFileName. set (k := Js.keep_chars _ _).
  destruct (String.length k =? 0) eqn:H0; [done|].
  destruct (255 <? String.length k) eqn:H1; [done|]. intros [= <-].
  apply Nat.eqb_neq in H0. apply Nat.ltb_ge in H1. lia.
Qed.

Lemma sanitizeFileName_fixed name s :
  sanitizeFileName name = Ok s → sanitizeFileName s = Ok s.
Proof.
  intros H. pose proof (sanitizeFileName_length _ _ H) as Hlen.
  destruct (sanitizeFileName_Ok _ _ H) as (_ & Hne & Hall).
  unfold sanitizeFileName. rewrite keep_chars_id by done.
  destruct (String.length s =? 0) eqn:H0; [apply Nat.eqb_eq in H0; lia|].
  destruct (255 <? String.length s) eqn:H1; [apply Nat.ltb_lt in H1; lia|].
  done.
Qed.

(** X1: what [sanitizeFileName] returns is made of the characters of a
    file name only, has 1 to 255 of them, and is returned unchanged when
    sanitized again. *)
Theorem sanitizeFileName_stable name s :
  sanitizeFileName name = Ok s →
  sanitizeFileName s = Ok s
  ∧ Js.all_chars file_name_char s = true
  ∧ 1 ≤ String.length s ≤ 255.
Proof.
  intros H. pose proof (sanitizeFileName_length _ _ H) as Hlen.
  destruct (sanitizeFileName_Ok _ _ H) as (_ & Hne & Hall).
  split; [by eapply sanitizeFileName_fixed|done].
Qed.

Lemma sanitizeFileName_stable_witness :
  sanitizeFileName "my file (1).txt" = Ok "myfile1.txt"
  ∧ sanitizeFileName "myfile1.txt" = Ok "myfile1.txt".
Proof.
  split; [reflexivity|].
  apply (sanitizeFileName_stable "my file (1).txt"). reflexivity.
Defined.

Lemma sanitizeSegment_stable s t :
  sanitizeSegment s = Ok t → sanitizeSegment t = Ok t.
Proof.
  unfold sanitizeSegment.
  destruct (sanitizeFileName s) as [k|] eqn:Hk; [|done]. simpl.
  destruct (bool_decide (k = ".") || bool_decide (k = "..")) eqn:Hd; [done|].
  intros [= <-]. apply sanitizeFileName_fixed in Hk.
  rewrite Hk. simpl. by rewrite Hd.
Qed.

Lemma map_result_stable {A} (f : A → result A) l l' :
  (∀ x y, f x = Ok y → f y = Ok y) →
  map_result f l = Ok l' → map_result f l' = Ok l'.
Proof.
  intros Hf. revert l'. induction l as [|x l IH]; intros l'; simpl.
  { by intros [= <-]. }
  destruct (f x) as [y|] eqn:Hy; [|done]. simpl.
  destruct (map_result f l) as [ys|]; [|done]. simpl.
  intros [= <-]. simpl. by rewrite (Hf x y Hy), (IH ys eq_refl).
Qed.

Lemma split_join l :
  l ≠ [] →
  Forall (λ s, Js.all_chars (λ c, negb (Path.is_sep c)) s = true) l →
  Path.split (Path.join_segments l) = l.
Proof.
  intros Hne Hl. induction Hl as [|x l Hx Hl IH]; [done|].
  destruct l as [|y l]; [by apply split_seg|].
  rewrite join_segments_cons by done.
  by rewrite split_app_sep, IH, split_seg.
Qed.

Lemma file_char_not_backslash c :
  file_name_char c || Path.is_sep c = true → backslash_to_slash c = c.
Proof. destruct c as [[] [] [] [] [] [] [] []]; vm_compute; congruence. Qed.

Lemma map_char_id (f : ascii → ascii) (P : ascii → bool) s :
  (∀ c, P c = true → f c = c) →
  Js.all_chars P s = true → Js.map_char f s = s.
Proof.
  intros Hf. induction s as [|c s IH]; simpl; [done|].
  intros [Hc Hs]%andb_prop. by rewrite Hf, IH.
Qed.

Lemma all_chars_join (P : ascii → bool) l :
  P "/"%char = true →
  Forall (λ s, Js.all_chars P s = true) l →
  Js.all_chars P (Path.join_segments l) = true.
Proof.
  intros Hsep Hl. induction Hl as [|x l Hx Hl IH]; [done|].
  destruct l as [|y l]; [done|].
  rewrite join_segments_cons by done.
  rewrite !all_chars_app, Hx, IH. simpl. by rewrite Hsep.
Qed.

(** X2: what [sanitizeRelativePath] returns is a relative path of
    sanitized segments: no empty segment, no [.] or [..], only characters
    of file names and separators; sanitized again it is unchanged. *)
Theorem sanitizeRelativePath_stable name rel :
  sanitizeRelativePath name = Ok rel →
  sanitizeRelativePath rel = Ok rel
  ∧ Path.split rel = Path.segments rel
  ∧ ("." ∉ Path.segments rel)
  ∧ (".." ∉ Path.segments rel)
  ∧ Path.isAbsolute rel = false
  ∧ Js.all_chars (λ c, file_name_char c || Path.is_sep c) rel = true.
Proof.
  unfold sanitizeRelativePath at 1.
  destruct (decide (name = "")); [done|].
  set (segs := Path.segments _).
  destruct (decide (segs = [])) as [|Hsegs]; [done|].
  destruct (map_result sanitizeSegment segs) as [ss|] eqn:Hss; [|done].
  simpl. intros [= <-].
  destruct (map_result_Forall sanitizeSegment
              (λ t, proper t ∧ Js.all_chars file_name_char t = true)
              segs ss sanitizeSegment_Ok Hss) as [Hall Hlen].
  assert (Hne : ss ≠ []) by (intros ->; by destruct segs).
  assert (Hp : Forall proper ss)
    by (eapply Forall_impl; [exact Hall|]; by intros ? [? _]).
  assert (Hchars : Forall (λ s, Js.all_chars
                            (λ c, file_name_char c || Path.is_sep c) s = true) ss).
  { eapply Forall_impl; [exact Hall|]. intros t [_ Ht].
    apply (all_chars_impl file_name_char); [|exact Ht]. by intros c ->. }
  assert (Hnoslash : Forall (λ s, Js.all_chars
                              (λ c, negb (Path.is_sep c)) s = true) ss)
    by (eapply Forall_impl; [exact Hall|]; by intros ? [[[_ ?] _] _]).
  assert (Hjoin : Js.all_chars (λ c, file_name_char c || Path.is_sep c)
                    (Path.join_segments ss) = true)
    by by apply all_chars_join.
  assert (Hsplit : Path.segments (Path.join_segments ss) = ss)
    by by apply segments_join, proper_ok_list.
  split; [|split; [|split; [|split; [|split]]]].
  - unfold sanitizeRelativePath.
    rewrite decide_False
      by (intros E; apply join_segments_nil in E; [done|by apply proper_ok_list]).
    rewrite (map_char_id _ _ _ file_char_not_backslash Hjoin), Hsplit.
    rewrite decide_False by done.
    by rewrite (map_result_stable _ _ _ sanitizeSegment_stable Hss).
  - by rewrite Hsplit, split_join.
  - rewrite Hsplit. intros Hin. eapply Forall_forall in Hp; [|done].
    by destruct Hp as (_ & ? & _).
  - rewrite Hsplit. intros Hin. eapply Forall_forall in Hp; [|done].
    by destruct Hp as (_ & _ & ?).
  - by apply isAbsolute_join_segments, proper_ok_list.
  - done.
Qed.

Lemma sanitizeRelativePath_stable_witness :
  sanitizeRelativePath "docs\my notes//a b.txt" = Ok "docs/mynotes/ab.txt"
  ∧ sanitizeRelativePath "docs/mynotes/ab.txt" = Ok "docs/mynotes/ab.txt".
Proof.
  split; [by vm_compute|].
  apply (sanitizeRelativePath_stable "docs\my notes//a b.txt"). by vm_compute.
Defined.

(** ** The sandbox on any request *)

Lemma negb_and_false a b : negb a && negb b = false → a = true ∨ b = true.
Proof. destruct a, b; simpl; auto. Qed.

Lemma validate_unfold cwd p base v :
  validateSkillPath cwd p base = Ok v →
  (Js.startsWith v (Path.resolve cwd [base] +:+ "/") = true
   ∨ v = Path.resolve cwd [base])
  ∧ ∃ full, v = Path.resolve cwd [full].
Proof.
  unfold validateSkillPath. cbv zeta.
  set (full := if Path.isAbsolute _ then _ else _).
  destruct (negb _ && negb _) eqn:Hc; [done|]. intros [= <-].
  split; [|by exists full].
  apply negb_and_false in Hc as [Hc|Hc]; [by left|right].
  by apply eqb_true.
Qed.

(** X3: whatever path is requested, a path that [validateSkillPath]
    returns is the resolved base or extends it by a separator, is
    unchanged by [path.resolve], and is accepted again with itself as the
    answer. *)
Theorem validateSkillPath_safe cwd p base v :
  Path.isAbsolute cwd = true →
  validateSkillPath cwd p base = Ok v →
  (v = Path.resolve cwd [base]
   ∨ Js.startsWith v (Path.resolve cwd [base] +:+ "/") = true)
  ∧ Path.resolve cwd [v] = v
  ∧ validateSkillPath cwd v base = Ok v.
Proof.
  intros Hcwd Hv.
  destruct (validate_canonical _ _ _ _ Hcwd Hv) as (l & Hl & ->).
  destruct (validate_unfold _ _ _ _ Hv) as [Hin _].
  split; [tauto|]. split; [by apply resolve_abs|].
  assert (Habs : Path.isAbsolute (abs_path l) = true) by done.
  destruct (normalize_absolute _ Habs) as [Hn Hcn].
  unfold validateSkillPath. cbv zeta. rewrite Hn.
  rewrite (resolve_absolute _ _ Hn), Hcn, canon_abs by done.
  destruct Hin as [Hin| ->].
  - by rewrite Hin.
  - by rewrite eqb_refl, andb_false_r.
Qed.

Lemma validateSkillPath_safe_witness :
  validateSkillPath "/work" "../skills/./demo//SKILL.md" "/lib/skills"
  = Ok "/lib/skills/demo/SKILL.md"
  ∧ validateSkillPath "/work" "/lib/skills/demo/SKILL.md" "/lib/skills"
    = Ok "/lib/skills/demo/SKILL.md".
Proof.
  split; [by vm_compute|].
  apply (validateSkillPath_safe "/work" "../skills/./demo//SKILL.md").
  - reflexivity.
  - by vm_compute.
Defined.

Lemma abs_path_no_double l :
  Forall proper l → Js.startsWith (abs_path l) "//" = false.
Proof.
  intros Hl. destruct Hl as [|x l [[Hne Hx] _] Hl]; [done|].
  destruct x as [|c x]; [done|]. simpl in Hx.
  apply andb_prop in Hx as [Hc _].
  assert (Hsep : "/"%char ≠ c) by (by intros <-).
  assert (∃ r, abs_path (String c x :: l) = String "/" (String c r)) as [r ->].
  { unfold abs_path. destruct l; simpl; eauto. }
  unfold Js.startsWith. cbn [String.prefix].
  destruct (ascii_dec "/" "/"); [|done]. by destruct (ascii_dec "/" c).
Qed.

(** X4: with the root directory as the base, [validateSkillPath] accepts
    the root itself and nothing else: the base followed by a separator is
    [//], which starts no resolved path. *)
Theorem validateSkillPath_root_base cwd p v :
  Path.isAbsolute cwd = true →
  validateSkillPath cwd p "/" = Ok v → v = "/".
Proof.
  intros Hcwd Hv.
  destruct (validate_canonical _ _ _ _ Hcwd Hv) as (l & Hl & ->).
  destruct (validate_unfold _ _ _ _ Hv) as [[Hin|Hin] _].
  - change (Path.resolve cwd ["/"] +:+ "/") with "//" in Hin.
    by rewrite abs_path_no_double in Hin.
  - done.
Qed.

Lemma validateSkillPath_root_base_witness :
  (∃ v, validateSkillPath "/work" ".." "/" = Ok v ∧ v = "/")
  ∧ validateSkillPath "/work" "etc" "/" = Throw (Error access_denied).
Proof.
  split; [|by vm_compute].
  eexists. split; [by vm_compute|].
  apply (validateSkillPath_root_base "/work" "..");
    [reflexivity | by vm_compute].
Defined.

(** X5: a name that [sanitizeRelativePath] accepts, joined to a folder
    that the sandbox accepted, is accepted by the sandbox as exactly that
    folder, a separator and the sanitized name: a sanitized name never
    leaves the folder it is put in. *)
Theorem sanitized_name_stays_inside cwd base target vt name rel :
  Path.isAbsolute cwd = true →
  Path.resolve cwd [base] = base → base ≠ "/" →
  validateSkillPath cwd target base = Ok vt →
  sanitizeRelativePath name = Ok rel →
  validateSkillPath cwd (Path.join [vt; rel]) base
  = Ok (vt +:+ "/" +:+ rel).
Proof.
  intros Hcwd Hbase Hroot Hvt Hrel.
  destruct (resolve_canonical cwd base Hcwd) as (d & Hd & Hres).
  rewrite Hbase in Hres. subst base.
  assert (Hdne : d ≠ []) by (by intros ->).
  destruct (validate_below _ _ _ _ Hcwd Hd Hvt) as (u & Hu & ->).
  destruct (sanitizeRelativePath_Ok _ _ Hrel) as (t & Hne & Ht & _ & ->).
  rewrite (validate_join_below cwd d u _ t); try done.
  - rewrite abs_path_app; [done| |done]. by destruct d.
  - by apply segments_join, proper_ok_list.
Qed.

Lemma sanitized_name_stays_inside_witness :
  validateSkillPath "/" (Path.join ["/lib/skills/demo/docs"; "a/evil.txt"])
    "/lib/skills/demo"
  = Ok "/lib/skills/demo/docs/a/evil.txt".
Proof.
  apply (sanitized_name_stays_inside "/" "/lib/skills/demo" "docs"
           "/lib/skills/demo/docs" "a\evil .txt" "a/evil.txt").
  - reflexivity.
  - by vm_compute.
  - done.
  - by vm_compute.
  - by vm_compute.
Defined.

(** ** The classifier *)

Ltac ext_cases H :=
  apply bool_decide_eq_true in H;
  repeat (rewrite elem_of_cons in H; destruct H as [H|H]);
  [..|by apply elem_of_nil in H].

(** X6: [getFileType] answers with one of six kinds; the kind is [text]
    exactly for the files that [isEditableFile] accepts, and a path
    without an extension is [binary] and not editable. *)
Theorem getFileType_kinds filePath :
  getFileType filePath
    ∈ ["image"; "document"; "video"; "audio"; "text"; "binary"]
  ∧ (getFileType filePath = "text" ↔ isEditableFile filePath = true)
  ∧ (Path.extname filePath = "" →
     getFileType filePath = "binary" ∧ isEditableFile filePath = false).
Proof.
  unfold getFileType, isEditableFile. cbv zeta.
  set (ext := Js.toLowerCase (Path.extname filePath)).
  split; [|split].
  - repeat case_bool_decide; rewrite !elem_of_cons; auto 10.
  - destruct (bool_decide (ext ∈ [".jpg"; ".jpeg"; ".png"; ".gif"; ".webp";
                                  ".svg"])) eqn:H1.
    { ext_cases H1; rewrite H1; by vm_compute. }
    destruct (bool_decide (ext ∈ [".pdf"; ".doc"; ".docx"; ".xls"; ".xlsx"]))
      eqn:H2.
    { ext_cases H2; rewrite H2; by vm_compute. }
    destruct (bool_decide (ext ∈ [".mp4"; ".webm"; ".mov"; ".avi"])) eqn:H3.
    { ext_cases H3; rewrite H3; by vm_compute. }
    destruct (bool_decide (ext ∈ [".mp3"; ".wav"; ".flac"])) eqn:H4.
    { ext_cases H4; rewrite H4; by vm_compute. }
    by destruct (bool_decide (ext ∈ EDITABLE_EXTENSIONS)).
  - intros Hext. unfold ext. rewrite Hext. by vm_compute.
Qed.

(** ** The description of a listed bundle *)

Lemma rest_of_line_clean s :
  Js.all_chars not_terminator (rest_of_line s) = true.
Proof.
  induction s as [|c s IH]; simpl; [done|].
  destruct (Js.is_line_terminator c) eqn:Hc; simpl; [done|].
  unfold not_terminator at 1. by rewrite Hc, IH.
Qed.

Lemma capture_value_clean s g :
  capture_value s = Some g → Js.all_chars not_terminator g = true.
Proof.
  destruct s as [|c s]; simpl; [done|].
  destruct (Js.is_line_terminator c) eqn:Hc; [done|]. intros [= <-].
  simpl. unfold not_terminator at 1. by rewrite Hc, rest_of_line_clean.
Qed.

Lemma after_key_clean s g :
  after_key s = Some g → Js.all_chars not_terminator g = true.
Proof.
  induction s as [|c s IH]; [apply capture_value_clean|].
  cbn [after_key]. destruct (Js.is_space c).
  - destruct (after_key s) as [g'|]; [|apply capture_value_clean].
    intros [= <-]. by apply IH.
  - apply capture_value_clean.
Qed.

Lemma match_description_clean b s g :
  match_description b s = Some g → Js.all_chars not_terminator g = true.
Proof.
  revert b. induction s as [|c s IH]; intros b.
  - cbn [match_description]. destruct b; [|done].
    destruct (strip_prefix "description:" "") as [r|]; [|done].
    destruct (after_key r) eqn:Hr; [|done]. intros [= <-].
    by apply after_key_clean in Hr.
  - cbn [match_description].
    destruct (if b then _ else _) as [g'|] eqn:Hh.
    + intros [= <-]. destruct b; [|done].
      destruct (strip_prefix "description:" (String c s)) as [r|]; [|done].
      by apply after_key_clean in Hh.
    + apply IH.
Qed.

Lemma all_chars_rev_app P a b :
  Js.all_chars P (String.rev_app a b) = Js.all_chars P a && Js.all_chars P b.
Proof.
  revert b. induction a as [|c a IH]; intros b; simpl; [done|].
  rewrite IH. simpl. by destruct (P c), (Js.all_chars P a).
Qed.

Lemma all_chars_rev P s : Js.all_chars P (String.rev s) = Js.all_chars P s.
Proof. unfold String.rev. by rewrite all_chars_rev_app, andb_true_r. Qed.

Lemma all_chars_trimStart P s :
  Js.all_chars P s = true → Js.all_chars P (Js.trimStart s) = true.
Proof.
  induction s as [|c s IH]; [done|]. cbn [Js.trimStart].
  destruct (Js.is_space c); [|done]. simpl. intros [_ ?]%andb_prop. auto.
Qed.

Lemma all_chars_trim P s :
  Js.all_chars P s = true → Js.all_chars P (Js.trim s) = true.
Proof.
  intros H. unfold Js.trim. rewrite all_chars_rev.
  apply all_chars_trimStart. rewrite all_chars_rev.
  by apply all_chars_trimStart.
Qed.

Lemma all_chars_take P n s :
  Js.all_chars P s = true → Js.all_chars P (Js.take n s) = true.
Proof.
  revert s. induction n as [|n IH]; intros [|c s]; simpl; try done.
  intros [-> ?]%andb_prop. simpl. auto.
Qed.

Lemma take_length n s : String.length (Js.take n s) ≤ n.
Proof.
  revert s. induction n as [|n IH]; intros [|c s]; simpl; try lia.
  specialize (IH s). lia.
Qed.

(** X7: whatever the manifest holds, the description that the listing
    extracts has at most 200 characters and spans no line break. *)
Theorem extract_description_one_line content :
  String.length (extract_description content) ≤ 200
  ∧ Js.all_chars not_terminator (extract_description content) = true.
Proof.
  unfold extract_description. cbv zeta. split; [apply take_length|].
  apply all_chars_take.
  destruct (match_description true content) as [g|] eqn:Hg; [|done].
  apply all_chars_trim. by apply match_description_clean in Hg.
Qed.

(** ** Uploads of any batch *)

Lemma validate_absolute_result cwd p base v :
  Path.isAbsolute p = true →
  validateSkillPath cwd p base = Ok v → v = Path.resolve cwd [p].
Proof.
  intros Hp. destruct (normalize_absolute _ Hp) as [Hn Hcn].
  unfold validateSkillPath. cbv zeta. rewrite Hn.
  destruct (negb _ && negb _); [done|]. intros [= <-].
  by rewrite !resolve_absolute, Hcn.
Qed.

Lemma join_abs_absolute l rel :
  rel ≠ "" → Path.isAbsolute (Path.join [abs_path l; rel]) = true.
Proof.
  intros Hrel. rewrite join_abs_rel by done.
  by apply normalize_absolute.
Qed.

Lemma sanitizeRelativePath_nonempty name rel :
  sanitizeRelativePath name = Ok rel → rel ≠ "".
Proof.
  intros (ss & Hne & Hss & _ & ->)%sanitizeRelativePath_Ok Hrel.
  apply join_segments_nil in Hrel; [done|by apply proper_ok_list].
Qed.

(** One round of the loop never throws and removes nothing; it adds at
    most the sanitized name of its file, which is then on the disk. *)
Lemma upload_one_cases cwd skillDir l uploaded file fs :
  Path.isAbsolute cwd = true →
  ∃ uploaded' fs',
    upload_one cwd skillDir (abs_path l) uploaded file fs = (Ok uploaded', fs')
    ∧ (∀ p, is_Some (Fs.lookup fs p) → is_Some (Fs.lookup fs' p))
    ∧ (uploaded' = uploaded
       ∨ ∃ rel, sanitizeRelativePath (uf_name file) = Ok rel
                ∧ uploaded' = uploaded ++ [rel]
                ∧ is_Some (Fs.lookup fs'
                             (locate cwd (Path.join [abs_path l; rel])))).
Proof.
  intros Hcwd. unfold upload_one. run_io.
  assert (Hsame : ∃ uploaded' fs',
    (Ok uploaded, fs) = (Ok uploaded', fs')
    ∧ (∀ p, is_Some (Fs.lookup fs p) → is_Some (Fs.lookup fs' p))
    ∧ (uploaded' = uploaded
       ∨ ∃ rel, sanitizeRelativePath (uf_name file) = Ok rel
                ∧ uploaded' = uploaded ++ [rel]
                ∧ is_Some (Fs.lookup fs'
                             (locate cwd (Path.join [abs_path l; rel])))))
    by (exists uploaded, fs; split; [done|]; split; [done|by left]).
  destruct (sanitizeRelativePath (uf_name file)) as [rel|] eqn:Hrel; simpl;
    [|done].
  destruct (validateSkillPath cwd _ skillDir) as [vd|] eqn:Hvd; simpl;
    [|done].
  unfold mkdir_recursive, writeFile.
  destruct (Fs.mkdir_p fs _) as [fs1|] eqn:Hmk; simpl; [|done].
  clear Hsame.
  destruct (Fs.put_file fs1 _ _) as [fs2|] eqn:Hput; simpl.
  - exists (uploaded ++ [Path.join_segments (Path.split rel)]), fs2.
    split; [done|]. split.
    + intros p Hp. eapply put_file_mono; [done|]. by eapply mkdir_p_mono.
    + right. exists rel. rewrite join_split. split; [done|]. split; [done|].
      apply validate_absolute_result in Hvd;
        [|by eapply join_abs_absolute, sanitizeRelativePath_nonempty].
      rewrite <- (locate_resolve cwd (Path.join _)), <- Hvd by done.
      by rewrite (put_file_lookup _ _ _ _ Hput).
  - exists uploaded, fs1. split; [done|]. split; [|by left].
    intros p Hp. by eapply mkdir_p_mono.
Qed.

Lemma upload_loop_cases cwd skillDir l files uploaded fs :
  Path.isAbsolute cwd = true →
  ∃ added fs',
    upload_loop cwd skillDir (abs_path l) files uploaded fs
    = (Ok (uploaded ++ added), fs')
    ∧ length added ≤ length files
    ∧ (∀ p, is_Some (Fs.lookup fs p) → is_Some (Fs.lookup fs' p))
    ∧ ∀ n, n ∈ added →
        (∃ file, file ∈ files ∧ sanitizeRelativePath (uf_name file) = Ok n)
        ∧ is_Some (Fs.lookup fs' (locate cwd (Path.join [abs_path l; n]))).
Proof.
  intros Hcwd. revert uploaded fs.
  induction files as [|file rest IH]; intros uploaded fs.
  { exists [], fs. rewrite upload_loop_nil, app_nil_r.
    split; [done|]. split; [done|]. split; [done|].
    by intros n ?%elem_of_nil. }
  destruct (upload_one_cases cwd skillDir l uploaded file fs Hcwd)
    as (uploaded' & fs1 & Hone & Hmono1 & Hcase).
  destruct (IH uploaded' fs1) as (added & fs' & Hloop & Hlen & Hmono & Hadded).
  rewrite (upload_loop_cons _ _ _ _ _ _ _ _ _ Hone), Hloop.
  destruct Hcase as [->|(rel & Hrel & -> & Hdisk)].
  - exists added, fs'. split; [done|]. split; [simpl; lia|].
    split; [by auto|]. intros n Hn.
    destruct (Hadded n Hn) as [(f & Hf & Hsan) Hn'].
    split; [|done]. exists f. split; [by apply list_elem_of_further|done].
  - exists (rel :: added), fs'. rewrite <- (assoc_L (++)).
    split; [done|]. split; [simpl; lia|]. split; [by auto|].
    intros n [->|Hn]%elem_of_cons.
    + split; [|by auto]. exists file. split; [apply list_elem_of_here|done].
    + destruct (Hadded n Hn) as [(f & Hf & Hsan) Hn'].
      split; [|done]. exists f. split; [by apply list_elem_of_further|done].
Qed.

(** X8: once the bundle and the target folder are accepted and the folder
    can be made, [upload-files] answers with a success for any batch: the
    count is the number of names reported and at most the number of files
    sent, every reported name is the sanitized name of a file of the batch
    and is on the disk below the target folder afterwards, and no path
    that was on the disk before is gone. *)
Theorem upload_files_reports cwd userData data fs vp vt fs0 :
  Path.isAbsolute cwd = true →
  validateSkillPath cwd (up_skillPath data) (getSkillsDir userData) = Ok vp →
  validateSkillPath cwd
    (if decide (up_targetFolder data = "") then Path.dirname vp
     else Path.join [Path.dirname vp; up_targetFolder data])
    (Path.dirname vp) = Ok vt →
  Fs.mkdir_p fs (locate cwd vt) = Ok fs0 →
  ∃ names fs',
    upload_files cwd userData data fs
    = (Ok (Success {| ur_uploadedFiles := names; ur_count := length names |}),
       fs')
    ∧ length names ≤ length (up_files data)
    ∧ (∀ n, n ∈ names →
         (∃ file, file ∈ up_files data
                  ∧ sanitizeRelativePath (uf_name file) = Ok n)
         ∧ is_Some (Fs.lookup fs' (locate cwd (Path.join [vt; n]))))
    ∧ (∀ p, is_Some (Fs.lookup fs p) → is_Some (Fs.lookup fs' p)).
Proof.
  intros Hcwd Hvp Hvt Hmk.
  destruct (validate_canonical _ _ _ _ Hcwd Hvt) as (l & Hl & ->).
  destruct (upload_loop_cases cwd (Path.dirname vp) l (up_files data) [] fs0
              Hcwd) as (names & fs' & Hloop & Hlen & Hmono & Hnames).
  exists names, fs'. split; [|split; [done|split; [done|]]].
  - unfold upload_files. run_io. rewrite Hvp. simpl. rewrite Hvt. simpl.
    unfold mkdir_recursive. rewrite Hmk. by rewrite Hloop.
  - intros p Hp. apply Hmono. by eapply mkdir_p_mono.
Qed.

Lemma upload_files_reports_witness :
  ∃ names fs',
    upload_files demo_cwd demo_userData
      {| up_skillPath := demo_skill;
         up_files := [ {| uf_name := "x y.txt"; uf_data := "xy" |};
                       {| uf_name := ".."; uf_data := "q" |} ];
         up_targetFolder := "sub" |} demo_disk
    = (Ok (Success {| ur_uploadedFiles := names; ur_count := length names |}),
       fs')
    ∧ length names ≤ 2.
Proof.
  destruct (upload_files_reports demo_cwd demo_userData
              {| up_skillPath := demo_skill;
                 up_files := [ {| uf_name := "x y.txt"; uf_data := "xy" |};
                               {| uf_name := ".."; uf_data := "q" |} ];
                 up_targetFolder := "sub" |} demo_disk
              demo_skill "/home/u/app/skills/demo/sub"
              (result_or demo_disk
                 (Fs.mkdir_p demo_disk
                    (locate demo_cwd "/home/u/app/skills/demo/sub"))))
    as (names & fs' & Hup & Hlen & _).
  - reflexivity.
  - by vm_compute.
  - by vm_compute.
  - by vm_compute.
  - exists names, fs'. by split.
Defined.

(** ** Directories that are already there *)

Lemma lookup_parent_dir n l1 l2 x :
  Fs.lookup n (l1 ++ l2) = Some x → l2 ≠ [] →
  ∃ es, Fs.lookup n l1 = Some (Dir es).
Proof.
  rewrite lookup_app. destruct (Fs.lookup n l1) as [m|]; [|done].
  destruct l2 as [|s l2]; [done|]. destruct m as [|es]; [done|]. eauto.
Qed.

Lemma mkdir_p_dir n segs n' :
  Fs.mkdir_p n segs = Ok n' → ∃ es, Fs.lookup n' segs = Some (Dir es).
Proof.
  revert n n'. induction segs as [|s rest IH]; intros n n'; simpl.
  { destruct n; [done|]. intros [= <-]. eauto. }
  destruct n as [|es0]; [done|].
  destruct (Fs.mkdir_p _ rest) as [c'|] eqn:Hc; [|done]. simpl.
  intros [= <-]. simpl. rewrite entry_lookup_put_eq. by eapply IH.
Qed.

(** ** What [load-skill] refuses *)

Lemma path_escape_throw cwd p base :
  path_escape (validateSkillPath cwd p base) = true →
  validateSkillPath cwd p base = Throw (Error access_denied).
Proof. unfold validateSkillPath. by destruct (_ && _). Qed.

(** X9: [load-skill] refuses, with the message of the error and without
    importing anything, a path in the library where nothing is, a path
    outside of it where nothing is, and a path outside of it to something
    that is not called [SKILL.md] in any letter case; the disk is then as
    the creation of the library directory left it. *)
Theorem load_skill_refuses cwd userData fuel now skillPath fs fs0 :
  Path.isAbsolute cwd = true →
  Fs.mkdir_p fs (locate cwd (getSkillsDir userData)) = Ok fs0 →
  (∀ v, validateSkillPath cwd skillPath (getSkillsDir userData) = Ok v →
        Fs.lookup fs0 (locate cwd v) = None →
        load_skill cwd userData fuel now skillPath fs
        = (Ok (Some (Failure "Skill file does not exist")), fs0))
  ∧ (path_escape (validateSkillPath cwd skillPath (getSkillsDir userData))
     = true →
     Fs.lookup fs0 (locate cwd skillPath) = None →
     load_skill cwd userData fuel now skillPath fs
     = (Ok (Some (Failure "Skill file does not exist")), fs0))
  ∧ (path_escape (validateSkillPath cwd skillPath (getSkillsDir userData))
     = true →
     is_Some (Fs.lookup fs0 (locate cwd skillPath)) →
     Js.toLowerCase (Path.basename (Path.resolve cwd [skillPath]))
     ≠ "skill.md" →
     load_skill cwd userData fuel now skillPath fs
     = (Ok (Some (Failure "Only SKILL.md files can be imported")), fs0)).
Proof.
  intros Hcwd Hlib. split; [|split].
  - intros v Hv Hnone. unfold load_skill. run_io.
    unfold mkdir_recursive at 1. rewrite Hlib, Hv. simpl.
    unfold existsSync. by rewrite Hnone.
  - intros Hesc%path_escape_throw Hnone. unfold load_skill. run_io.
    unfold mkdir_recursive at 1. rewrite Hlib, Hesc. simpl.
    change (Js.eqb access_denied access_denied) with true. simpl.
    unfold import_skill. run_io. unfold existsSync.
    by rewrite locate_resolve, Hnone by done.
  - intros Hesc%path_escape_throw [x Hx] Hbase. unfold load_skill. run_io.
    unfold mkdir_recursive at 1. rewrite Hlib, Hesc. simpl.
    change (Js.eqb access_denied access_denied) with true. simpl.
    unfold import_skill. run_io. unfold existsSync.
    rewrite locate_resolve, Hx by done. simpl.
    by rewrite (eqb_false _ _ Hbase).
Qed.

Lemma load_skill_refuses_witness :
  load_skill demo_cwd demo_userData 3 0 "/ext1/widget/notes.md" demo_disk
  = (Ok (Some (Failure "Skill file does not exist")), demo_disk)
  ∧ load_skill demo_cwd demo_userData 3 0 "/ext1/widget" demo_disk
    = (Ok (Some (Failure "Only SKILL.md files can be imported")), demo_disk).
Proof.
  split.
  - apply (load_skill_refuses demo_cwd demo_userData 3 0
             "/ext1/widget/notes.md" demo_disk demo_disk);
      [reflexivity | by vm_compute | by vm_compute | by vm_compute].
  - apply (load_skill_refuses demo_cwd demo_userData 3 0
             "/ext1/widget" demo_disk demo_disk);
      [reflexivity | by vm_compute | by vm_compute | | by vm_compute].
    vm_compute. eauto.
Defined.

(** ** A bundle that was just made *)

Lemma sanitizeSkillName_proper name s :
  sanitizeSkillName name = Ok s → proper s.
Proof.
  intros (-> & Hlen & _)%sanitizeSkillName_Ok.
  apply skill_name_proper; [|apply keep_chars_all].
  intros E. by rewrite E in Hlen.
Qed.

Lemma manifest_of_abs userData c :
  Path.isAbsolute userData = true → proper c →
  manifest_of userData c
  = abs_path (((canon userData ++ ["skills"]) ++ [c]) ++ ["SKILL.md"])
  ∧ bundle_dir_of userData c = abs_path ((canon userData ++ ["skills"]) ++ [c])
  ∧ Forall proper (((canon userData ++ ["skills"]) ++ [c]) ++ ["SKILL.md"]).
Proof.
  intros Hu Hc.
  assert (HS : Forall proper (canon userData ++ ["skills"])).
  { apply Forall_app. split; [apply canon_proper|].
    apply Forall_singleton. proper_lit. }
  assert (HSc : Forall proper ((canon userData ++ ["skills"]) ++ [c])).
  { apply Forall_app. split; [done|]. by apply Forall_singleton. }
  assert (Hm : proper "SKILL.md") by proper_lit.
  unfold manifest_of, bundle_dir_of. rewrite getSkillsDir_abs by done.
  rewrite !join_abs_seg by done. split; [done|]. split; [done|].
  apply Forall_app. split; [done|]. by apply Forall_singleton.
Qed.

Lemma validate_manifest cwd userData c :
  Path.isAbsolute userData = true → proper c →
  validateSkillPath cwd (manifest_of userData c) (getSkillsDir userData)
  = Ok (manifest_of userData c)
  ∧ validateSkillPath cwd (bundle_dir_of userData c) (getSkillsDir userData)
    = Ok (bundle_dir_of userData c).
Proof.
  intros Hu Hc.
  assert (HS : Forall proper (canon userData ++ ["skills"])).
  { apply Forall_app. split; [apply canon_proper|].
    apply Forall_singleton. proper_lit. }
  assert (Hm : proper "SKILL.md") by proper_lit.
  assert (Hne : canon userData ++ ["skills"] ≠ [])
    by (by destruct (canon userData)).
  split.
  - destruct (manifest_of_abs userData c Hu Hc) as (Hman & Hdir & Hall).
    rewrite Hman at 2. unfold manifest_of. rewrite Hdir.
    rewrite getSkillsDir_abs by done.
    apply validate_join_below;
      [by apply Forall_app in Hall as [? _] | done
      | by apply segments_seg, proper_seg_ok | by apply Forall_singleton
      | done].
  - destruct (manifest_of_abs userData c Hu Hc) as (_ & Hdir & _).
    rewrite Hdir at 2. unfold bundle_dir_of.
    rewrite getSkillsDir_abs by done.
    apply validate_inside;
      [done | done | by apply segments_seg, proper_seg_ok
      | by apply Forall_singleton | done].
Qed.

Lemma load_skill_in_library cwd userData fuel now c content size fs :
  Path.isAbsolute userData = true → proper c →
  Fs.lookup fs (locate cwd (manifest_of userData c))
  = Some (File content size) →
  load_skill cwd userData fuel now (manifest_of userData c) fs
  = (Ok (Some (Success {| ls_content := content;
                          ls_path := manifest_of userData c;
                          ls_imported := false;
                          ls_skillName := None |})), fs).
Proof.
  intros Hu Hc Hfile.
  assert (HS : Forall proper (canon userData ++ ["skills"])).
  { apply Forall_app. split; [apply canon_proper|].
    apply Forall_singleton. proper_lit. }
  assert (Hlib : Fs.mkdir_p fs (locate cwd (getSkillsDir userData)) = Ok fs).
  { rewrite getSkillsDir_abs, locate_abs by done.
    rewrite locate_manifest in Hfile by done.
    destruct (lookup_parent_dir _ _ _ _ Hfile ltac:(done)) as [es Hes].
    by eapply mkdir_p_existing. }
  unfold load_skill. run_io. unfold mkdir_recursive at 1. rewrite Hlib.
  destruct (validate_manifest cwd userData c Hu Hc) as [-> _]. simpl.
  unfold existsSync, readFile_utf8. by repeat (rewrite Hfile; simpl).
Qed.

(** X10: a bundle that [create-skill] has made loads: for a name and a
    description of the allowed lengths whose name sanitizes to [s],
    [create-skill] answers with the directory [s] of the library, and
    [load-skill] of the manifest in it then answers with the content that
    was given, not imported, and leaves the disk as it is. *)
Theorem create_skill_then_load
    cwd userData skillData s fs fs1 fs2 fuel now :
  Path.isAbsolute userData = true →
  skillDataSchema skillData = Ok skillData →
  sanitizeSkillName (sd_name skillData) = Ok s →
  Fs.mkdir_p fs (locate cwd (bundle_dir_of userData s)) = Ok fs1 →
  Fs.put_file fs1 (locate cwd (manifest_of userData s))
    (File (sd_content skillData) (Fs.utf8_length (sd_content skillData)))
  = Ok fs2 →
  create_skill cwd userData skillData fs
  = (Ok (Success (bundle_dir_of userData s)), fs2)
  ∧ load_skill cwd userData fuel now (manifest_of userData s) fs2
    = (Ok (Some (Success {| ls_content := sd_content skillData;
                            ls_path := manifest_of userData s;
                            ls_imported := false;
                            ls_skillName := None |})), fs2).
Proof.
  intros Hu Hschema Hs Hmk Hput.
  pose proof (sanitizeSkillName_proper _ _ Hs) as Hproper.
  split.
  - unfold create_skill. run_io. rewrite Hschema. simpl. rewrite Hs. simpl.
    fold (bundle_dir_of userData s).
    destruct (validate_manifest cwd userData s Hu Hproper) as [_ ->]. simpl.
    unfold mkdir_recursive, writeFile_utf8, writeFile. rewrite Hmk.
    fold (manifest_of userData s). by rewrite Hput.
  - apply (load_skill_in_library _ _ _ _ _ _
             (Fs.utf8_length (sd_content skillData))); [done|done|].
    by eapply put_file_lookup.
Qed.

Lemma create_skill_then_load_witness :
  create_skill demo_cwd demo_userData
    {| sd_name := "My New Skill!"; sd_description := "";
       sd_content := "# New" |} demo_disk
  = (Ok (Success "/home/u/app/skills/mynewskill"),
     result_or demo_disk
       (write_at demo_cwd "/home/u/app/skills/mynewskill/SKILL.md"
          "# New" 5 demo_disk)).
Proof.
  set (d := {| sd_name := "My New Skill!"; sd_description := "";
               sd_content := "# New" |}).
  assert (Hmk : Fs.mkdir_p demo_disk
                  (locate demo_cwd (bundle_dir_of demo_userData "mynewskill"))
                = Ok (result_or demo_disk
                        (Fs.mkdir_p demo_disk
                           (locate demo_cwd "/home/u/app/skills/mynewskill"))))
    by (by vm_compute).
  assert (Hput : Fs.put_file
                   (result_or demo_disk
                      (Fs.mkdir_p demo_disk
                         (locate demo_cwd "/home/u/app/skills/mynewskill")))
                   (locate demo_cwd (manifest_of demo_userData "mynewskill"))
                   (File (sd_content d) (Fs.utf8_length (sd_content d)))
                 = Ok (result_or demo_disk
                         (write_at demo_cwd
                            "/home/u/app/skills/mynewskill/SKILL.md"
                            "# New" 5 demo_disk)))
    by (by vm_compute).
  destruct (create_skill_then_load demo_cwd demo_userData d "mynewskill"
              demo_disk _ _ 1 0 eq_refl eq_refl eq_refl Hmk Hput)
    as [Hcreate _].
  exact Hcreate.
Defined.

(** ** A file that was just saved *)

Lemma load_file_run cwd userData fs filePath validatedPath content size :
  filePath ≠ "" →
  validateSkillPath cwd filePath (getSkillsDir userData) = Ok validatedPath →
  Fs.lookup fs (locate cwd validatedPath) = Some (File content size) →
  (size ≤ MAX_FILE_SIZE)%N → isEditableFile validatedPath = true →
  load_file cwd userData filePath fs
  = (Ok (Success
       {| lf_content := content;
          lf_metadata :=
            {| md_name := Path.basename validatedPath;
               md_path := filePath;
               md_type := getFileType filePath;
               md_size := size;
               md_editable := true;
               md_tooBig := false;
               md_error := None |} |}), fs).
Proof.
  intros Hne Hv Hf Hsize Hedit.
  unfold load_file, loadFileSchema, existsSync, stat_size, readFile_utf8.
  run_io. rewrite nonempty_true by done. simpl. rewrite Hv. simpl.
  repeat (rewrite Hf; simpl).
  apply N.ltb_ge in Hsize. rewrite Hsize, Hedit. simpl. by rewrite Hf.
Qed.

(** X11: what [save-skill] writes, [load-file] reads back: when the path
    is accepted in the library and the write goes through, [save-skill]
    answers with a success, and [load-file] of the same path then answers
    with the saved content and its size in bytes, provided the file is of
    an editable kind and of at most 10 MB. *)
Theorem save_skill_then_load_file
    cwd userData skillPath content validatedPath fs fs' :
  skillPath ≠ "" →
  validateSkillPath cwd skillPath (getSkillsDir userData) = Ok validatedPath →
  Fs.put_file fs (locate cwd validatedPath)
    (File content (Fs.utf8_length content)) = Ok fs' →
  (Fs.utf8_length content ≤ MAX_FILE_SIZE)%N →
  isEditableFile validatedPath = true →
  save_skill cwd userData
    {| sv_skillPath := skillPath; sv_content := content |} fs
  = (Ok (Success ()), fs')
  ∧ load_file cwd userData skillPath fs'
    = (Ok (Success
         {| lf_content := content;
            lf_metadata :=
              {| md_name := Path.basename validatedPath;
                 md_path := skillPath;
                 md_type := getFileType skillPath;
                 md_size := Fs.utf8_length content;
                 md_editable := true;
                 md_tooBig := false;
                 md_error := None |} |}), fs').
Proof.
  intros Hne Hv Hput Hsize Hedit. split.
  - unfold save_skill, saveSkillSchema. run_io.
    rewrite nonempty_true by done. simpl. rewrite Hv. simpl.
    unfold writeFile_utf8, writeFile. by rewrite Hput.
  - apply load_file_run; try done. by eapply put_file_lookup.
Qed.

Lemma save_skill_then_load_file_witness :
  (load_file demo_cwd demo_userData "demo/a.txt"
     (save_skill demo_cwd demo_userData
        {| sv_skillPath := "demo/a.txt"; sv_content := "new text" |}
        demo_disk).2).1
  = Ok (Success
      {| lf_content := "new text";
         lf_metadata :=
           {| md_name := "a.txt";
              md_path := "demo/a.txt";
              md_type := "text";
              md_size := 8;
              md_editable := true;
              md_tooBig := false;
              md_error := None |} |}).
Proof.
  assert (Hput : Fs.put_file demo_disk
                   (locate demo_cwd "/home/u/app/skills/demo/a.txt")
                   (File "new text" (Fs.utf8_length "new text"))
                 = Ok (result_or demo_disk
                         (Fs.put_file demo_disk
                            (locate demo_cwd "/home/u/app/skills/demo/a.txt")
                            (File "new text" 8))))
    by (by vm_compute).
  destruct (save_skill_then_load_file demo_cwd demo_userData "demo/a.txt"
              "new text" "/home/u/app/skills/demo/a.txt" demo_disk _
              ltac:(done) ltac:(by vm_compute) Hput ltac:(by vm_compute)
              ltac:(by vm_compute)) as [Hsave Hload].
  rewrite Hsave. cbn [snd]. rewrite Hload. by vm_compute.
Defined.

(** ** The bundles of the listing *)

Lemma normalize_file_resolved cwd a m :
  Path.isAbsolute a = true → proper m →
  Path.resolve cwd [Path.normalize (a +:+ "/" +:+ m)]
  = Path.normalize (a +:+ "/" +:+ m)
  ∧ Path.isAbsolute (Path.normalize (a +:+ "/" +:+ m)) = true.
Proof.
  intros Ha Hm.
  assert (Habs : Path.isAbsolute (a +:+ "/" +:+ m) = true)
    by (destruct a; [done|by rewrite str_app_cons]).
  assert (Hcanon : canon (a +:+ "/" +:+ m) = canon a ++ [m]).
  { unfold canon. rewrite segments_app_sep.
    rewrite (segments_seg m) by by apply proper_seg_ok.
    rewrite norm_go_app_gen, norm_go_id by by apply Forall_singleton.
    by rewrite rev_involutive. }
  rewrite normalize_absolute_exact; [| done | | ].
  - split; [|done]. apply resolve_abs, canon_proper.
  - rewrite <- str_app_assoc, endsWithChar_app by (by destruct Hm as [[? _] _]).
    by apply endsWithChar_seg, proper_seg_ok.
  - rewrite Hcanon. by destruct (canon a).
Qed.

Lemma manifest_path_resolved cwd l name :
  Path.resolve cwd [Path.join [abs_path l; name; "SKILL.md"]]
  = Path.join [abs_path l; name; "SKILL.md"]
  ∧ Path.isAbsolute (Path.join [abs_path l; name; "SKILL.md"]) = true.
Proof.
  assert (Hm : proper "SKILL.md") by proper_lit.
  unfold Path.join. cbn [Path.join_args].
  rewrite (decide_False (P := abs_path l = "")) by done.
  rewrite (decide_False (P := "SKILL.md" = "")) by done.
  destruct (decide (name = "")).
  - by apply normalize_file_resolved.
  - apply normalize_file_resolved; [|done]. by rewrite <- str_app_assoc.
Qed.

Lemma mkdir_p_again n segs n' :
  Fs.mkdir_p n segs = Ok n' → Fs.mkdir_p n' segs = Ok n'.
Proof.
  intros [es Hes]%mkdir_p_dir. by eapply mkdir_p_existing.
Qed.

(** X12: [list-skills] always answers with a list and removes nothing
    from the disk; every bundle of the list is a directory of the library
    whose name [sanitizeSkillName] accepts, its path is that of the
    manifest in it, and [load-skill] of that path answers, without
    importing and without changing the disk, with the content that the
    description of the list was extracted from. *)
Theorem listed_skills_load cwd userData fs fuel now :
  Path.isAbsolute cwd = true → Path.isAbsolute userData = true →
  ∃ skills fs',
    list_skills cwd userData fs = (Ok skills, fs')
    ∧ (∀ p, is_Some (Fs.lookup fs p) → is_Some (Fs.lookup fs' p))
    ∧ ∀ e, e ∈ skills →
        se_path e = Path.join [getSkillsDir userData; se_name e; "SKILL.md"]
        ∧ (∃ es nd, Fs.lookup fs' (locate cwd (getSkillsDir userData))
                    = Some (Dir es)
                    ∧ (se_name e, nd) ∈ es ∧ is_dir_entry (se_name e, nd) = true)
        ∧ (∃ s, sanitizeSkillName (se_name e) = Ok s)
        ∧ ∃ content,
            se_description e = extract_description content
            ∧ load_skill cwd userData fuel now (se_path e) fs'
              = (Ok (Some (Success {| ls_content := content;
                                      ls_path := se_path e;
                                      ls_imported := false;
                                      ls_skillName := None |})), fs').
Proof.
  intros Hcwd Hu. unfold list_skills. run_io. unfold mkdir_recursive.
  destruct (Fs.mkdir_p fs _) as [fs0|] eqn:Hmk; simpl; cycle 1.
  { exists [], fs. split; [done|]. split; [done|]. by intros ? ?%elem_of_nil. }
  assert (Hnone : ∃ skills fs',
    (Ok [], fs0) = (Ok skills, fs')
    ∧ (∀ p, is_Some (Fs.lookup fs p) → is_Some (Fs.lookup fs' p))
    ∧ ∀ e, e ∈ skills →
        se_path e = Path.join [getSkillsDir userData; se_name e; "SKILL.md"]
        ∧ (∃ es nd, Fs.lookup fs' (locate cwd (getSkillsDir userData))
                    = Some (Dir es)
                    ∧ (se_name e, nd) ∈ es ∧ is_dir_entry (se_name e, nd) = true)
        ∧ (∃ s, sanitizeSkillName (se_name e) = Ok s)
        ∧ ∃ content,
            se_description e = extract_description content
            ∧ load_skill cwd userData fuel now (se_path e) fs'
              = (Ok (Some (Success {| ls_content := content;
                                      ls_path := se_path e;
                                      ls_imported := false;
                                      ls_skillName := None |})), fs')).
  { exists [], fs0. split; [done|]. split; [exact (λ p, mkdir_p_mono _ _ _ p Hmk)|].
    by intros ? ?%elem_of_nil. }
  unfold readdir.
  destruct (Fs.lookup fs0 _) as [[|es]|] eqn:Hes; simpl; [done| |done].
  clear Hnone. eexists _, fs0. split; [done|].
  split; [exact (λ p, mkdir_p_mono _ _ _ p Hmk)|].
  intros sk ([name nd] & Hin & Hone)%list_elem_of_omap.
  apply list_elem_of_In, List.filter_In in Hin as [Hin Hdir].
  apply list_elem_of_In in Hin.
  revert Hone. unfold list_one_skill. run_io.
  destruct (sanitizeSkillName name) as [s|] eqn:Hs; simpl; [|done].
  destruct (validateSkillPath cwd _ _) as [v|] eqn:Hv; simpl; [|done].
  unfold readFile_utf8.
  destruct (Fs.lookup fs0 (locate cwd (Path.join _)))
    as [[content size|]|] eqn:Hfile; simpl; [|done|done].
  intros [= <-]. simpl.
  rewrite (getSkillsDir_abs _ Hu) in Hv, Hfile, Hes, Hmk |- *.
  destruct (manifest_path_resolved cwd (canon userData ++ ["skills"]) name)
    as [Hres Habs].
  pose proof (validate_absolute_result _ _ _ _ Habs Hv) as Hveq.
  rewrite Hres in Hveq. subst v.
  split; [done|]. split; [by exists es, nd|]. split; [by eauto|].
  exists content. split; [done|].
  unfold load_skill. run_io. unfold mkdir_recursive at 1.
  rewrite (getSkillsDir_abs _ Hu), (mkdir_p_again _ _ _ Hmk), Hv. simpl.
  unfold existsSync, readFile_utf8. by repeat (rewrite Hfile; simpl).
Qed.

Lemma listed_skills_load_witness :
  ∃ skills fs',
    list_skills demo_cwd demo_userData demo_disk = (Ok skills, fs')
    ∧ ∀ e, e ∈ skills → ∃ s, sanitizeSkillName (se_name e) = Ok s.
Proof.
  destruct (listed_skills_load demo_cwd demo_userData demo_disk 1 0
              eq_refl eq_refl) as (skills & fs' & Hlist & _ & Hall).
  exists skills, fs'. split; [done|]. intros e He.
  by destruct (Hall e He) as (_ & _ & Hs & _).
Defined.

(** ** Removal from the disk *)

Lemma entry_lookup_absent s es : s ∉ es.*1 → Fs.entry_lookup s es = None.
Proof.
  intros Hs. destruct (Fs.entry_lookup s es) eqn:E; [|done].
  destruct Hs. apply entry_lookup_elem. by rewrite E.
Qed.

Lemma entry_lookup_member s c es :
  Fs.entry_lookup s es = Some c → (s, c) ∈ es.
Proof.
  induction es as [|[n c0] es IH]; simpl; [done|].
  destruct (decide (n = s)) as [->|].
  - intros [= ->]. apply list_elem_of_here.
  - intros H. by apply list_elem_of_further, IH.
Qed.

Lemma entry_remove_lookup_eq s es :
  NoDup es.*1 → Fs.entry_lookup s (Fs.entry_remove s es) = None.
Proof.
  induction es as [|[n c0] es IH]; simpl; [done|].
  intros [Hn Hes]%NoDup_cons. destruct (decide (n = s)) as [->|Hne].
  - by apply entry_lookup_absent.
  - simpl. rewrite decide_False by done. auto.
Qed.

Lemma entry_remove_lookup_ne s s' es :
  s ≠ s' → Fs.entry_lookup s' (Fs.entry_remove s es) = Fs.entry_lookup s' es.
Proof.
  intros Hne. induction es as [|[n c0] es IH]; simpl; [done|].
  destruct (decide (n = s)) as [->|].
  - by rewrite decide_False.
  - simpl. by rewrite IH.
Qed.

Lemma rm_rf_cons es s rest :
  rest ≠ [] →
  Fs.rm_rf (Dir es) (s :: rest)
  = match Fs.entry_lookup s es with
    | Some c => Dir (Fs.entry_put s (Fs.rm_rf c rest) es)
    | None => Dir es
    end.
Proof. by destruct rest. Qed.

Lemma unique_names_child s c es :
  unique_names (Dir es) → Fs.entry_lookup s es = Some c → unique_names c.
Proof.
  intros Hu Hc. inversion Hu as [|? _ Hall]; subst.
  apply entry_lookup_member in Hc.
  by apply (proj1 (Forall_forall _ _) Hall (s, c)).
Qed.

(** Nothing is left at the removed place or below it. *)
Lemma rm_rf_gone n segs q :
  unique_names n → segs ≠ [] →
  Fs.lookup (Fs.rm_rf n segs) (segs ++ q) = None.
Proof.
  revert n. induction segs as [|s rest IH]; intros n Hu Hne; [done|].
  destruct n as [content size|es]; [done|].
  destruct (decide (rest = [])) as [->|Hrest].
  - simpl. rewrite entry_remove_lookup_eq; [done|].
    by inversion Hu.
  - rewrite rm_rf_cons by done.
    destruct (Fs.entry_lookup s es) as [c|] eqn:Hc.
    + cbn [app Fs.lookup]. rewrite entry_lookup_put_eq.
      apply IH; [by eapply unique_names_child|done].
    + cbn [app Fs.lookup]. by rewrite Hc.
Qed.

(** A place that is neither above nor below the removed one is as it was. *)
Lemma rm_rf_frame n segs p :
  ¬ segs `prefix_of` p → ¬ p `prefix_of` segs →
  Fs.lookup (Fs.rm_rf n segs) p = Fs.lookup n p.
Proof.
  revert n p. induction segs as [|s rest IH]; intros n p Hsp Hps.
  { destruct Hsp. apply prefix_nil. }
  destruct p as [|s' p]; [destruct Hps; apply prefix_nil|].
  destruct n as [content size|es]; [done|].
  destruct (decide (rest = [])) as [->|Hrest].
  - simpl. destruct (decide (s = s')) as [->|Hne].
    + destruct Hsp. apply prefix_cons, prefix_nil.
    + by rewrite entry_remove_lookup_ne.
  - rewrite rm_rf_cons by done.
    destruct (Fs.entry_lookup s es) as [c|] eqn:Hc; [|done].
    cbn [Fs.lookup]. destruct (decide (s = s')) as [->|Hne].
    + rewrite entry_lookup_put_eq, Hc. apply IH.
      * intros H. by apply Hsp, prefix_cons.
      * intros H. by apply Hps, prefix_cons.
    + by rewrite entry_lookup_put_ne.
Qed.

(** What is not at the removed place or below it is still there, a
    directory as a directory and a file as the same file. *)
Lemma rm_rf_keeps n segs p x :
  ¬ segs `prefix_of` p → Fs.lookup n p = Some x →
  ∃ x', Fs.lookup (Fs.rm_rf n segs) p = Some x'
        ∧ (∀ es, x = Dir es → ∃ es', x' = Dir es')
        ∧ (∀ content size, x = File content size → x' = x).
Proof.
  revert n p. induction segs as [|s rest IH]; intros n p Hsp Hx.
  { destruct Hsp. apply prefix_nil. }
  destruct p as [|s' p].
  { simpl in Hx. injection Hx as <-. eexists. split; [done|].
    destruct n as [content size|es]; [by split|].
    split; [|done]. intros _ _.
    destruct (decide (rest = [])) as [->|Hrest]; [simpl; eauto|].
    rewrite rm_rf_cons by done. destruct (Fs.entry_lookup s es); eauto. }
  destruct n as [content size|es]; [done|].
  destruct (decide (rest = [])) as [->|Hrest].
  - simpl in *. destruct (decide (s = s')) as [->|Hne].
    + destruct Hsp. apply prefix_cons, prefix_nil.
    + rewrite entry_remove_lookup_ne by done.
      exists x. split; [done|]. split; [by eauto|done].
  - rewrite rm_rf_cons by done. cbn [Fs.lookup] in Hx.
    destruct (Fs.entry_lookup s es) as [c|] eqn:Hc; cycle 1.
    { exists x. split; [done|]. split; [by eauto|done]. }
    cbn [Fs.lookup]. destruct (decide (s = s')) as [->|Hne].
    + rewrite entry_lookup_put_eq. rewrite Hc in Hx. apply IH; [|done].
      intros H. by apply Hsp, prefix_cons.
    + rewrite entry_lookup_put_ne by done.
      exists x. split; [done|]. split; [by eauto|done].
Qed.

Lemma rm_rf_is_Some n segs p :
  ¬ segs `prefix_of` p → is_Some (Fs.lookup n p) →
  is_Some (Fs.lookup (Fs.rm_rf n segs) p).
Proof.
  intros Hsp [x Hx]. destruct (rm_rf_keeps n segs p x Hsp Hx) as (x' & -> & _).
  done.
Qed.

Lemma delete_skill_run cwd userData skillPath vp fs :
  skillPath ≠ "" →
  validateSkillPath cwd skillPath (getSkillsDir userData) = Ok vp →
  is_Some (Fs.lookup fs (locate cwd (Path.dirname vp))) →
  delete_skill cwd userData skillPath fs
  = (Ok (Success ()), Fs.rm_rf fs (locate cwd (Path.dirname vp))).
Proof.
  intros Hne Hv Hex. unfold delete_skill, deleteSkillSchema. run_io.
  rewrite nonempty_true by done. simpl. rewrite Hv. simpl.
  unfold existsSync. by rewrite bool_decide_eq_true_2.
Qed.

(** X13: [delete-skill] of a path that the library accepts removes the
    directory that holds it, when that directory is there and is not the
    root: afterwards nothing is at that directory or below it, every other
    place that held something still does, and the places that are neither
    above nor below it hold what they held. *)
Theorem delete_skill_removes cwd userData skillPath vp fs :
  Path.isAbsolute cwd = true →
  skillPath ≠ "" →
  validateSkillPath cwd skillPath (getSkillsDir userData) = Ok vp →
  Path.dirname vp ≠ "/" →
  unique_names fs →
  is_Some (Fs.lookup fs (locate cwd (Path.dirname vp))) →
  ∃ fs',
    delete_skill cwd userData skillPath fs = (Ok (Success ()), fs')
    ∧ (∀ q, Fs.lookup fs' (locate cwd (Path.dirname vp) ++ q) = None)
    ∧ (∀ p, ¬ locate cwd (Path.dirname vp) `prefix_of` p →
            is_Some (Fs.lookup fs p) → is_Some (Fs.lookup fs' p))
    ∧ (∀ p, ¬ locate cwd (Path.dirname vp) `prefix_of` p →
            ¬ p `prefix_of` locate cwd (Path.dirname vp) →
            Fs.lookup fs' p = Fs.lookup fs p).
Proof.
  intros Hcwd Hne Hv Hroot Hu Hex.
  destruct (validate_canonical _ _ _ _ Hcwd Hv) as (l & Hl & ->).
  rewrite dirname_canonical in * by done.
  assert (Hrl : Forall proper (removelast l)).
  { destruct (exists_last (l := l)) as (l' & x & ->);
      [by intros ->|].
    rewrite removelast_last. by apply Forall_app in Hl as [? _]. }
  eexists. split; [|split; [|split]].
  - apply delete_skill_run; try done. by rewrite dirname_canonical.
  - intros q. rewrite dirname_canonical by done.
    apply rm_rf_gone; [done|]. rewrite locate_abs by done. by intros E; rewrite E in Hroot.
  - intros p Hp. rewrite dirname_canonical by done. by apply rm_rf_is_Some.
  - intros p Hp1 Hp2. rewrite dirname_canonical by done. by apply rm_rf_frame.
Qed.

Ltac unique_disk :=
  repeat first
    [ apply unique_file
    | apply unique_dir; simpl
    | apply NoDup_nil_2
    | apply NoDup_cons_2
    | apply Forall_nil_2
    | apply Forall_cons_2
    | apply not_elem_of_nil
    | rewrite !not_elem_of_cons; repeat split; try done ].

Lemma demo_disk_unique : unique_names demo_disk.
Proof. unfold demo_disk, demo_bundle. unique_disk. Qed.

Lemma delete_skill_removes_witness :
  ∃ fs',
    delete_skill demo_cwd demo_userData demo_skill demo_disk
    = (Ok (Success ()), fs')
    ∧ Fs.lookup fs' ["home"; "u"; "app"; "skills"; "demo"; "SKILL.md"] = None
    ∧ is_Some (Fs.lookup fs' ["home"; "u"; "app"; "skills"]).
Proof.
  destruct (delete_skill_removes demo_cwd demo_userData demo_skill
              "/home/u/app/skills/demo/SKILL.md" demo_disk)
    as (fs' & Hrun & Hgone & Hkeep & _).
  - reflexivity.
  - done.
  - by vm_compute.
  - by vm_compute.
  - apply demo_disk_unique.
  - vm_compute. eauto.
  - exists fs'. split; [done|]. split.
    + apply (Hgone ["SKILL.md"]).
    + apply Hkeep; [|vm_compute; eauto].
      change (locate demo_cwd (Path.dirname "/home/u/app/skills/demo/SKILL.md"))
        with ["home"; "u"; "app"; "skills"; "demo"].
      intros [k Hk]. discriminate Hk.
Defined.

(** X14: [delete-skill] does not tell the library from a bundle: given
    the path of the library itself, which the sandbox accepts, it removes
    the directory that holds the library, that is the whole user data
    directory, when that is not the root. *)
Theorem delete_skill_library_root cwd userData fs :
  Path.isAbsolute cwd = true → Path.isAbsolute userData = true →
  locate cwd userData ≠ [] →
  unique_names fs →
  is_Some (Fs.lookup fs (locate cwd userData)) →
  ∃ fs',
    delete_skill cwd userData (getSkillsDir userData) fs
    = (Ok (Success ()), fs')
    ∧ ∀ q, Fs.lookup fs' (locate cwd userData ++ q) = None.
Proof.
  intros Hcwd Hu Hroot Huniq Hex.
  assert (Hloc : locate cwd userData = canon userData).
  { unfold locate. rewrite resolve_absolute by done.
    apply segments_abs, proper_ok_list, canon_proper. }
  rewrite Hloc in *.
  assert (Hs : proper "skills") by proper_lit.
  assert (HS : Forall proper (canon userData ++ ["skills"])).
  { apply Forall_app. split; [apply canon_proper|by apply Forall_singleton]. }
  assert (Hv : validateSkillPath cwd (getSkillsDir userData)
                 (getSkillsDir userData) = Ok (getSkillsDir userData)).
  { rewrite getSkillsDir_abs by done.
    rewrite validate_absolute by done. rewrite canon_abs by done.
    by rewrite eqb_refl, andb_false_r. }
  assert (Hdir : locate cwd (Path.dirname (getSkillsDir userData))
                 = canon userData).
  { rewrite getSkillsDir_abs, dirname_abs by (done || apply canon_proper).
    apply locate_abs, canon_proper. }
  exists (Fs.rm_rf fs (locate cwd (Path.dirname (getSkillsDir userData)))).
  split.
  - apply delete_skill_run; [|exact Hv|by rewrite Hdir].
    apply isAbsolute_nonempty. by rewrite getSkillsDir_abs.
  - intros q. rewrite Hdir. by apply rm_rf_gone.
Qed.

Lemma delete_skill_library_root_witness :
  ∃ fs',
    delete_skill demo_cwd demo_userData "/home/u/app/skills" demo_disk
    = (Ok (Success ()), fs')
    ∧ Fs.lookup fs' ["home"; "u"; "app"] = None.
Proof.
  destruct (delete_skill_library_root demo_cwd demo_userData demo_disk)
    as (fs' & Hrun & Hgone).
  - reflexivity.
  - reflexivity.
  - by vm_compute.
  - apply demo_disk_unique.
  - vm_compute. eauto.
  - exists fs'. split; [exact Hrun|]. apply (Hgone []).
Defined.

(** X15: [delete-file-or-folder] of a target that the sandbox accepts in
    the bundle, that is not the root and is not called [SKILL.md]: when
    nothing is there, the answer is that it does not exist and the disk is
    unchanged; otherwise the answer is a success, nothing is left at the
    target or below it, every other place that held something still does,
    and the places neither above nor below the target hold what they
    held. *)
Theorem delete_file_or_folder_removes
    cwd userData fs skillPath targetPath vp v :
  Path.isAbsolute cwd = true →
  skillPath ≠ "" → targetPath ≠ "" →
  validateSkillPath cwd skillPath (getSkillsDir userData) = Ok vp →
  validateSkillPath cwd (Path.join [Path.dirname vp; targetPath])
    (Path.dirname vp) = Ok v →
  v ≠ "/" → Path.basename v ≠ "SKILL.md" →
  unique_names fs →
  let request := {| del_skillPath := skillPath;
                    del_targetPath := targetPath |} in
  (Fs.lookup fs (locate cwd v) = None →
   delete_file_or_folder cwd userData request fs
   = (Ok (Failure "File or folder does not exist"), fs))
  ∧ (is_Some (Fs.lookup fs (locate cwd v)) →
     ∃ fs',
       delete_file_or_folder cwd userData request fs = (Ok (Success ()), fs')
       ∧ (∀ q, Fs.lookup fs' (locate cwd v ++ q) = None)
       ∧ (∀ p, ¬ locate cwd v `prefix_of` p →
               is_Some (Fs.lookup fs p) → is_Some (Fs.lookup fs' p))
       ∧ (∀ p, ¬ locate cwd v `prefix_of` p → ¬ p `prefix_of` locate cwd v →
               Fs.lookup fs' p = Fs.lookup fs p)).
Proof.
  intros Hcwd Hs Ht Hvp Hv Hroot Hbase Huniq request.
  assert (Hrun : delete_file_or_folder cwd userData request fs
    = if bool_decide (is_Some (Fs.lookup fs (locate cwd v)))
      then (Ok (Success ()), Fs.rm_rf fs (locate cwd v))
      else (Ok (Failure "File or folder does not exist"), fs)).
  { unfold delete_file_or_folder, deleteFileOrFolderSchema, request. run_io.
    rewrite !nonempty_true by done. simpl. rewrite Hvp. simpl.
    rewrite Hv. simpl. rewrite eqb_false by done. simpl.
    unfold existsSync. simpl. by destruct (bool_decide _). }
  split.
  - intros Hnone. rewrite Hrun, bool_decide_eq_false_2; [done|].
    rewrite Hnone. by intros [? ?].
  - intros Hex. rewrite Hrun, bool_decide_eq_true_2 by done.
    eexists. split; [done|].
    split; [|split].
    + intros q. apply rm_rf_gone; [done|].
      destruct (validate_canonical _ _ _ _ Hcwd Hv) as (l & Hl & ->).
      rewrite locate_abs by done. by intros ->.
    + intros p Hp. by apply rm_rf_is_Some.
    + intros p Hp1 Hp2. by apply rm_rf_frame.
Qed.

Lemma delete_file_or_folder_removes_witness :
  ∃ fs',
    delete_file_or_folder demo_cwd demo_userData
      {| del_skillPath := demo_skill; del_targetPath := "z/../a.txt" |}
      demo_disk
    = (Ok (Success ()), fs')
    ∧ Fs.lookup fs' ["home"; "u"; "app"; "skills"; "demo"; "a.txt"] = None
    ∧ Fs.lookup fs' ["home"; "u"; "app"; "skills"; "demo"; "b.txt"]
      = Some (File "b" 1).
Proof.
  destruct (delete_file_or_folder_removes demo_cwd demo_userData demo_disk
              demo_skill "z/../a.txt" "/home/u/app/skills/demo/SKILL.md"
              "/home/u/app/skills/demo/a.txt"
              eq_refl ltac:(done) ltac:(done) ltac:(by vm_compute)
              ltac:(by vm_compute) ltac:(done) ltac:(by vm_compute)
              demo_disk_unique) as [_ Hdel].
  destruct Hdel as (fs' & Hrun & Hgone & _ & Hframe); [vm_compute; eauto|].
  exists fs'. split; [exact Hrun|]. split.
  - change ["home"; "u"; "app"; "skills"; "demo"; "a.txt"]
      with (locate demo_cwd "/home/u/app/skills/demo/a.txt" ++ []).
    apply Hgone.
  - rewrite Hframe; [by vm_compute| |].
    + change (locate demo_cwd "/home/u/app/skills/demo/a.txt")
        with ["home"; "u"; "app"; "skills"; "demo"; "a.txt"].
      intros [k Hk]. discriminate Hk.
    + change (locate demo_cwd "/home/u/app/skills/demo/a.txt")
        with ["home"; "u"; "app"; "skills"; "demo"; "a.txt"].
      intros [k Hk]. discriminate Hk.
Defined.

(** ** Renaming on the disk *)

Lemma put_node_cons es s rest new :
  rest ≠ [] →
  Fs.put_node (Dir es) (s :: rest) new
  = match Fs.entry_lookup s es with
    | Some c =>
        c' ← Fs.put_node c rest new;
        Ok (Dir (Fs.entry_put s c' es))
    | None => Throw (FsError "ENOENT")
    end.
Proof. by destruct rest. Qed.

(** A node is put below a directory where nothing is yet; it is then
    there, and the places neither above nor below it are as they were. *)
Lemma put_node_ok n l m new es :
  Fs.lookup n l = Some (Dir es) → Fs.lookup n (l ++ [m]) = None →
  ∃ n', Fs.put_node n (l ++ [m]) new = Ok n'
        ∧ Fs.lookup n' (l ++ [m]) = Some new
        ∧ ∀ p, ¬ (l ++ [m]) `prefix_of` p → ¬ p `prefix_of` (l ++ [m]) →
               Fs.lookup n' p = Fs.lookup n p.
Proof.
  revert n. induction l as [|s l IH]; intros n Hdir Hnone.
  - simpl in Hdir. injection Hdir as ->. simpl in *.
    destruct (Fs.entry_lookup m es) as [c|] eqn:Hc; [done|].
    eexists. split; [done|]. simpl. rewrite entry_lookup_put_eq.
    split; [done|]. intros [|s' p] Hp1 Hp2.
    { destruct Hp2. apply prefix_nil. }
    simpl. destruct (decide (m = s')) as [->|Hne].
    { destruct Hp1. apply prefix_cons, prefix_nil. }
    by rewrite entry_lookup_put_ne.
  - destruct n as [content size|es0]; [done|].
    cbn [app]. rewrite put_node_cons by (by destruct l).
    cbn [app Fs.lookup] in Hdir, Hnone.
    destruct (Fs.entry_lookup s es0) as [c|] eqn:Hc; [|done].
    destruct (IH c Hdir Hnone) as (c' & Hput & Hnew & Hframe).
    rewrite Hput. simpl. eexists. split; [done|]. cbv beta iota.
    rewrite entry_lookup_put_eq. split; [done|].
    intros [|s' p] Hp1 Hp2.
    { destruct Hp2. apply prefix_nil. }
    simpl. destruct (decide (s = s')) as [->|Hne].
    + rewrite entry_lookup_put_eq, Hc. apply Hframe.
      * intros H. by apply Hp1, prefix_cons.
      * intros H. by apply Hp2, prefix_cons.
    + by rewrite entry_lookup_put_ne.
Qed.

Lemma prefix_same_length {A} (l1 l2 : list A) :
  l1 `prefix_of` l2 → length l1 = length l2 → l1 = l2.
Proof.
  intros [k ->] Hlen. rewrite length_app in Hlen.
  destruct k; [by rewrite app_nil_r|simpl in Hlen; lia].
Qed.

(** [fs.rename] of something to a free name beside it. *)
Lemma rename_sibling cwd old new l o m n fs :
  unique_names fs →
  locate cwd old = l ++ [o] → locate cwd new = l ++ [m] →
  Fs.lookup fs (l ++ [o]) = Some n → Fs.lookup fs (l ++ [m]) = None →
  ∃ fs', rename cwd old new fs = (Ok (), fs')
         ∧ Fs.lookup fs' (l ++ [m]) = Some n
         ∧ Fs.lookup fs' (l ++ [o]) = None
         ∧ ∀ p, ¬ (l ++ [o]) `prefix_of` p → ¬ p `prefix_of` (l ++ [o]) →
                ¬ (l ++ [m]) `prefix_of` p → ¬ p `prefix_of` (l ++ [m]) →
                Fs.lookup fs' p = Fs.lookup fs p.
Proof.
  intros Hu Hold Hnew Hn Hnone.
  assert (Hom : ¬ (l ++ [o]) `prefix_of` (l ++ [m])).
  { intros H%prefix_same_length; [|by rewrite !length_app].
    rewrite H in Hn. by rewrite Hn in Hnone. }
  assert (Hmo : ¬ (l ++ [m]) `prefix_of` (l ++ [o])).
  { intros H%prefix_same_length; [|by rewrite !length_app].
    rewrite H in Hnone. by rewrite Hn in Hnone. }
  destruct (lookup_parent_dir _ _ _ _ Hn ltac:(done)) as [es Hes].
  destruct (rm_rf_keeps fs (l ++ [o]) l (Dir es)) as (x' & Hx' & Hdir & _);
    [|done|].
  { intros [k Hk]. apply (f_equal length) in Hk.
    rewrite !length_app in Hk. simpl in Hk. lia. }
  destruct (Hdir es eq_refl) as [es' ->].
  assert (Hfree : Fs.lookup (Fs.rm_rf fs (l ++ [o])) (l ++ [m]) = None)
    by by rewrite rm_rf_frame.
  destruct (put_node_ok _ _ _ n _ Hx' Hfree) as (fs' & Hput & Hthere & Hframe).
  exists fs'. unfold rename. rewrite Hold, Hnew, Hn.
  rewrite bool_decide_eq_false_2 by done. rewrite Hput.
  split; [done|]. split; [done|]. split.
  - rewrite Hframe by done.
    rewrite <- (app_nil_r (l ++ [o])) at 2. apply rm_rf_gone; [done|].
    by destruct l.
  - intros p H1 H2 H3 H4. rewrite Hframe by done. by apply rm_rf_frame.
Qed.

Lemma sanitizeFileName_proper name s :
  sanitizeFileName name = Ok s → s ≠ "." → s ≠ ".." → proper s.
Proof.
  intros (_ & Hne & Hall)%sanitizeFileName_Ok H1 H2. repeat split; try done.
  eapply all_chars_impl; [|done]. apply file_name_char_not_sep.
Qed.

(** X16: [rename-file-or-folder] moves what is at the old path to the
    sanitized new name beside it: when the paths are accepted, the old one
    is not the root nor called [SKILL.md], something is at the old path
    and nothing at the new one, the answer is a success, the new path is
    the directory of the old one joined with the sanitized name and holds
    what the old path held, nothing is left at the old path, and the
    places neither above nor below the two paths hold what they held. *)
Theorem rename_file_or_folder_moves
    cwd userData fs skillPath oldPath newName s vp v v' n :
  Path.isAbsolute cwd = true →
  skillPath ≠ "" → oldPath ≠ "" → name_sized newName = true →
  sanitizeFileName newName = Ok s → s ≠ "." → s ≠ ".." →
  validateSkillPath cwd skillPath (getSkillsDir userData) = Ok vp →
  validateSkillPath cwd (Path.join [Path.dirname vp; oldPath])
    (Path.dirname vp) = Ok v →
  v ≠ "/" → Path.basename v ≠ "SKILL.md" →
  validateSkillPath cwd (Path.join [Path.dirname v; s]) (Path.dirname vp)
  = Ok v' →
  unique_names fs →
  Fs.lookup fs (locate cwd v) = Some n →
  Fs.lookup fs (locate cwd v') = None →
  ∃ fs',
    rename_file_or_folder cwd userData
      {| ren_skillPath := skillPath; ren_oldPath := oldPath;
         ren_newName := newName |} fs
    = (Ok (Success ()), fs')
    ∧ v' = Path.join [Path.dirname v; s]
    ∧ Fs.lookup fs' (locate cwd v') = Some n
    ∧ Fs.lookup fs' (locate cwd v) = None
    ∧ ∀ p, ¬ locate cwd v `prefix_of` p → ¬ p `prefix_of` locate cwd v →
           ¬ locate cwd v' `prefix_of` p → ¬ p `prefix_of` locate cwd v' →
           Fs.lookup fs' p = Fs.lookup fs p.
Proof.
  intros Hcwd Hsp Hop Hsized Hs Hdot Hdots Hvp Hv Hroot Hbase Hv' Hu Hn Hnone.
  pose proof (sanitizeFileName_proper _ _ Hs Hdot Hdots) as Hproper.
  destruct (validate_canonical _ _ _ _ Hcwd Hv) as (lo & Hlo & ->).
  destruct (exists_last (l := lo)) as (l & o & ->); [by intros ->|].
  apply Forall_app in Hlo as Hlo'. destruct Hlo' as [Hl Ho].
  apply Forall_inv in Ho.
  rewrite dirname_abs in * by done.
  rewrite join_abs_seg in * by done.
  assert (Hls : Forall proper (l ++ [s]))
    by (apply Forall_app; split; [done|by apply Forall_singleton]).
  assert (v' = abs_path (l ++ [s])) as ->.
  { apply validate_absolute_result in Hv'; [|done].
    by rewrite resolve_abs in Hv'. }
  rewrite !locate_abs in * by done.
  destruct (rename_sibling cwd (abs_path (l ++ [o])) (abs_path (l ++ [s]))
              l o s n fs Hu) as (fs' & Hren & Hnew & Hold & Hframe);
    [by apply locate_abs | by apply locate_abs | done | done |].
  exists fs'. split; [|done].
  unfold rename_file_or_folder, renameFileOrFolderSchema. run_io.
  rewrite !nonempty_true, Hsized by done. simpl. rewrite Hvp. simpl.
  rewrite Hv. simpl. rewrite Hs. simpl. rewrite eqb_false by done. simpl.
  rewrite dirname_abs, join_abs_seg by done. rewrite Hv'. simpl.
  rewrite !locate_abs by done.
  rewrite bool_decide_eq_true_2 by (by rewrite Hn). simpl.
  rewrite bool_decide_eq_false_2 by (rewrite Hnone; by intros [? ?]). simpl.
  by rewrite Hren.
Qed.

Lemma rename_file_or_folder_moves_witness :
  ∃ fs',
    rename_file_or_folder demo_cwd demo_userData
      {| ren_skillPath := demo_skill; ren_oldPath := "a.txt";
         ren_newName := "new name.txt" |} demo_disk
    = (Ok (Success ()), fs')
    ∧ Fs.lookup fs' ["home"; "u"; "app"; "skills"; "demo"; "newname.txt"]
      = Some (File "a" 1)
    ∧ Fs.lookup fs' ["home"; "u"; "app"; "skills"; "demo"; "a.txt"] = None.
Proof.
  destruct (rename_file_or_folder_moves demo_cwd demo_userData demo_disk
              demo_skill "a.txt" "new name.txt" "newname.txt"
              "/home/u/app/skills/demo/SKILL.md"
              "/home/u/app/skills/demo/a.txt"
              "/home/u/app/skills/demo/newname.txt" (File "a" 1)
              eq_refl ltac:(done) ltac:(done) eq_refl ltac:(by vm_compute)
              ltac:(done) ltac:(done) ltac:(by vm_compute)
              ltac:(by vm_compute) ltac:(done) ltac:(by vm_compute)
              ltac:(by vm_compute) demo_disk_unique
              ltac:(by vm_compute) ltac:(by vm_compute))
    as (fs' & Hrun & _ & Hnew & Hold & _).
  exists fs'. split; [exact Hrun|]. split; [exact Hnew|exact Hold].
Defined.

(** ** What a listing holds *)

Section Listing.
Variable localeCompare : string → string → Z.

Lemma sort_insert_perm x l : sort_insert localeCompare x l ≡ₚ x :: l.
Proof.
  induction l as [|y l IH]; simpl; [done|].
  destruct (_ <=? _)%Z; [done|]. rewrite IH. apply Permutation_swap.
Qed.

Lemma sort_perm l : sort localeCompare l ≡ₚ l.
Proof.
  induction l as [|x l IH]; simpl; [done|].
  by rewrite sort_insert_perm, IH.
Qed.

Lemma sort_visible l :
  forallb visible_node l = true →
  forallb visible_node (sort localeCompare l) = true.
Proof.
  rewrite !forallb_forall. intros H x Hx. apply H.
  apply list_elem_of_In. apply list_elem_of_In in Hx.
  by apply (proj1 (sort_elem _ _ _)) in Hx.
Qed.

(** The loop keeps the entries that are not skipped, in their order. *)
Lemma walk_entries_spec build rel entries tree :
  walk_entries build rel entries = Ok tree →
  map node_name tree = (List.filter visible_entry entries).*1
  ∧ (∀ name path fileType size editable,
       FileNode name path fileType size editable ∈ tree →
       (∃ content, (name, File content size) ∈ entries)
       ∧ path = (if decide (rel = "") then name else Path.join [rel; name])
       ∧ fileType = getFileType name ∧ editable = isEditableFile name)
  ∧ (∀ name path children,
       FolderNode name path children ∈ tree →
       path = (if decide (rel = "") then name else Path.join [rel; name])
       ∧ ∃ es, (name, Dir es) ∈ entries
               ∧ build (Dir es) path = Ok children)
  ∧ (Forall (λ e, ∀ rel' t, build e.2 rel' = Ok t →
                forallb visible_node t = true) entries →
     forallb visible_node tree = true).
Proof.
  revert tree. induction entries as [|[name child] entries IH]; intros tree.
  { simpl. intros [= <-]. split; [done|].
    split; [by intros ????? ?%elem_of_nil|].
    split; [by intros ??? ?%elem_of_nil|done]. }
  cbn [walk_entries]. unfold visible_entry at 1. cbn [List.filter fst].
  destruct (skipped name) eqn:Hskip; cbn [negb].
  { intros Hw. destruct (IH tree Hw) as (Hnames & Hfiles & Hfolders & Hvis).
    split; [done|]. split; [|split].
    - intros n p ft sz ed Hin.
      destruct (Hfiles n p ft sz ed Hin) as ([content Hc] & ?).
      split; [|done]. exists content. by apply list_elem_of_further.
    - intros n p ch Hin.
      destruct (Hfolders n p ch Hin) as (? & es & Hes & ?).
      split; [done|]. exists es. split; [by apply list_elem_of_further|done].
    - intros Hall. apply Hvis. by apply Forall_inv_tail in Hall. }
  set (relPath := if decide (rel = "") then name else Path.join [rel; name]).
  destruct child as [content size|es].
  - destruct (walk_entries build rel entries) as [rest|] eqn:Hw; [|done].
    simpl. intros [= <-].
    destruct (IH rest eq_refl) as (Hnames & Hfiles & Hfolders & Hvis).
    split; [simpl; f_equal; exact Hnames|]. split; [|split].
    + intros n p ft sz ed [Heq|Hin]%elem_of_cons.
      * injection Heq as -> -> -> -> ->.
        split; [|done]. exists content. apply list_elem_of_here.
      * destruct (Hfiles n p ft sz ed Hin) as ([c Hc] & ?).
        split; [|done]. exists c. by apply list_elem_of_further.
    + intros n p ch [Heq|Hin]%elem_of_cons; [done|].
      destruct (Hfolders n p ch Hin) as (? & es & Hes & ?).
      split; [done|]. exists es. split; [by apply list_elem_of_further|done].
    + intros Hall. simpl. rewrite Hskip. simpl.
      apply Hvis. by apply Forall_inv_tail in Hall.
  - destruct (build (Dir es) relPath) as [sub|] eqn:Hsub; [|done]. simpl.
    destruct (walk_entries build rel entries) as [rest|] eqn:Hw; [|done].
    simpl. intros [= <-].
    destruct (IH rest eq_refl) as (Hnames & Hfiles & Hfolders & Hvis).
    split; [simpl; f_equal; exact Hnames|]. split; [|split].
    + intros n p ft sz ed [Heq|Hin]%elem_of_cons; [done|].
      destruct (Hfiles n p ft sz ed Hin) as ([c Hc] & ?).
      split; [|done]. exists c. by apply list_elem_of_further.
    + intros n p ch [Heq|Hin]%elem_of_cons.
      * injection Heq as -> -> ->. split; [done|].
        exists es. split; [apply list_elem_of_here|done].
      * destruct (Hfolders n p ch Hin) as (? & es' & Hes & ?).
        split; [done|].
        exists es'. split; [by apply list_elem_of_further|done].
    + intros Hall. simpl. rewrite Hskip. simpl.
      rewrite (Forall_inv Hall relPath sub Hsub). simpl.
      apply Hvis. by apply Forall_inv_tail in Hall.
Qed.

Lemma buildFileTree_visible n rel tree :
  buildFileTree localeCompare n rel = Ok tree →
  forallb visible_node tree = true.
Proof.
  revert rel tree.
  induction n as [|entries IH] using node_induction; intros rel tree; [done|].
  rewrite buildFileTree_unfold.
  destruct (walk_entries _ rel entries) as [t|] eqn:Hw; [|done]. simpl.
  intros [= <-]. apply sort_visible.
  by apply (walk_entries_spec _ _ _ _ Hw).
Qed.

End Listing.

(** X17: whatever the comparator, a listing that [buildFileTree] returns
    for a directory holds, at its top, exactly the entries whose name
    neither starts with a dot nor is [node_modules], each once; no node of
    the listing, at any depth, has such a name; a file node has the size
    of its file, the kind and the editable flag of its name, and a folder
    node has the listing of its directory; the path of a node is its name
    joined to the path of the listing. *)
Theorem buildFileTree_lists_visible localeCompare entries rel tree :
  buildFileTree localeCompare (Dir entries) rel = Ok tree →
  map node_name tree ≡ₚ (List.filter visible_entry entries).*1
  ∧ forallb visible_node tree = true
  ∧ (∀ name path fileType size editable,
       FileNode name path fileType size editable ∈ tree →
       (∃ content, (name, File content size) ∈ entries)
       ∧ path = (if decide (rel = "") then name else Path.join [rel; name])
       ∧ fileType = getFileType name ∧ editable = isEditableFile name)
  ∧ (∀ name path children,
       FolderNode name path children ∈ tree →
       path = (if decide (rel = "") then name else Path.join [rel; name])
       ∧ ∃ es, (name, Dir es) ∈ entries
               ∧ buildFileTree localeCompare (Dir es) path = Ok children).
Proof.
  intros Hb.
  pose proof (buildFileTree_visible _ _ _ _ Hb) as Hvis.
  rewrite buildFileTree_unfold in Hb.
  destruct (walk_entries _ rel entries) as [t|] eqn:Hw; [|done].
  simpl in Hb. injection Hb as <-.
  destruct (walk_entries_spec _ _ _ _ Hw) as (Hnames & Hfiles & Hfolders & _).
  split; [by rewrite sort_perm, Hnames|]. split; [done|]. split.
  - intros n p ft sz ed Hin. apply (proj1 (sort_elem _ _ _)) in Hin.
    by apply Hfiles.
  - intros n p ch Hin. apply (proj1 (sort_elem _ _ _)) in Hin.
    by apply Hfolders.
Qed.

Lemma buildFileTree_lists_visible_witness :
  buildFileTree codeUnitCompare
    (Dir [(".git", Dir [("config", File "c" 1)]);
          ("b.txt", File "b" 1);
          ("node_modules", Dir []);
          ("z", Dir [(".env", File "e" 1); ("a.md", File "a" 1)])]) ""
  = Ok [FolderNode "z" "z" [FileNode "a.md" "z/a.md" "text" 1 true];
        FileNode "b.txt" "b.txt" "text" 1 true]
  ∧ map node_name
      [FolderNode "z" "z" [FileNode "a.md" "z/a.md" "text" 1 true];
       FileNode "b.txt" "b.txt" "text" 1 true]
    ≡ₚ ["b.txt"; "z"].
Proof.
  assert (Hb : buildFileTree codeUnitCompare
    (Dir [(".git", Dir [("config", File "c" 1)]);
          ("b.txt", File "b" 1);
          ("node_modules", Dir []);
          ("z", Dir [(".env", File "e" 1); ("a.md", File "a" 1)])]) ""
  = Ok [FolderNode "z" "z" [FileNode "a.md" "z/a.md" "text" 1 true];
        FileNode "b.txt" "b.txt" "text" 1 true]) by (by vm_compute).
  split; [exact Hb|].
  destruct (buildFileTree_lists_visible _ _ _ _ Hb) as (Hperm & _).
  exact Hperm.
Defined.

(** ** The path helpers of the renderer *)

Lemma map_char_app f a b :
  Js.map_char f (a +:+ b) = Js.map_char f a +:+ Js.map_char f b.
Proof.
  induction a as [|c a IH]; [done|]. rewrite str_app_cons. simpl.
  by rewrite IH.
Qed.



Lemma skill_char_not_backslash c :
  skill_name_char c = true → backslash_to_slash c = c.
Proof. destruct c as [[] [] [] [] [] [] [] []]; vm_compute; congruence. Qed.



(** X19: the renderer names a bundle after the directory of its
    manifest: for the manifest that the main process keeps for a
    sanitized name [s], [extractSkillName] answers [s], whatever the user
    data directory is called. *)
Theorem extractSkillName_of_manifest userData name s :
  Path.isAbsolute userData = true →
  sanitizeSkillName name = Ok s →
  Renderer.extractSkillName (manifest_of userData s) = s.
Proof.
  intros Hu Hs.
  pose proof (sanitizeSkillName_proper _ _ Hs) as Hproper.
  destruct (sanitizeSkillName_Ok _ _ Hs) as (Heq & _).
  assert (Hchars : Js.all_chars skill_name_char s = true)
    by (rewrite Heq; apply keep_chars_all).
  destruct (manifest_of_abs userData s Hu Hproper) as (-> & _ & _).
  rewrite <- (assoc_L (++)). cbn [app].
  rewrite abs_path_app by (done || by destruct (canon userData)).
  cbn [Path.join_segments].
  unfold Renderer.extractSkillName, Renderer.normalizePath. cbv zeta.
  rewrite !map_char_app.
  rewrite (map_char_id _ _ s skill_char_not_backslash Hchars).
  change (Js.map_char backslash_to_slash "/") with "/".
  change (Js.map_char backslash_to_slash "SKILL.md") with "SKILL.md".
  rewrite !segments_app_sep.
  rewrite (segments_seg s) by by apply proper_seg_ok.
  change (Path.segments "SKILL.md") with ["SKILL.md"].
  set (L := Path.segments _).
  rewrite !length_app. cbn [length].
  destruct (length L + (1 + 1) <? 2) eqn:Hlt; [apply Nat.ltb_lt in Hlt; lia|].
  replace (length L + (1 + 1) - 2) with (length L + 0) by lia.
  by rewrite lookup_app_r, Nat.add_0_r, Nat.sub_diag by lia.
Qed.

Lemma extractSkillName_of_manifest_witness :
  Renderer.extractSkillName "/home/u/app/skills/mynewskill/SKILL.md"
  = "mynewskill".
Proof.
  assert (Hs : sanitizeSkillName "My New Skill!" = Ok "mynewskill")
    by (by vm_compute).
  exact (extractSkillName_of_manifest demo_userData "My New Skill!"
           "mynewskill" eq_refl Hs).
Defined.

(** ** The description of a bundle made from the template *)

Lemma match_description_unfold b s :
  match_description b s
  = match (if b then
             match strip_prefix "description:" s with
             | Some rest => after_key rest
             | None => None
             end
           else None) with
    | Some g => Some g
    | None =>
        match s with
        | "" => None
        | String c s' => match_description (Js.is_line_terminator c) s'
        end
    end.
Proof. by destruct s. Qed.

Lemma match_description_other b c s :
  "d"%char ≠ c →
  match_description b (String c s)
  = match_description (Js.is_line_terminator c) s.
Proof.
  intros Hc. rewrite match_description_unfold. destruct b; [|done].
  cbn [strip_prefix]. by rewrite decide_False.
Qed.

Lemma match_description_skip a b :
  Js.all_chars not_terminator a = true →
  match_description false (a +:+ b) = match_description false b.
Proof.
  induction a as [|c a IH]; [done|]. simpl Js.all_chars.
  intros [Hc Ha]%andb_prop. rewrite str_app_cons, match_description_unfold.
  apply negb_true_iff in Hc. rewrite Hc. auto.
Qed.

Lemma strip_prefix_app p s : strip_prefix p (p +:+ s) = Some s.
Proof.
  induction p as [|c p IH]; [by destruct s|].
  rewrite str_app_cons. cbn [strip_prefix]. by rewrite decide_True.
Qed.

Lemma match_description_here rest g :
  after_key rest = Some g →
  match_description true ("description:" +:+ rest) = Some g.
Proof.
  intros Hg. rewrite match_description_unfold.
  by rewrite strip_prefix_app, Hg.
Qed.

Lemma rest_of_line_app a b :
  Js.all_chars not_terminator a = true →
  rest_of_line (a +:+ b) = a +:+ rest_of_line b.
Proof.
  induction a as [|c a IH]; [done|]. simpl Js.all_chars.
  intros [Hc Ha]%andb_prop. rewrite !str_app_cons. cbn [rest_of_line].
  apply negb_true_iff in Hc. by rewrite Hc, IH.
Qed.

Lemma rev_app_app a b c :
  String.rev_app (a +:+ b) c = String.rev_app b (String.rev_app a c).
Proof. revert c. induction a as [|x a IH]; intros c; [done|]. apply IH. Qed.

Lemma rev_app_rev_app a b c :
  String.rev_app (String.rev_app a b) c = String.rev_app b (a +:+ c).
Proof.
  revert b. induction a as [|x a IH]; intros b; [done|].
  cbn [String.rev_app]. by rewrite IH.
Qed.

(** A text between two characters that are not white space is trimmed
    to itself. *)
Lemma trim_quoted q m :
  Js.is_space q = false →
  Js.trim (String q (m +:+ String q "")) = String q (m +:+ String q "").
Proof.
  intros Hq. unfold Js.trim. cbn [Js.trimStart]. rewrite Hq.
  unfold String.rev at 2. cbn [String.rev_app].
  rewrite rev_app_app. cbn [String.rev_app Js.trimStart]. rewrite Hq.
  unfold String.rev. cbn [String.rev_app].
  by rewrite rev_app_rev_app.
Qed.

Lemma escape_quotes_one_line s :
  Js.all_chars not_terminator s = true →
  Js.all_chars not_terminator (Renderer.escape_quotes s) = true.
Proof.
  induction s as [|c s IH]; [done|]. simpl.
  intros [Hc Hs]%andb_prop. destruct (Js.is_char "034" c); simpl.
  - by rewrite IH.
  - by rewrite Hc, IH.
Qed.

Ltac next_char :=
  rewrite match_description_other by (by intros [=]);
  match goal with
  | |- context [Js.is_line_terminator ?c] =>
      let b := eval vm_compute in (Js.is_line_terminator c) in
      change (Js.is_line_terminator c) with b
  end.

(** X20: the description that [list-skills] shows for a manifest made
    from the template of the "create" dialog is the description of the
    dialog, or the default one, with its quotes escaped, between the two
    double quotes of the template, cut at 200 characters: the quotes of
    the YAML header are not removed. The name and the description span no
    line break. *)
Theorem listed_description_of_template name description :
  Js.all_chars not_terminator name = true →
  Js.all_chars not_terminator description = true →
  extract_description (Renderer.skill_template name description)
  = Js.take 200
      (quote +:+ Renderer.escape_quotes
                   (if decide (description = "") then "A custom Claude skill"
                    else description) +:+ quote).
Proof.
  intros Hname Hdesc. unfold Renderer.skill_template. cbv zeta.
  set (yn := Renderer.escape_quotes name).
  set (yd := Renderer.escape_quotes _).
  assert (Hyn : Js.all_chars not_terminator yn = true)
    by by apply escape_quotes_one_line.
  assert (Hyd : Js.all_chars not_terminator yd = true).
  { apply escape_quotes_one_line. by destruct (decide (description = "")). }
  assert (Hmatch : match_description true
            ("---" +:+ nl_char +:+ "name: " +:+ quote +:+ yn +:+ quote
             +:+ nl_char +:+ "description: " +:+ quote +:+ yd +:+ quote
             +:+ nl_char +:+ "---" +:+ nl_char)
          = Some (quote +:+ yd +:+ quote)).
  { unfold nl_char, quote.
    repeat (rewrite str_app_cons || rewrite str_app_nil_l).
    do 11 next_char.
    rewrite match_description_skip by done.
    do 2 next_char.
    match goal with
    | |- match_description true ?t = _ =>
        lazymatch t with
        | context [String " " ?r] =>
            change t with ("description:" +:+ String " " r)
        end
    end.
    apply match_description_here.
    cbn [after_key]. change (Js.is_space " ") with true.
    change (Js.is_space "034") with false. cbv beta iota.
    cbn [capture_value]. change (Js.is_line_terminator "034") with false.
    cbv beta iota. rewrite rest_of_line_app by done.
    cbn [rest_of_line]. change (Js.is_line_terminator "034") with false.
    change (Js.is_line_terminator "010") with true. done. }
  unfold extract_description. cbv zeta. rewrite Hmatch.
  unfold quote. rewrite str_app_cons, str_app_nil_l.
  by rewrite trim_quoted.
Qed.

Lemma listed_description_of_template_witness :
  extract_description (Renderer.skill_template "my-skill" "Makes tea")
  = String "034" ("Makes tea" +:+ String "034" "").
Proof.
  rewrite (listed_description_of_template "my-skill" "Makes tea");
    [by vm_compute | reflexivity | reflexivity].
Defined.

(** ** A file made where one is already *)

Lemma dirname_seg x : seg_ok x → Path.dirname x = ".".
Proof.
  intros Hx. destruct (chars_seg x Hx) as [Hne Hall].
  unfold Path.dirname.
  destruct (String.list_ascii_of_string x) as [|c0 tl]; [done|].
  apply Forall_cons in Hall as [Hc0 Htl]. rewrite Hc0.
  assert (Hrev : Forall (λ c, Path.is_sep c = false) (rev tl))
    by by apply Forall_rev.
  cbv zeta. rewrite (drop_while_none Path.is_sep).
  - rewrite <- (app_nil_r (rev tl)), drop_while_all; [done|].
    eapply Forall_impl; [exact Hrev|]. intros c Hc. simpl. by rewrite Hc.
  - intros c l' E. rewrite E in Hrev. by apply Forall_cons in Hrev as [? _].
Qed.

Lemma basename_seg x : seg_ok x → Path.basename x = x.
Proof. intros Hx. unfold Path.basename. by rewrite segments_seg. Qed.

Lemma norm_go_dot allow acc l :
  Path.norm_go allow acc ("." :: l) = Path.norm_go allow acc l.
Proof.
  cbn [Path.norm_go]. by destruct (decide (("." : string) = ".")).
Qed.

Lemma join_dot d x :
  Forall proper d → proper x →
  Path.join [abs_path d; "."; x] = abs_path (d ++ [x]).
Proof.
  intros Hd Hx. pose proof (proper_seg_ok _ Hx) as Hok.
  assert (Hne : x ≠ "") by by destruct Hok.
  unfold Path.join. cbn [Path.join_args].
  rewrite (decide_False (P := abs_path d = "")) by done.
  rewrite (decide_False (P := "." = "")) by done.
  rewrite (decide_False (P := x = "")) by done.
  set (X := (abs_path d +:+ "/" +:+ ".") +:+ "/" +:+ x).
  assert (Hc : canon X = d ++ [x]).
  { unfold canon, X. rewrite !segments_app_sep.
    rewrite segments_abs by by apply proper_ok_list.
    rewrite (segments_seg x) by done.
    change (Path.segments ".") with ["."].
    rewrite <- (assoc_L (++)), norm_go_app by done.
    cbn [app]. rewrite norm_go_dot.
    rewrite norm_go_id by by apply Forall_singleton.
    by rewrite app_nil_r, rev_involutive. }
  rewrite normalize_absolute_exact; [by rewrite Hc|done| |].
  - unfold X. rewrite <- str_app_assoc, endsWithChar_app by done.
    by apply endsWithChar_seg.
  - rewrite Hc. by destruct d.
Qed.

Lemma put_file_over_file n l m content size new :
  Fs.lookup n (l ++ [m]) = Some (File content size) →
  ∃ n', Fs.put_file n (l ++ [m]) new = Ok n'.
Proof.
  revert n. induction l as [|s l IH]; intros n Hn.
  - destruct n as [|es]; [done|]. simpl in *.
    destruct (Fs.entry_lookup m es) as [[|]|]; try done; eauto.
  - destruct n as [|es]; [done|]. cbn [app] in *.
    rewrite put_file_cons by (by destruct l). cbn [Fs.lookup] in Hn.
    destruct (Fs.entry_lookup s es) as [c|]; [|done].
    destruct (IH c Hn) as [c' ->]. simpl. eauto.
Qed.

(** X21: [create-file] does not look at what is already there: for a
    bundle and the name of a file of its directory that the sanitizer
    leaves as it is, [SKILL.md] included, it answers with a success and
    the name, the file then holds the new content, and every place that
    held something still does. *)
Theorem create_file_overwrites
    cwd userData skillPath skillDir name content old size fs :
  Path.isAbsolute cwd = true →
  bundle cwd userData skillPath skillDir →
  sanitizeFileName name = Ok name → name ≠ "." → name ≠ ".." →
  Fs.lookup fs (locate cwd (Path.join [skillDir; name]))
  = Some (File old size) →
  ∃ fs',
    create_file cwd userData
      {| cf_skillPath := skillPath; cf_filePath := name;
         cf_content := content |} fs
    = (Ok (Success name), fs')
    ∧ Fs.lookup fs' (locate cwd (Path.join [skillDir; name]))
      = Some (File content (Fs.utf8_length content))
    ∧ ∀ p, is_Some (Fs.lookup fs p) → is_Some (Fs.lookup fs' p).
Proof.
  intros Hcwd Hb Hs Hdot Hdots Hfile.
  destruct (bundle_dir _ _ _ _ Hcwd Hb) as (d & Hd & Hdne & ->).
  destruct Hb as (Hne & _ & vp & Hv & Hdir).
  pose proof (sanitizeFileName_proper _ _ Hs Hdot Hdots) as Hproper.
  pose proof (proper_seg_ok _ Hproper) as Hok.
  assert (Hdn : Forall proper (d ++ [name]))
    by (apply Forall_app; split; [done|by apply Forall_singleton]).
  rewrite join_abs_seg, locate_abs in * by done.
  destruct (lookup_parent_dir _ _ _ _ Hfile ltac:(done)) as [es Hes].
  destruct (put_file_over_file fs d name old size
              (File content (Fs.utf8_length content)) Hfile) as [fs' Hput].
  exists fs'. split; [|split].
  - unfold create_file, createFileSchema. run_io.
    rewrite (nonempty_true skillPath), (nonempty_true name)
      by (done || by destruct Hok).
    simpl. rewrite Hv. simpl. rewrite Hdir.
    rewrite basename_seg, dirname_seg by done. rewrite Hs. simpl.
    rewrite join_dot by done.
    rewrite <- (join_abs_seg d name) at 1 by done.
    rewrite (validate_inside cwd d name [name]);
      [|done|done|by apply segments_seg|by apply Forall_singleton|done].
    simpl. rewrite dirname_abs by done.
    unfold mkdir_recursive, writeFile_utf8, writeFile.
    rewrite !locate_abs by done.
    rewrite (mkdir_p_existing _ _ _ Hes). by rewrite Hput.
  - by eapply put_file_lookup.
  - intros p Hp. by eapply put_file_mono.
Qed.

Lemma create_file_overwrites_witness :
  ∃ fs',
    create_file demo_cwd demo_userData
      {| cf_skillPath := demo_skill; cf_filePath := "SKILL.md";
         cf_content := "" |} demo_disk
    = (Ok (Success "SKILL.md"), fs')
    ∧ Fs.lookup fs' ["home"; "u"; "app"; "skills"; "demo"; "SKILL.md"]
      = Some (File "" 0).
Proof.
  destruct (create_file_overwrites demo_cwd demo_userData demo_skill demo_dir
              "SKILL.md" "" demo_manifest 50 demo_disk eq_refl demo_is_bundle
              eq_refl ltac:(done) ltac:(done) ltac:(by vm_compute))
    as (fs' & Hrun & Hnew & _).
  exists fs'. split; [exact Hrun|exact Hnew].
Defined.

(** ** Moving on the disk *)

Lemma lookup_prefix n a b :
  is_Some (Fs.lookup n (a ++ b)) → is_Some (Fs.lookup n a).
Proof. rewrite lookup_app. by destruct (Fs.lookup n a). Qed.

(** [fs.rename] of something to a free name in a directory that is
    there, and not below the thing itself. *)
Lemma rename_moves cwd old new lo o ln m n es fs :
  unique_names fs →
  locate cwd old = lo ++ [o] → locate cwd new = ln ++ [m] →
  Fs.lookup fs (lo ++ [o]) = Some n → Fs.lookup fs (ln ++ [m]) = None →
  Fs.lookup fs ln = Some (Dir es) →
  ¬ (lo ++ [o]) `prefix_of` (ln ++ [m]) →
  ∃ fs', rename cwd old new fs = (Ok (), fs')
         ∧ Fs.lookup fs' (ln ++ [m]) = Some n
         ∧ Fs.lookup fs' (lo ++ [o]) = None
         ∧ ∀ p, ¬ (lo ++ [o]) `prefix_of` p → ¬ p `prefix_of` (lo ++ [o]) →
                ¬ (ln ++ [m]) `prefix_of` p → ¬ p `prefix_of` (ln ++ [m]) →
                Fs.lookup fs' p = Fs.lookup fs p.
Proof.
  intros Hu Hold Hnew Hn Hnone Hes Hom.
  assert (Hmo : ¬ (ln ++ [m]) `prefix_of` (lo ++ [o])).
  { intros [k Hk]. rewrite Hk in Hn.
    assert (is_Some (Fs.lookup fs (ln ++ [m]))) as [x Hx]
      by (apply (lookup_prefix _ _ k); by rewrite Hn).
    by rewrite Hx in Hnone. }
  destruct (rm_rf_keeps fs (lo ++ [o]) ln (Dir es)) as (x' & Hx' & Hdir & _);
    [|done|].
  { intros [k Hk]. apply Hom. exists (k ++ [m]).
    by rewrite Hk, <- (assoc_L (++)). }
  destruct (Hdir es eq_refl) as [es' ->].
  assert (Hfree : Fs.lookup (Fs.rm_rf fs (lo ++ [o])) (ln ++ [m]) = None)
    by by rewrite rm_rf_frame.
  destruct (put_node_ok _ _ _ n _ Hx' Hfree) as (fs' & Hput & Hthere & Hframe).
  exists fs'. unfold rename. rewrite Hold, Hnew, Hn.
  rewrite bool_decide_eq_false_2 by done. rewrite Hput.
  split; [done|]. split; [done|]. split.
  - rewrite Hframe by done.
    rewrite <- (app_nil_r (lo ++ [o])) at 2. apply rm_rf_gone; [done|].
    by destruct lo.
  - intros p H1 H2 H3 H4. rewrite Hframe by done. by apply rm_rf_frame.
Qed.

(** X22: [move-file] moves what is at the old path to the new one: when
    both paths are accepted in the bundle, the old one is not called
    [SKILL.md], something is at the old path, nothing at the new one, the
    directory of the new one is there and the new path is not below the
    old one, the answer is a success, the new path holds what the old one
    held, nothing is left at the old path, and the places neither above
    nor below the two paths hold what they held. *)
Theorem move_file_moves
    cwd userData fs skillPath oldPath newPath vp v v' n es :
  Path.isAbsolute cwd = true →
  skillPath ≠ "" → oldPath ≠ "" → newPath ≠ "" →
  validateSkillPath cwd skillPath (getSkillsDir userData) = Ok vp →
  validateSkillPath cwd (Path.join [Path.dirname vp; oldPath])
    (Path.dirname vp) = Ok v →
  validateSkillPath cwd (Path.join [Path.dirname vp; newPath])
    (Path.dirname vp) = Ok v' →
  Path.basename v ≠ "SKILL.md" →
  unique_names fs →
  Fs.lookup fs (locate cwd v) = Some n →
  Fs.lookup fs (locate cwd v') = None →
  Fs.lookup fs (locate cwd (Path.dirname v')) = Some (Dir es) →
  ¬ locate cwd v `prefix_of` locate cwd v' →
  ∃ fs',
    move_file cwd userData
      {| mov_skillPath := skillPath; mov_oldPath := oldPath;
         mov_newPath := newPath |} fs
    = (Ok (Success ()), fs')
    ∧ Fs.lookup fs' (locate cwd v') = Some n
    ∧ Fs.lookup fs' (locate cwd v) = None
    ∧ ∀ p, ¬ locate cwd v `prefix_of` p → ¬ p `prefix_of` locate cwd v →
           ¬ locate cwd v' `prefix_of` p → ¬ p `prefix_of` locate cwd v' →
           Fs.lookup fs' p = Fs.lookup fs p.
Proof.
  intros Hcwd Hsp Hop Hnp Hvp Hv Hv' Hbase Hu Hn Hnone Hes Hnp'.
  destruct (validate_canonical _ _ _ _ Hcwd Hv) as (lo0 & Hlo & ->).
  destruct (validate_canonical _ _ _ _ Hcwd Hv') as (ln0 & Hln & ->).
  rewrite ?(locate_abs cwd lo0 Hlo), ?(locate_abs cwd ln0 Hln) in *.
  destruct (exists_last (l := lo0)) as (lo & o & ->).
  { intros ->. apply Hnp', prefix_nil. }
  destruct (exists_last (l := ln0)) as (ln & m & ->); [by intros ->|].
  assert (Hln' : Forall proper ln) by by apply Forall_app in Hln as [? _].
  assert (Hm : proper m)
    by (apply Forall_app in Hln as [_ Hm]; by apply Forall_inv in Hm).
  rewrite dirname_abs, locate_abs in Hes by done.
  destruct (rename_moves cwd (abs_path (lo ++ [o])) (abs_path (ln ++ [m]))
              lo o ln m n es fs Hu) as (fs' & Hren & Hnew & Hold & Hframe);
    [by apply locate_abs | by apply locate_abs | done | done | done | done |].
  exists fs'. split; [|done].
  unfold move_file, moveFileSchema. run_io.
  rewrite !nonempty_true by done. simpl. rewrite Hvp. simpl.
  rewrite Hv. simpl. rewrite Hv'. simpl. rewrite eqb_false by done. simpl.
  unfold existsSync. rewrite !locate_abs by done.
  rewrite bool_decide_eq_true_2 by (by rewrite Hn). simpl.
  rewrite bool_decide_eq_false_2 by (rewrite Hnone; by intros [? ?]). simpl.
  unfold mkdir_recursive. rewrite dirname_abs, locate_abs by done.
  rewrite (mkdir_p_existing _ _ _ Hes). by rewrite Hren.
Qed.

Lemma move_file_moves_witness :
  ∃ fs',
    move_file demo_cwd demo_userData
      {| mov_skillPath := demo_skill; mov_oldPath := "a.txt";
         mov_newPath := "z/a.txt" |} demo_disk
    = (Ok (Success ()), fs')
    ∧ Fs.lookup fs' ["home"; "u"; "app"; "skills"; "demo"; "z"; "a.txt"]
      = Some (File "a" 1)
    ∧ Fs.lookup fs' ["home"; "u"; "app"; "skills"; "demo"; "a.txt"] = None.
Proof.
  destruct (move_file_moves demo_cwd demo_userData demo_disk
              demo_skill "a.txt" "z/a.txt"
              "/home/u/app/skills/demo/SKILL.md"
              "/home/u/app/skills/demo/a.txt"
              "/home/u/app/skills/demo/z/a.txt" (File "a" 1) []
              eq_refl ltac:(done) ltac:(done) ltac:(done)
              ltac:(by vm_compute) ltac:(by vm_compute) ltac:(by vm_compute)
              ltac:(by vm_compute) demo_disk_unique
              ltac:(by vm_compute) ltac:(by vm_compute) ltac:(by vm_compute))
    as (fs' & Hrun & Hnew & Hold & _).
  - change (locate demo_cwd "/home/u/app/skills/demo/a.txt")
      with ["home"; "u"; "app"; "skills"; "demo"; "a.txt"].
    change (locate demo_cwd "/home/u/app/skills/demo/z/a.txt")
      with ["home"; "u"; "app"; "skills"; "demo"; "z"; "a.txt"].
    intros [k Hk]. discriminate Hk.
  - exists fs'. split; [exact Hrun|]. split; [exact Hnew|exact Hold].
Defined.

(** ** Folders *)

Lemma mkdir_p_child n l m es :
  Fs.lookup n l = Some (Dir es) → Fs.lookup n (l ++ [m]) = None →
  ∃ n', Fs.mkdir_p n (l ++ [m]) = Ok n'.
Proof.
  revert n. induction l as [|s l IH]; intros n Hdir Hnone.
  - simpl in Hdir. injection Hdir as ->. simpl in *.
    destruct (Fs.entry_lookup m es); [done|]. simpl. eauto.
  - destruct n as [|es0]; [done|]. cbn [app Fs.lookup Fs.mkdir_p] in *.
    destruct (Fs.entry_lookup s es0) as [c|]; [|done]. simpl.
    destruct (IH c Hdir Hnone) as [c' ->]. simpl. eauto.
Qed.

Lemma mkdir_p_over_file n segs content size :
  Fs.lookup n segs = Some (File content size) →
  ∃ e, Fs.mkdir_p n segs = Throw e.
Proof.
  revert n. induction segs as [|s rest IH]; intros n; simpl.
  - intros [= ->]. eauto.
  - destruct n as [|es]; [done|].
    destruct (Fs.entry_lookup s es) as [c|]; [|done]. simpl.
    intros [e ->]%IH. simpl. eauto.
Qed.

(** X23: [create-folder], for a bundle and a name that the sanitizer
    leaves as it is: where a directory of that name is already, the answer
    is a success and the disk is unchanged; where a file of that name is,
    the answer is a failure and the disk is unchanged; where nothing is,
    in a bundle directory that is there, the answer is a success, an empty
    directory is made, and every place that held something still does. *)
Theorem create_folder_makes cwd userData skillPath skillDir name fs :
  Path.isAbsolute cwd = true →
  bundle cwd userData skillPath skillDir →
  sanitizeFileName name = Ok name → name ≠ "." → name ≠ ".." →
  let request := {| cd_skillPath := skillPath; cd_folderPath := name |} in
  let place := locate cwd (Path.join [skillDir; name]) in
  (∀ es, Fs.lookup fs place = Some (Dir es) →
         create_folder cwd userData request fs = (Ok (Success name), fs))
  ∧ (∀ content size, Fs.lookup fs place = Some (File content size) →
       create_folder cwd userData request fs
       = (Ok (Failure "Failed to create folder"), fs))
  ∧ (∀ es, Fs.lookup fs place = None →
       Fs.lookup fs (locate cwd skillDir) = Some (Dir es) →
       ∃ fs', create_folder cwd userData request fs = (Ok (Success name), fs')
              ∧ Fs.lookup fs' place = Some (Dir [])
              ∧ ∀ p, is_Some (Fs.lookup fs p) → is_Some (Fs.lookup fs' p)).
Proof.
  intros Hcwd Hb Hs Hdot Hdots request place.
  destruct (bundle_dir _ _ _ _ Hcwd Hb) as (d & Hd & Hdne & ->).
  destruct Hb as (Hne & _ & vp & Hv & Hdir).
  pose proof (sanitizeFileName_proper _ _ Hs Hdot Hdots) as Hproper.
  pose proof (proper_seg_ok _ Hproper) as Hok.
  assert (Hdn : Forall proper (d ++ [name]))
    by (apply Forall_app; split; [done|by apply Forall_singleton]).
  assert (Hplace : place = d ++ [name])
    by (unfold place; by rewrite join_abs_seg, locate_abs).
  rewrite Hplace. clear Hplace place.
  assert (Hrun : create_folder cwd userData request fs
    = match Fs.mkdir_p fs (d ++ [name]) with
      | Ok fs' => (Ok (Success name), fs')
      | Throw e => (Ok (Failure "Failed to create folder"), fs)
      end).
  { unfold create_folder, createFolderSchema, request. run_io.
    rewrite (nonempty_true skillPath), (nonempty_true name)
      by (done || by destruct Hok).
    simpl. rewrite Hv. simpl. rewrite Hdir.
    rewrite basename_seg, dirname_seg by done. rewrite Hs. simpl.
    rewrite join_dot by done.
    rewrite <- (join_abs_seg d name) at 1 by done.
    rewrite (validate_inside cwd d name [name]);
      [|done|done|by apply segments_seg|by apply Forall_singleton|done].
    simpl. unfold mkdir_recursive. rewrite locate_abs by done.
    by destruct (Fs.mkdir_p fs (d ++ [name])). }
  rewrite Hrun. split; [|split].
  - intros es Hes. by rewrite (mkdir_p_existing _ _ _ Hes).
  - intros content size Hfile.
    by destruct (mkdir_p_over_file _ _ _ _ Hfile) as [e ->].
  - intros es Hnone Hes. rewrite locate_abs in Hes by done.
    destruct (mkdir_p_child _ _ _ _ Hes Hnone) as [fs' Hmk].
    rewrite Hmk. exists fs'. split; [done|]. split.
    + by eapply mkdir_p_fresh.
    + intros p Hp. by eapply mkdir_p_mono.
Qed.

Lemma create_folder_makes_witness :
  create_folder demo_cwd demo_userData
    {| cd_skillPath := demo_skill; cd_folderPath := "z" |} demo_disk
  = (Ok (Success "z"), demo_disk)
  ∧ create_folder demo_cwd demo_userData
      {| cd_skillPath := demo_skill; cd_folderPath := "a.txt" |} demo_disk
    = (Ok (Failure "Failed to create folder"), demo_disk).
Proof.
  split.
  - destruct (create_folder_makes demo_cwd demo_userData demo_skill demo_dir
                "z" demo_disk eq_refl demo_is_bundle eq_refl
                ltac:(done) ltac:(done)) as (Hdir & _ & _).
    apply (Hdir []). by vm_compute.
  - destruct (create_folder_makes demo_cwd demo_userData demo_skill demo_dir
                "a.txt" demo_disk eq_refl demo_is_bundle eq_refl
                ltac:(done) ltac:(done)) as (_ & Hfile & _).
    apply (Hfile "a" 1%N). by vm_compute.
Defined.
